(** * Repülőjegy Foglalási Rendszer: a shallow embedding of [main.py]

    The development follows the layout of the program: the value types the
    program computes with (text, binary64 prices, naive datetimes), the
    classes [Jarat], [Legitarsasag], [JegyFoglalas], and the menu operations
    of [RepuloJegyFoglalasiRendszer], written in a state-and-exception monad
    over the system object and the outside world (standard input, printed
    lines, the clock and the random generator).  What belongs to the Python
    runtime and not to the program (the parsers [int], [float], [strptime]
    and the text methods [strip], [upper], [lower]) is a parameter of the
    embedding.  Then come the vocabulary of the properties and the
    properties themselves, C1 to C10, each with the lemmas it rests on and
    a worked instance. *)

From Stdlib Require Import ZArith Lia List Ascii String.
From Stdlib Require Import QArith Qabs Qpower Lqa.
From Stdlib Require Import Floats.SpecFloat.
From stdpp Require Import base option list gmap strings.

Local Open Scope string_scope.
Local Open Scope Z_scope.

(** ** Text

    A Python [str] is represented by its UTF-8 bytes.  [len] counts code
    points, that is, the bytes that are not continuation bytes.

    [str.strip], [str.upper] and [str.lower] belong to the Python runtime
    and depend on the Unicode tables; the program is modelled for any such
    functions (see [PyBuiltins] below).  [ascii_strip], [ascii_upper] and
    [ascii_lower] are what these methods do on text that is ASCII only
    (white space is 9..13, 28..32; the letters are a..z and A..Z); they
    serve in the worked examples and in the statements about ASCII
    text. *)
Module Str.

Definition code (c : ascii) : nat := nat_of_ascii c.

Definition is_ascii_space (c : ascii) : bool :=
  let n := code c in
  (((9 <=? n) && (n <=? 13)) || ((28 <=? n) && (n <=? 32)))%nat.

Definition is_ascii_lower (c : ascii) : bool :=
  let n := code c in ((97 <=? n) && (n <=? 122))%nat.

Definition is_ascii_upper (c : ascii) : bool :=
  let n := code c in ((65 <=? n) && (n <=? 90))%nat.

Definition ascii_upper_char (c : ascii) : ascii :=
  if is_ascii_lower c then ascii_of_nat (code c - 32) else c.

Definition ascii_lower_char (c : ascii) : ascii :=
  if is_ascii_upper c then ascii_of_nat (code c + 32) else c.

Fixpoint map (f : ascii -> ascii) (s : string) : string :=
  match s with
  | EmptyString => EmptyString
  | String c r => String (f c) (map f r)
  end.

Definition ascii_upper : string -> string := map ascii_upper_char.
Definition ascii_lower : string -> string := map ascii_lower_char.

Fixpoint ascii_lstrip (s : string) : string :=
  match s with
  | EmptyString => EmptyString
  | String c r => if is_ascii_space c then ascii_lstrip r else s
  end.

Definition ascii_rstrip (s : string) : string := String.rev (ascii_lstrip (String.rev s)).

Definition ascii_strip (s : string) : string := ascii_rstrip (ascii_lstrip s).

Definition is_continuation (c : ascii) : bool :=
  let n := code c in ((128 <=? n) && (n <? 192))%nat.

Fixpoint len (s : string) : nat :=
  match s with
  | EmptyString => 0%nat
  | String c r => if is_continuation c then len r else S (len r)
  end.

(** The letter kra, U+0138, LATIN SMALL LETTER KRA: a lowercase letter
    ([str.islower] holds of it) that has no upper-case form; its UTF-8
    bytes are 196 and 184.  [contains_kra s]: the letter occurs in [s]. *)
Definition kra : string :=
  String (ascii_of_nat 196) (String (ascii_of_nat 184) EmptyString).

Fixpoint contains_kra (s : string) : bool :=
  match s with
  | EmptyString => false
  | String a r =>
      match r with
      | EmptyString => false
      | String b _ => ((code a =? 196) && (code b =? 184))%nat || contains_kra r
      end
  end.

(** Every byte of [s] is below 128. *)
Fixpoint is_ascii (s : string) : bool :=
  match s with
  | EmptyString => true
  | String c r => (code c <? 128)%nat && is_ascii r
  end.

(** No character of [s] is one of a..z. *)
Fixpoint no_ascii_lower (s : string) : bool :=
  match s with
  | EmptyString => true
  | String c r => negb (is_ascii_lower c) && no_ascii_lower r
  end.

(** [s] and [t] are the same text up to the case of the letters a..z. *)
Fixpoint same_modulo_ascii_case (s t : string) : bool :=
  match s, t with
  | EmptyString, EmptyString => true
  | String c r, String d u =>
      (Ascii.eqb c d || Ascii.eqb (ascii_upper_char c) d || Ascii.eqb c (ascii_upper_char d))
      && same_modulo_ascii_case r u
  | _, _ => false
  end.

End Str.

(** ** Prices: IEEE 754 binary64, as Python's [float] *)
Module Float.

Definition prec : Z := 53.
Definition emax : Z := 1024.

Definition mul : spec_float -> spec_float -> spec_float := SFmul prec emax.
Definition leb : spec_float -> spec_float -> bool := SFleb.

(** [float(n)] for an integer literal that is exactly representable. *)
Definition of_Z (n : Z) : spec_float := binary_normalize prec emax n 0 false.

(** The literals [0.8], [1.3] and [0.7]: the binary64 numbers nearest to
    them, 0x3FE999999999999A, 0x3FF4CCCCCCCCCCCD and 0x3FE6666666666666. *)
Definition c0_8 : spec_float := S754_finite false 7205759403792794 (-53).
Definition c1_3 : spec_float := S754_finite false 5854679515581645 (-52).
Definition c0_7 : spec_float := S754_finite false 6305039478318694 (-53).

Definition is_finite (x : spec_float) : bool :=
  match x with
  | S754_zero _ | S754_finite _ _ _ => true
  | _ => false
  end.

(** The rational number a float stands for (0 for what is not finite). *)
Definition value (x : spec_float) : Q :=
  match x with
  | S754_finite s m e =>
      ((if s then - inject_Z (Zpos m) else inject_Z (Zpos m)) * Qpower 2 e)%Q
  | _ => 0%Q
  end.

(** The integer part, rounding toward zero (Python's [int(x)] on a finite
    float). *)
Definition trunc (x : spec_float) : Z :=
  match x with
  | S754_finite s m e =>
      let a := match e with
               | Z0 => Zpos m
               | Zpos p => Zpos m * 2 ^ Zpos p
               | Zneg p => Zpos m / 2 ^ Zpos p
               end in
      if s then - a else a
  | _ => 0
  end.

End Float.

(** ** Naive datetimes

    Python compares two naive [datetime] values field by field, from the
    year down to the microsecond. *)
Record datetime : Type := mkDatetime {
  year : Z; month : Z; day : Z;
  hour : Z; minute : Z; second : Z; microsecond : Z
}.

(** [datetime(y, m, d)]: midnight of that day. *)
Definition datetime_ymd (y m d : Z) : datetime := mkDatetime y m d 0 0 0 0.

Definition lex (c : comparison) (k : comparison) : comparison :=
  match c with Eq => k | _ => c end.

Definition datetime_cmp (a b : datetime) : comparison :=
  lex (Z.compare (year a) (year b))
 (lex (Z.compare (month a) (month b))
 (lex (Z.compare (day a) (day b))
 (lex (Z.compare (hour a) (hour b))
 (lex (Z.compare (minute a) (minute b))
 (lex (Z.compare (second a) (second b))
      (Z.compare (microsecond a) (microsecond b))))))).

Definition datetime_ltb (a b : datetime) : bool :=
  match datetime_cmp a b with Lt => true | _ => false end.

Definition datetime_gtb (a b : datetime) : bool :=
  match datetime_cmp a b with Gt => true | _ => false end.

(** ** The classes of the domain model *)

Inductive JaratStatusz : Type := AKTIV | INAKTIV.

Definition JaratStatusz_eqb (a b : JaratStatusz) : bool :=
  match a, b with
  | AKTIV, AKTIV | INAKTIV, INAKTIV => true
  | _, _ => false
  end.

(** The concrete class of a [Jarat] object, which [isinstance] and
    [get_jarat_tipus] inspect. *)
Inductive JaratOsztaly : Type := BelfoldiJarat | NemzetkoziJarat.

Module Jarat.

Record t : Type := mk {
  jaratszam : string;
  indulo_repter : string;
  celallomas : string;
  jegyar : spec_float;
  legitarsasag : string;
  datum : datetime;
  statusz : JaratStatusz;
  osztaly : JaratOsztaly;
  repulesi_ido : Z
}.

(** [Jarat.__init__], followed by the subclass's [self.repulesi_ido = ...];
    [now] is the value [datetime.now()] returns inside the constructor. *)
Definition init (o : JaratOsztaly) (ido : Z)
    (jaratszam indulo_repter celallomas : string) (jegyar : spec_float)
    (legitarsasag : string) (datum now : datetime) : t :=
  mk jaratszam indulo_repter celallomas jegyar legitarsasag datum
     (if datetime_gtb datum now then AKTIV else INAKTIV) o ido.

(** [BelfoldiJarat.__init__] *)
Definition init_belfoldi (jaratszam indulo cel : string) (ar : spec_float)
    (legitarsasag : string) (datum now : datetime) : t :=
  init BelfoldiJarat 2 jaratszam indulo cel (Float.mul ar Float.c0_8)
       legitarsasag datum now.

(** [NemzetkoziJarat.__init__] *)
Definition init_nemzetkozi (jaratszam indulo cel : string) (ar : spec_float)
    (legitarsasag : string) (datum now : datetime) : t :=
  init NemzetkoziJarat 8 jaratszam indulo cel (Float.mul ar Float.c1_3)
       legitarsasag datum now.

Definition get_jarat_tipus (j : t) : string :=
  match osztaly j with
  | BelfoldiJarat => "Belföldi"
  | NemzetkoziJarat => "Nemzetközi"
  end.

Definition is_aktiv (j : t) : bool := JaratStatusz_eqb (statusz j) AKTIV.

Definition isinstance (o : JaratOsztaly) (j : t) : bool :=
  match osztaly j, o with
  | BelfoldiJarat, BelfoldiJarat | NemzetkoziJarat, NemzetkoziJarat => true
  | _, _ => false
  end.

End Jarat.

(** What a raised [ValueError] says. *)
Inductive ValueErrorOk : Type :=
| JaratszamMarLetezik (jaratszam : string)
| InvalidLiteral (s : string)
| DoesNotMatchFormat (s : string)
| CannotConvertNaN.

Inductive exn : Type :=
| EOFError
| IndexError
| AttributeError
| OverflowError
| ValueError (ok : ValueErrorOk).

Module Legitarsasag.

Record t : Type := mk {
  nev : string;
  jaratok : list Jarat.t
}.

Definition init (nev : string) : t := mk nev [].

(** [jarat_hozzaadasa]: the object after the call, or the exception
    raised (the object is then as it was). *)
Definition jarat_hozzaadasa (self : t) (jarat : Jarat.t) : exn + t :=
  if existsb (fun j => String.eqb (Jarat.jaratszam j) (Jarat.jaratszam jarat))
             (jaratok self)
  then inl (ValueError (JaratszamMarLetezik (Jarat.jaratszam jarat)))
  else inr (mk (nev self) (jaratok self ++ [jarat])).

Fixpoint get_jarat_by_jaratszam_in (l : list Jarat.t) (jaratszam : string)
    : option Jarat.t :=
  match l with
  | [] => None
  | jarat :: rest =>
      if String.eqb (Jarat.jaratszam jarat) jaratszam then Some jarat
      else get_jarat_by_jaratszam_in rest jaratszam
  end.

Definition get_jarat_by_jaratszam (self : t) (jaratszam : string)
    : option Jarat.t :=
  get_jarat_by_jaratszam_in (jaratok self) jaratszam.

End Legitarsasag.

Inductive FoglalasStatusz : Type := Aktiv | Lemondva.

Definition FoglalasStatusz_eqb (a b : FoglalasStatusz) : bool :=
  match a, b with
  | Aktiv, Aktiv | Lemondva, Lemondva => true
  | _, _ => false
  end.

Module JegyFoglalas.

Record t : Type := mk {
  foglalas_id : string;
  jaratszam : string;
  indulo : string;
  celallomas : string;
  datum : datetime;
  utas_nev : string;
  ar : spec_float;
  statusz : FoglalasStatusz
}.

(** [JegyFoglalas.__init__], given the identifier that
    [_generate_foglalas_id] returned. *)
Definition init (foglalas_id : string) (jarat : Jarat.t) (utas_nev : string) : t :=
  mk foglalas_id (Jarat.jaratszam jarat) (Jarat.indulo_repter jarat)
     (Jarat.celallomas jarat) (Jarat.datum jarat) utas_nev
     (Jarat.jegyar jarat) Aktiv.

Definition set_statusz (s : FoglalasStatusz) (f : t) : t :=
  mk (foglalas_id f) (jaratszam f) (indulo f) (celallomas f) (datum f)
     (utas_nev f) (ar f) s.

Definition is_aktiv (f : t) : bool := FoglalasStatusz_eqb (statusz f) Aktiv.
Definition is_lemondva (f : t) : bool := FoglalasStatusz_eqb (statusz f) Lemondva.

End JegyFoglalas.

(** ** The system object and the world around it *)

Record Rendszer : Type := mkRendszer {
  legitarsasag : option Legitarsasag.t;
  foglalasok : list JegyFoglalas.t;
  existing_foglalas_ids : gset string
}.

(** [RepuloJegyFoglalasiRendszer.__init__] *)
Definition Rendszer_init : Rendszer := mkRendszer None [] ∅.

(** The flights of the system's airline; none while no airline is set. *)
Definition jaratok_of (r : Rendszer) : list Jarat.t :=
  match legitarsasag r with
  | Some l => Legitarsasag.jaratok l
  | None => []
  end.

(** One constructor per [print] call of the program, carrying the values
    the line interpolates (amounts after [int(...)]).  The prompts of
    [input] are not recorded. *)
Inductive Msg : Type :=
| MNincsElerhetoJarat
| MNincsAktivJarat
| MElerhetoJaratok
| MJaratSor (i : nat) (jarat : Jarat.t) (ar : Z)
| MErvenytelenValasztas
| MJaratKivalasztva (jarat : Jarat.t) (ar : Z)
| MDatumElmult
| MDatumOK (datum : datetime)
| MNevTulRovid
| MFoglalasLetrehozva
| MFoglalasiAzonosito (foglalas_id : string)
| MFizetendo (ar : Z)
| MErvenytelenBemenet
| MHibaTortent (e : exn)
| MNincsAktivFoglalas
| MFoglalasReszletei
| MFoglalas (foglalas : JegyFoglalas.t) (ar : Z)
| MSikeresenLemondva
| MVisszaterites (osszeg : Z)
| MLemondasMegszakitva
| MNemTalalhato
| MNincsFoglalas
| MFoglalasokListaja (db : nat)
| MVonal
| MAktivFoglalasok (db : nat)
| MLemondottFoglalasok (db : nat)
| MNincsJarat
| MJaratokListaja (db : nat)
| MNincsLegitarsasag
| MUjJaratHozzaadasa
| MArPozitiv
| MErvenytelenAr
| MErvenytelenDatum
| MErvenytelenTipus
| MJaratHozzaadva (jarat : Jarat.t) (ar : Z)
| MHiba (e : exn)
| MVaratlanHiba (e : exn)
| MRendszerAllapota
| MLegitarsasag (nev : string)
| MJaratokSzama (db : nat)
| MAktivJaratok (db : nat)
| MBelfoldiJaratok (db : nat)
| MNemzetkoziJaratok (db : nat)
| MFoglalasokSzama (db : nat)
| MAktivFoglalasokSzama (db : nat)
| MLemondottFoglalasokSzama (db : nat)
| MInicializalas
| MTesztadatokBetoltve
| MCim
| MMenuPont (n : nat)
| MKoszonjuk
| MErvenytelenMenu.

(** The world: the lines still to be read from standard input, the lines
    printed so far, the clock ([ora]: the value of the n-th call of
    [datetime.now()]) and the random generator ([veletlen]: the n-th draw;
    a draw from a population of size k is that number modulo k). *)
Record Vilag : Type := mkVilag {
  stdin : list string;
  stdout : list Msg;
  ora : nat -> datetime;
  ora_poz : nat;
  veletlen : nat -> nat;
  veletlen_poz : nat
}.

Record Allapot : Type := mkAllapot {
  self : Rendszer;
  vilag : Vilag
}.

(** ** The monad of the program: state, exceptions, divergence *)

Inductive Res (A : Type) : Type :=
| Val (a : A)
| Exc (e : exn)
| Div.
Arguments Val {A} a.
Arguments Exc {A} e.
Arguments Div {A}.

Definition M (A : Type) : Type := Allapot -> Res A * Allapot.

Definition ret {A} (a : A) : M A := fun s => (Val a, s).

Definition bind {A B} (m : M A) (k : A -> M B) : M B :=
  fun s =>
    match m s with
    | (Val a, s') => k a s'
    | (Exc e, s') => (Exc e, s')
    | (Div, s') => (Div, s')
    end.

Definition raise {A} (e : exn) : M A := fun s => (Exc e, s).

Definition diverge {A} : M A := fun s => (Div, s).

(** [try: m except ...: h e] *)
Definition try_except {A} (m : M A) (h : exn -> M A) : M A :=
  fun s =>
    match m s with
    | (Exc e, s') => h e s'
    | r => r
    end.

Notation "'do' x <- m ; k" := (bind m (fun x => k))
  (at level 10, x name, m at level 100, k at level 200).

Definition get_self : M Rendszer := fun s => (Val (self s), s).

Definition put_self (r : Rendszer) : M unit :=
  fun s => (Val tt, mkAllapot r (vilag s)).

Definition print (m : Msg) : M unit :=
  fun s =>
    let w := vilag s in
    (Val tt, mkAllapot (self s)
       (mkVilag (stdin w) (stdout w ++ [m]) (ora w) (ora_poz w)
                (veletlen w) (veletlen_poz w))).

(** [input(...)]: the next line, or [EOFError] at the end of the input. *)
Definition input : M string :=
  fun s =>
    let w := vilag s in
    match stdin w with
    | [] => (Exc EOFError, s)
    | line :: rest =>
        (Val line, mkAllapot (self s)
           (mkVilag rest (stdout w) (ora w) (ora_poz w)
                    (veletlen w) (veletlen_poz w)))
    end.

Definition datetime_now : M datetime :=
  fun s =>
    let w := vilag s in
    (Val (ora w (ora_poz w)), mkAllapot (self s)
       (mkVilag (stdin w) (stdout w) (ora w) (S (ora_poz w))
                (veletlen w) (veletlen_poz w))).

Definition random_draw : M nat :=
  fun s =>
    let w := vilag s in
    (Val (veletlen w (veletlen_poz w)), mkAllapot (self s)
       (mkVilag (stdin w) (stdout w) (ora w) (ora_poz w)
                (veletlen w) (S (veletlen_poz w)))).

Definition of_sum {A} (r : exn + A) : M A :=
  match r with
  | inl e => raise e
  | inr a => ret a
  end.

Definition of_option {A} (e : exn) (o : option A) : M A :=
  match o with
  | Some a => ret a
  | None => raise e
  end.

(** [l[i]] with Python's negative indices. *)
Definition getitem {A} (l : list A) (i : Z) : M A :=
  let n := Z.of_nat (length l) in
  if (0 <=? i) && (i <? n) then of_option IndexError (l !! Z.to_nat i)
  else if (- n <=? i) && (i <? 0) then of_option IndexError (l !! Z.to_nat (n + i))
  else raise IndexError.

(** [int(x)] on a float. *)
Definition int_of_float (x : spec_float) : M Z :=
  match x with
  | S754_nan => raise (ValueError CannotConvertNaN)
  | S754_infinity _ => raise OverflowError
  | _ => ret (Float.trunc x)
  end.

(** [random.choices(population, k=k)], joined into a string. *)
Definition random_choice (population : string) : M ascii :=
  do r <- random_draw;
  of_option IndexError (String.get (r mod String.length population)%nat population).

Fixpoint random_choices (population : string) (k : nat) : M string :=
  match k with
  | O => ret EmptyString
  | S k' =>
      do c <- random_choice population;
      do rest <- random_choices population k';
      ret (String c rest)
  end.

Definition ascii_uppercase : string := "ABCDEFGHIJKLMNOPQRSTUVWXYZ".
Definition digits : string := "0123456789".

(** [JegyFoglalas._generate_foglalas_id] *)
Definition _generate_foglalas_id : M string :=
  do betuk <- random_choices ascii_uppercase 2;
  do szamok <- random_choices digits 3;
  ret (String.append betuk szamok).

(** [JegyFoglalas(jarat, utas_nev)] *)
Definition new_JegyFoglalas (jarat : Jarat.t) (utas_nev : string) : M JegyFoglalas.t :=
  do foglalas_id <- _generate_foglalas_id;
  ret (JegyFoglalas.init foglalas_id jarat utas_nev).

(** [BelfoldiJarat(...)] and [NemzetkoziJarat(...)] *)
Definition new_BelfoldiJarat (jaratszam indulo cel : string) (ar : spec_float)
    (legitarsasag : string) (datum : datetime) : M Jarat.t :=
  do now <- datetime_now;
  ret (Jarat.init_belfoldi jaratszam indulo cel ar legitarsasag datum now).

Definition new_NemzetkoziJarat (jaratszam indulo cel : string) (ar : spec_float)
    (legitarsasag : string) (datum : datetime) : M Jarat.t :=
  do now <- datetime_now;
  ret (Jarat.init_nemzetkozi jaratszam indulo cel ar legitarsasag datum now).

(** ** Built-in parsers and text methods

    [int(s)], [float(s)] and [datetime.strptime(s, "%Y-%m-%d")] belong to
    the Python runtime, not to the program: each maps a string to a value,
    or to nothing where Python raises [ValueError].  So do the text methods
    [s.strip()], [s.upper()] and [s.lower()], which never raise.  The
    program is modelled for any such functions. *)
Class PyBuiltins : Type := {
  py_int : string -> option Z;
  py_float : string -> option spec_float;
  strptime_ymd : string -> option datetime;
  py_strip : string -> string;
  py_upper : string -> string;
  py_lower : string -> string
}.

Section Program.

Context {builtins : PyBuiltins}.

Definition int_of_str (s : string) : M Z :=
  of_option (ValueError (InvalidLiteral s)) (py_int s).

Definition float_of_str (s : string) : M spec_float :=
  of_option (ValueError (InvalidLiteral s)) (py_float s).

Definition strptime (s : string) : M datetime :=
  of_option (ValueError (DoesNotMatchFormat s)) (strptime_ymd s).

(** *** [RepuloJegyFoglalasiRendszer] *)

(** [self.legitarsasag.jarat_hozzaadasa(jarat)] *)
Definition self_jarat_hozzaadasa (jarat : Jarat.t) : M unit :=
  do r <- get_self;
  match legitarsasag r with
  | None => raise AttributeError
  | Some l =>
      do l' <- of_sum (Legitarsasag.jarat_hozzaadasa l jarat);
      put_self (mkRendszer (Some l') (foglalasok r) (existing_foglalas_ids r))
  end.

(** [self.foglalasok.append(foglalas)] *)
Definition foglalasok_append (foglalas : JegyFoglalas.t) : M unit :=
  do r <- get_self;
  put_self (mkRendszer (legitarsasag r) (foglalasok r ++ [foglalas])
                       (existing_foglalas_ids r)).

(** [self.existing_foglalas_ids.add(foglalas_id)] *)
Definition existing_foglalas_ids_add (foglalas_id : string) : M unit :=
  do r <- get_self;
  put_self (mkRendszer (legitarsasag r) (foglalasok r)
                       ({[ foglalas_id ]} ∪ existing_foglalas_ids r)).

(** [for foglalas in l: self.existing_foglalas_ids.add(foglalas.foglalas_id)] *)
Fixpoint ids_nyomonkovetese (l : list JegyFoglalas.t) : M unit :=
  match l with
  | [] => ret tt
  | foglalas :: rest =>
      do _ <- existing_foglalas_ids_add (JegyFoglalas.foglalas_id foglalas);
      ids_nyomonkovetese rest
  end.

(** [self.foglalasok.append(JegyFoglalas(jaratok[i], utas_nev))] *)
Definition teszt_foglalas (i : Z) (utas_nev : string) : M unit :=
  do r <- get_self;
  do jarat <- getitem (jaratok_of r) i;
  do foglalas <- new_JegyFoglalas jarat utas_nev;
  foglalasok_append foglalas.

Definition _init_test_adatok : M unit :=
  do r <- get_self;
  do _ <- put_self (mkRendszer (Some (Legitarsasag.init "Wizz Air Hungary"))
                               (foglalasok r) (existing_foglalas_ids r));
  do j1 <- new_BelfoldiJarat "WIZ001" "Budapest" "Debrecen" (Float.of_Z 15000)
                             "Wizz Air" (datetime_ymd 2023 1 1);
  do _ <- self_jarat_hozzaadasa j1;
  do j2 <- new_BelfoldiJarat "WIZ102" "Budapest" "Szeged" (Float.of_Z 20000)
                             "Wizz Air" (datetime_ymd 2025 6 10);
  do _ <- self_jarat_hozzaadasa j2;
  do j3 <- new_NemzetkoziJarat "WIZ201" "Budapest" "London" (Float.of_Z 50000)
                               "Wizz Air" (datetime_ymd 2025 6 15);
  do _ <- self_jarat_hozzaadasa j3;
  do _ <- teszt_foglalas 1 "Nagy János";
  do _ <- teszt_foglalas 1 "Kovács Béla";
  do _ <- teszt_foglalas 2 "Szabó Éva";
  do _ <- teszt_foglalas 2 "Kiss Zoltán";
  do _ <- teszt_foglalas 2 "Tóth Mária";
  do _ <- teszt_foglalas 2 "Horváth Péter";
  do r <- get_self;
  ids_nyomonkovetese (foglalasok r).

(** [print(f"{i}. {jarat}")] for the flights of [l], numbered from [i]. *)
Fixpoint print_jaratok (i : nat) (l : list Jarat.t) : M unit :=
  match l with
  | [] => ret tt
  | jarat :: rest =>
      do ar <- int_of_float (Jarat.jegyar jarat);
      do _ <- print (MJaratSor i jarat ar);
      print_jaratok (S i) rest
  end.

(** [print(foglalas)] for the bookings of [l]. *)
Fixpoint print_foglalasok (l : list JegyFoglalas.t) : M unit :=
  match l with
  | [] => ret tt
  | foglalas :: rest =>
      do ar <- int_of_float (JegyFoglalas.ar foglalas);
      do _ <- print (MFoglalas foglalas ar);
      print_foglalasok rest
  end.

(** [while foglalas.foglalas_id in self.existing_foglalas_ids:
       foglalas = JegyFoglalas(kivalasztott_jarat, utas_nev)];
    [fuel] bounds the number of new draws. *)
Fixpoint duplikacio_ellenorzes (fuel : nat) (jarat : Jarat.t) (utas_nev : string)
    (foglalas : JegyFoglalas.t) : M JegyFoglalas.t :=
  do r <- get_self;
  if bool_decide (JegyFoglalas.foglalas_id foglalas ∈ existing_foglalas_ids r)
  then match fuel with
       | O => diverge
       | S fuel' =>
           do foglalas' <- new_JegyFoglalas jarat utas_nev;
           duplikacio_ellenorzes fuel' jarat utas_nev foglalas'
       end
  else ret foglalas.

Definition jegy_foglalas (fuel : nat) : M unit :=
  do r <- get_self;
  match jaratok_of r with
  | [] => print MNincsElerhetoJarat
  | _ :: _ =>
    let aktiv_jaratok := List.filter Jarat.is_aktiv (jaratok_of r) in
    match aktiv_jaratok with
    | [] => print MNincsAktivJarat
    | _ :: _ =>
      do _ <- print MElerhetoJaratok;
      do _ <- print_jaratok 1 aktiv_jaratok;
      try_except
        (do line <- input;
         do valasztas <- int_of_str line;
         if (valasztas <? 1) || (valasztas >? Z.of_nat (length aktiv_jaratok))
         then print MErvenytelenValasztas
         else
           do kivalasztott_jarat <- getitem aktiv_jaratok (valasztas - 1);
           do ar <- int_of_float (Jarat.jegyar kivalasztott_jarat);
           do _ <- print (MJaratKivalasztva kivalasztott_jarat ar);
           do now <- datetime_now;
           if datetime_ltb (Jarat.datum kivalasztott_jarat) now
           then print MDatumElmult
           else
             do _ <- print (MDatumOK (Jarat.datum kivalasztott_jarat));
             do line <- input;
             let utas_nev := py_strip line in
             if (Str.len utas_nev <? 2)%nat
             then print MNevTulRovid
             else
               do foglalas <- new_JegyFoglalas kivalasztott_jarat utas_nev;
               do foglalas <- duplikacio_ellenorzes fuel kivalasztott_jarat
                                                    utas_nev foglalas;
               do _ <- existing_foglalas_ids_add (JegyFoglalas.foglalas_id foglalas);
               do _ <- foglalasok_append foglalas;
               do _ <- print MFoglalasLetrehozva;
               do _ <- print (MFoglalasiAzonosito (JegyFoglalas.foglalas_id foglalas));
               do ar <- int_of_float (JegyFoglalas.ar foglalas);
               print (MFizetendo ar))
        (fun e =>
           match e with
           | ValueError _ => print MErvenytelenBemenet
           | _ => print (MHibaTortent e)
           end)
    end
  end.

(** [foglalas.statusz = "Lemondva"] on the [i]-th booking of the list. *)
Definition foglalas_set_statusz (i : nat) (s : FoglalasStatusz) : M unit :=
  do r <- get_self;
  put_self (mkRendszer (legitarsasag r)
              (alter (JegyFoglalas.set_statusz s) i (foglalasok r))
              (existing_foglalas_ids r)).

(** The [for i, foglalas in enumerate(self.foglalasok)] loop of
    [foglalas_lemondasa], from index [i] over the remaining bookings [l]. *)
Fixpoint lemondas_kereses (foglalas_id : string) (i : nat)
    (l : list JegyFoglalas.t) : M unit :=
  match l with
  | [] => print MNemTalalhato
  | foglalas :: rest =>
      if String.eqb (JegyFoglalas.foglalas_id foglalas) foglalas_id
         && JegyFoglalas.is_aktiv foglalas
      then
        do _ <- print MFoglalasReszletei;
        do ar <- int_of_float (JegyFoglalas.ar foglalas);
        do _ <- print (MFoglalas foglalas ar);
        do line <- input;
        let megerosites := py_lower (py_strip line) in
        if String.eqb megerosites "i"
        then
          do _ <- foglalas_set_statusz i Lemondva;
          let visszaterites := Float.mul (JegyFoglalas.ar foglalas) Float.c0_7 in
          do _ <- print MSikeresenLemondva;
          do osszeg <- int_of_float visszaterites;
          print (MVisszaterites osszeg)
        else print MLemondasMegszakitva
      else lemondas_kereses foglalas_id (S i) rest
  end.

Definition foglalas_lemondasa : M unit :=
  do r <- get_self;
  match foglalasok r with
  | [] => print MNincsAktivFoglalas
  | _ :: _ =>
      do line <- input;
      let foglalas_id := py_upper (py_strip line) in
      lemondas_kereses foglalas_id 0 (foglalasok r)
  end.

Definition foglalasok_listazasa : M unit :=
  do r <- get_self;
  match foglalasok r with
  | [] => print MNincsFoglalas
  | _ :: _ =>
      let aktiv_foglalasok := List.filter JegyFoglalas.is_aktiv (foglalasok r) in
      let lemondott_foglalasok := List.filter JegyFoglalas.is_lemondva (foglalasok r) in
      do _ <- print (MFoglalasokListaja (length (foglalasok r)));
      do _ <- print MVonal;
      do _ <- print (MAktivFoglalasok (length aktiv_foglalasok));
      do _ <- print_foglalasok aktiv_foglalasok;
      match lemondott_foglalasok with
      | [] => ret tt
      | _ :: _ =>
          do _ <- print (MLemondottFoglalasok (length lemondott_foglalasok));
          print_foglalasok lemondott_foglalasok
      end
  end.

Definition jaratok_listazasa : M unit :=
  do r <- get_self;
  match jaratok_of r with
  | [] => print MNincsJarat
  | _ :: _ =>
      do _ <- print (MJaratokListaja (length (jaratok_of r)));
      do _ <- print MVonal;
      print_jaratok 1 (jaratok_of r)
  end.

(** The price prompt of [uj_jarat_hozzaadasa] with its own [try]: the price,
    or nothing when the operation returns there. *)
Definition alapjegyar_bekerese : M (option spec_float) :=
  try_except
    (do line <- input;
     do ar <- float_of_str line;
     if Float.leb ar (S754_zero false)
     then do _ <- print MArPozitiv; ret None
     else ret (Some ar))
    (fun e =>
       match e with
       | ValueError _ => do _ <- print MErvenytelenAr; ret None
       | _ => raise e
       end).

(** The date parse of [uj_jarat_hozzaadasa] with its own [try]. *)
Definition datum_ertelmezese (datum_str : string) : M (option datetime) :=
  try_except
    (do datum <- strptime datum_str; ret (Some datum))
    (fun e =>
       match e with
       | ValueError _ => do _ <- print MErvenytelenDatum; ret None
       | _ => raise e
       end).

(** The [if tipus == "1": ... elif tipus == "2": ... else: ...] of
    [uj_jarat_hozzaadasa]: the new flight, or nothing for any other type. *)
Definition jarat_letrehozasa (tipus jaratszam indulo cel : string) (ar : spec_float)
    (legitarsasag : string) (datum : datetime) : M (option Jarat.t) :=
  if String.eqb tipus "1"
  then do j <- new_BelfoldiJarat jaratszam indulo cel ar legitarsasag datum;
       ret (Some j)
  else if String.eqb tipus "2"
  then do j <- new_NemzetkoziJarat jaratszam indulo cel ar legitarsasag datum;
       ret (Some j)
  else ret None.

Definition uj_jarat_hozzaadasa : M unit :=
  do r <- get_self;
  match legitarsasag r with
  | None => print MNincsLegitarsasag
  | Some _ =>
    do _ <- print MUjJaratHozzaadasa;
    try_except
      (do line <- input;
       let jaratszam := py_upper (py_strip line) in
       do line <- input;
       let indulo := py_strip line in
       do line <- input;
       let cel := py_strip line in
       do ar_opt <- alapjegyar_bekerese;
       match ar_opt with
       | None => ret tt
       | Some ar =>
         do line <- input;
         let legitarsasag := py_strip line in
         do line <- input;
         let datum_str := py_strip line in
         do datum_opt <- datum_ertelmezese datum_str;
         match datum_opt with
         | None => ret tt
         | Some datum =>
           do line <- input;
           let tipus := py_strip line in
           do uj_opt <- jarat_letrehozasa tipus jaratszam indulo cel ar legitarsasag datum;
           match uj_opt with
           | None => print MErvenytelenTipus
           | Some uj_jarat =>
               do _ <- self_jarat_hozzaadasa uj_jarat;
               do ar_egesz <- int_of_float (Jarat.jegyar uj_jarat);
               print (MJaratHozzaadva uj_jarat ar_egesz)
           end
         end
       end)
      (fun e =>
         match e with
         | ValueError _ => print (MHiba e)
         | _ => print (MVaratlanHiba e)
         end)
  end.

Definition rendszer_allapota : M unit :=
  do r <- get_self;
  do _ <- print MRendszerAllapota;
  do _ <- print MVonal;
  do _ <-
    match legitarsasag r with
    | Some l =>
        do _ <- print (MLegitarsasag (Legitarsasag.nev l));
        do _ <- print (MJaratokSzama (length (Legitarsasag.jaratok l)));
        do _ <- print (MAktivJaratok
                  (length (List.filter Jarat.is_aktiv (Legitarsasag.jaratok l))));
        do _ <- print (MBelfoldiJaratok
                  (length (List.filter (Jarat.isinstance BelfoldiJarat)
                                       (Legitarsasag.jaratok l))));
        print (MNemzetkoziJaratok
                  (length (List.filter (Jarat.isinstance NemzetkoziJarat)
                                       (Legitarsasag.jaratok l))))
    | None => print MNincsLegitarsasag
    end;
  do _ <- print (MFoglalasokSzama (length (foglalasok r)));
  do _ <- print (MAktivFoglalasokSzama
            (length (List.filter JegyFoglalas.is_aktiv (foglalasok r))));
  print (MLemondottFoglalasokSzama
            (length (List.filter JegyFoglalas.is_lemondva (foglalasok r)))).

Definition menu_kiirasa : M unit :=
  do _ <- print MVonal;
  do _ <- print MCim;
  do _ <- print MVonal;
  do _ <- print (MMenuPont 1);
  do _ <- print (MMenuPont 2);
  do _ <- print (MMenuPont 3);
  do _ <- print (MMenuPont 4);
  do _ <- print (MMenuPont 5);
  do _ <- print (MMenuPont 6);
  print (MMenuPont 7).

(** The operation a menu choice runs; [None] for a choice outside 1..6. *)
Definition muvelet (fuel : nat) (valasztas : string) : option (M unit) :=
  if String.eqb valasztas "1" then Some (jegy_foglalas fuel)
  else if String.eqb valasztas "2" then Some foglalas_lemondasa
  else if String.eqb valasztas "3" then Some foglalasok_listazasa
  else if String.eqb valasztas "4" then Some uj_jarat_hozzaadasa
  else if String.eqb valasztas "5" then Some jaratok_listazasa
  else if String.eqb valasztas "6" then Some rendszer_allapota
  else None.

(** The [while True] loop of [futtatas]; [fuel] bounds the number of menu
    rounds (and, within a round, the draws of the identifier loop). *)
Fixpoint menu_ciklus (fuel : nat) : M unit :=
  match fuel with
  | O => diverge
  | S fuel' =>
      do _ <- menu_kiirasa;
      do line <- input;
      let valasztas := py_strip line in
      match muvelet fuel' valasztas with
      | Some m => do _ <- m; menu_ciklus fuel'
      | None =>
          if String.eqb valasztas "7" then print MKoszonjuk
          else do _ <- print MErvenytelenMenu; menu_ciklus fuel'
      end
  end.

Definition futtatas (fuel : nat) : M unit :=
  do _ <- print MInicializalas;
  do _ <- _init_test_adatok;
  do _ <- print MTesztadatokBetoltve;
  menu_ciklus fuel.

End Program.

(** ** Parsers for running the program on concrete input

    An instance of the built-in parsers for the worked examples.  It agrees
    with Python on the inputs it accepts: optionally signed decimal integers
    for [int] and [float], and dates written as four digits, a dash, a month
    and a day for [strptime].  It accepts nothing else, where Python accepts
    more (underscores, [float("1.5")], [float("nan")]).  Its text methods
    are the ASCII ones, which are Python's on ASCII text.  The properties
    below hold for any instance. *)
Module Parse.

Definition digit (c : ascii) : option Z :=
  let n := Str.code c in
  if ((48 <=? n) && (n <=? 57))%nat then Some (Z.of_nat (n - 48)) else None.

Fixpoint number (s : string) (acc : Z) : option Z :=
  match s with
  | EmptyString => Some acc
  | String c r =>
      match digit c with
      | Some d => number r (10 * acc + d)
      | None => None
      end
  end.

Definition natural (s : string) : option Z :=
  match s with
  | EmptyString => None
  | _ => number s 0
  end.

Definition int (s : string) : option Z :=
  match Str.ascii_strip s with
  | String "-" r => option_map Z.opp (natural r)
  | String "+" r => natural r
  | t => natural t
  end.

Definition float (s : string) : option spec_float :=
  match Str.ascii_strip s with
  | String "-" r => option_map (fun n => SFopp (Float.of_Z n)) (natural r)
  | String "+" r => option_map Float.of_Z (natural r)
  | t => option_map Float.of_Z (natural t)
  end.

(** The text before the first dash, and the text after it. *)
Fixpoint until_dash (s : string) : string * option string :=
  match s with
  | EmptyString => (EmptyString, None)
  | String "-" r => (EmptyString, Some r)
  | String c r => let '(a, b) := until_dash r in (String c a, b)
  end.

Definition is_leap (y : Z) : bool :=
  (y mod 4 =? 0) && (negb (y mod 100 =? 0) || (y mod 400 =? 0)).

Definition days_in_month (y m : Z) : Z :=
  if m =? 2 then (if is_leap y then 29 else 28)
  else if (m =? 4) || (m =? 6) || (m =? 9) || (m =? 11) then 30
  else 31.

Definition one_or_two_digits (s : string) : option Z :=
  if ((1 <=? String.length s) && (String.length s <=? 2))%nat
  then number s 0 else None.

Definition day_field (s : string) : option Z :=
  match s with
  | String " " (String c EmptyString) => digit c
  | _ => one_or_two_digits s
  end.

Definition strptime (s : string) : option datetime :=
  match until_dash s with
  | (ys, Some r) =>
      match until_dash r with
      | (ms, Some ds) =>
          match (if (String.length ys =? 4)%nat then number ys 0 else None),
                one_or_two_digits ms, day_field ds with
          | Some y, Some m, Some d =>
              if (1 <=? y) && (1 <=? m) && (m <=? 12) && (1 <=? d)
                 && (d <=? days_in_month y m)
              then Some (datetime_ymd y m d) else None
          | _, _, _ => None
          end
      | _ => None
      end
  | _ => None
  end.

Definition builtins : PyBuiltins :=
  {| py_int := int; py_float := float; strptime_ymd := strptime;
     py_strip := Str.ascii_strip; py_upper := Str.ascii_upper;
     py_lower := Str.ascii_lower |}.

End Parse.

(** A world at the start of a run: the given input lines, nothing printed,
    the given clock and random generator. *)
Definition Vilag_init (stdin : list string) (ora : nat -> datetime)
    (veletlen : nat -> nat) : Vilag :=
  mkVilag stdin [] ora 0 veletlen 0.

(** * The vocabulary of the properties *)

(** ** Relations between the system object before and after *)

(** [keeps R m]: from every state, [m] leaves the system object related by
    [R] to what it was, whatever the outcome (value, exception or
    divergence). *)
Definition keeps (R : Rendszer -> Rendszer -> Prop) {A} (m : M A) : Prop :=
  forall s, R (self s) (self (snd (m s))).

(** A flight number in the form [uj_jarat_hozzaadasa] gives it: the
    upper-cased form of a trimmed line. *)
Definition normalizalt {builtins : PyBuiltins} (jaratszam : string) : Prop :=
  exists sor, jaratszam = py_upper (py_strip sor).

(** [ascii_szoveg]: on text that is ASCII only, the text methods [strip]
    and [upper] do what Python's do there. *)
Definition ascii_szoveg {builtins : PyBuiltins} : Prop :=
  forall s, Str.is_ascii s = true ->
            py_strip s = Str.ascii_strip s /\ py_upper s = Str.ascii_upper s.

(** [bovul r r']: the flights of [r'] are those of [r], in the same order
    and unchanged, followed by flights whose number is the upper-cased form
    of a trimmed line. *)
Definition bovul {builtins : PyBuiltins} (r r' : Rendszer) : Prop :=
  exists uj,
    jaratok_of r' = (jaratok_of r ++ uj)%list /\
    Forall (fun j => normalizalt (Jarat.jaratszam j)) uj.

(** [lemondva_marad r r']: every cancelled booking of [r] is a booking of
    [r'], at the same place and unchanged. *)
Definition lemondva_marad (r r' : Rendszer) : Prop :=
  forall n f,
    foglalasok r !! n = Some f ->
    JegyFoglalas.statusz f = Lemondva ->
    foglalasok r' !! n = Some f.

(** [ids_rendben r]: the identifiers of the bookings of [r] are pairwise
    distinct and all belong to the set of used identifiers. *)
Definition ids_rendben (r : Rendszer) : Prop :=
  NoDup (List.map JegyFoglalas.foglalas_id (foglalasok r)) /\
  forall x, x ∈ List.map JegyFoglalas.foglalas_id (foglalasok r) ->
            x ∈ existing_foglalas_ids r.

(** [ids_megorzi r r']: if the identifiers of [r] are in order, so are those
    of [r']. *)
Definition ids_megorzi (r r' : Rendszer) : Prop := ids_rendben r -> ids_rendben r'.

(** ** What a run prints and returns *)

(** A state written out in full. *)
Abbreviation St r i o c cp v vp := (mkAllapot r (mkVilag i o c cp v vp)).

(** The character a draw [r] selects from [population]. *)
Definition pick (population : string) (r : nat) : ascii :=
  match String.get (r mod String.length population) population with
  | Some c => c
  | None => Ascii.zero
  end.

(** The identifier made of the five draws from position [p] on. *)
Definition id_of (v : nat -> nat) (p : nat) : string :=
  String (pick ascii_uppercase (v p))
 (String (pick ascii_uppercase (v (1 + p)%nat))
 (String (pick digits (v (2 + p)%nat))
 (String (pick digits (v (3 + p)%nat))
 (String (pick digits (v (4 + p)%nat)) EmptyString)))).

(** The lines [print_jaratok] prints when every price is finite. *)
Fixpoint jarat_sorok (i : nat) (l : list Jarat.t) : list Msg :=
  match l with
  | [] => []
  | jarat :: rest =>
      MJaratSor i jarat (Float.trunc (Jarat.jegyar jarat)) :: jarat_sorok (S i) rest
  end.

(** The lines [rendszer_allapota] prints for a system with an airline. *)
Definition allapot_sorok (l : Legitarsasag.t) (fs : list JegyFoglalas.t) : list Msg :=
  [MRendszerAllapota; MVonal;
   MLegitarsasag (Legitarsasag.nev l);
   MJaratokSzama (length (Legitarsasag.jaratok l));
   MAktivJaratok (length (List.filter Jarat.is_aktiv (Legitarsasag.jaratok l)));
   MBelfoldiJaratok
     (length (List.filter (Jarat.isinstance BelfoldiJarat) (Legitarsasag.jaratok l)));
   MNemzetkoziJaratok
     (length (List.filter (Jarat.isinstance NemzetkoziJarat) (Legitarsasag.jaratok l)));
   MFoglalasokSzama (length fs);
   MAktivFoglalasokSzama (length (List.filter JegyFoglalas.is_aktiv fs));
   MLemondottFoglalasokSzama (length (List.filter JegyFoglalas.is_lemondva fs))].

(** The test the cancellation loop applies to each booking. *)
Definition illik (foglalas_id : string) (foglalas : JegyFoglalas.t) : bool :=
  String.eqb (JegyFoglalas.foglalas_id foglalas) foglalas_id
  && JegyFoglalas.is_aktiv foglalas.

(** The handlers of the outer [try] of [uj_jarat_hozzaadasa]. *)
Definition uj_jarat_kivetel (e : exn) : M unit :=
  match e with
  | ValueError _ => print (MHiba e)
  | _ => print (MVaratlanHiba e)
  end.

(** The object [uj_jarat_hozzaadasa] constructs for type "1" or "2". *)
Definition uj_jarat_peldany (tipus jaratszam indulo cel : string) (ar : spec_float)
    (lt : string) (datum now : datetime) : Jarat.t :=
  if String.eqb tipus "1"
  then Jarat.init_belfoldi jaratszam indulo cel ar lt datum now
  else Jarat.init_nemzetkozi jaratszam indulo cel ar lt datum now.

Section Urlap.

Context {builtins : PyBuiltins}.

(** The lines of a form that gets as far as the insertion: a price that
    parses and is not [<= 0], a date that parses, and type "1" or "2". *)
Definition urlap_ervenyes (ar_sor datum_sor tipus_sor : string)
    (ar : spec_float) (datum : datetime) : Prop :=
  py_float ar_sor = Some ar /\
  Float.leb ar (S754_zero false) = false /\
  strptime_ymd (py_strip datum_sor) = Some datum /\
  (py_strip tipus_sor = "1" \/ py_strip tipus_sor = "2").

End Urlap.

(** ** The seed data *)

(** The three flights [_init_test_adatok] constructs, given the clock values
    their constructors read. *)
Definition teszt_jarat_1 (now : datetime) : Jarat.t :=
  Jarat.init_belfoldi "WIZ001" "Budapest" "Debrecen" (Float.of_Z 15000)
                      "Wizz Air" (datetime_ymd 2023 1 1) now.

Definition teszt_jarat_2 (now : datetime) : Jarat.t :=
  Jarat.init_belfoldi "WIZ102" "Budapest" "Szeged" (Float.of_Z 20000)
                      "Wizz Air" (datetime_ymd 2025 6 10) now.

Definition teszt_jarat_3 (now : datetime) : Jarat.t :=
  Jarat.init_nemzetkozi "WIZ201" "Budapest" "London" (Float.of_Z 50000)
                        "Wizz Air" (datetime_ymd 2025 6 15) now.

Definition teszt_jaratok (c : nat -> datetime) (cp : nat) : list Jarat.t :=
  [teszt_jarat_1 (c cp); teszt_jarat_2 (c (1 + cp)%nat);
   teszt_jarat_3 (c (2 + cp)%nat)].

(** The six bookings, given the random draws their identifiers use. *)
Definition teszt_foglalasok (c : nat -> datetime) (cp : nat)
    (v : nat -> nat) (vp : nat) : list JegyFoglalas.t :=
  let j2 := teszt_jarat_2 (c (1 + cp)%nat) in
  let j3 := teszt_jarat_3 (c (2 + cp)%nat) in
  [JegyFoglalas.init (id_of v vp) j2 "Nagy János";
   JegyFoglalas.init (id_of v (5 + vp)%nat) j2 "Kovács Béla";
   JegyFoglalas.init (id_of v (10 + vp)%nat) j3 "Szabó Éva";
   JegyFoglalas.init (id_of v (15 + vp)%nat) j3 "Kiss Zoltán";
   JegyFoglalas.init (id_of v (20 + vp)%nat) j3 "Tóth Mária";
   JegyFoglalas.init (id_of v (25 + vp)%nat) j3 "Horváth Péter"].

(** The set [ids_nyomonkovetese] builds: the identifiers of [l] added, one
    after the other, to [X]. *)
Fixpoint ids_hozzaadva (l : list JegyFoglalas.t) (X : gset string) : gset string :=
  match l with
  | [] => X
  | f :: rest => ids_hozzaadva rest ({[ JegyFoglalas.foglalas_id f ]} ∪ X)
  end.

(** The status report of the seed scenario: 3 flights, 2 active, 2 domestic,
    1 international, 6 bookings, 6 active, 0 cancelled. *)
Definition teszt_jelentes : list Msg :=
  [MRendszerAllapota; MVonal; MLegitarsasag "Wizz Air Hungary";
   MJaratokSzama 3; MAktivJaratok 2; MBelfoldiJaratok 2; MNemzetkoziJaratok 1;
   MFoglalasokSzama 6; MAktivFoglalasokSzama 6; MLemondottFoglalasokSzama 0].

(** ** Observations on the printed lines *)

(** The already-departed line and the not-found line. *)
Definition is_MDatumElmult (m : Msg) : bool :=
  match m with MDatumElmult => true | _ => false end.

Definition is_MNemTalalhato (m : Msg) : bool :=
  match m with MNemTalalhato => true | _ => false end.

(** The refunds printed, in order. *)
Fixpoint visszateritesek (out : list Msg) : list Z :=
  match out with
  | [] => []
  | MVisszaterites osszeg :: rest => osszeg :: visszateritesek rest
  | _ :: rest => visszateritesek rest
  end.

(** ** States, clocks and generators of the worked examples *)

(** A moment in January 2025, and a domestic flight to Szeged dated
    2025-06-10 that was constructed at that moment, hence active. *)
Definition pelda_most : datetime := mkDatetime 2025 1 15 9 30 0 0.

Definition pelda_jarat (jaratszam : string) : Jarat.t :=
  Jarat.init_belfoldi jaratszam "Budapest" "Szeged" (Float.of_Z 20000)
                      "Wizz Air" (datetime_ymd 2025 6 10) pelda_most.

(** An airline with the flight WIZ102, and a system that has this airline,
    without bookings or with the one booking AB123. *)
Definition pelda_legitarsasag : Legitarsasag.t :=
  Legitarsasag.mk "Wizz Air Hungary" [pelda_jarat "WIZ102"].

Definition pelda_rendszer : Rendszer :=
  mkRendszer (Some pelda_legitarsasag) [] ∅.

Definition pelda_foglalas : JegyFoglalas.t :=
  JegyFoglalas.init "AB123" (pelda_jarat "WIZ102") "Nagy Anna".

Definition pelda_rendszer_foglalassal : Rendszer :=
  mkRendszer (Some pelda_legitarsasag) [pelda_foglalas] {[ "AB123" ]}.

(** Clocks that stand still: on 2024-03-01, on 2026-11-04, on 2025-07-01. *)
Definition ora_2024 : nat -> datetime := fun _ => mkDatetime 2024 3 1 8 0 0 0.

Definition ora_2026 : nat -> datetime := fun _ => mkDatetime 2026 11 4 8 0 0 0.

Definition ora_julius : nat -> datetime := fun _ => mkDatetime 2025 7 1 12 0 0 0.

(** A clock that shows 2025-01-15 while the seed flights are constructed
    (three reads) and exactly 2025-06-10 00:00:00, the date of WIZ102, from
    the fourth read on, which is the re-check of the first booking. *)
Definition ora_C2 : nat -> datetime :=
  fun n => if (n <? 3)%nat then pelda_most else datetime_ymd 2025 6 10.

(** A random generator whose draws 5..9 repeat the draws 0..4: the first two
    seed bookings get the same identifier. *)
Definition veletlen_utkozo : nat -> nat :=
  fun n => if (n <? 10)%nat then (n mod 5)%nat else n.

(** ** Further vocabulary: identifiers, effects of the operations *)

(** The shape of a booking identifier: two of A..Z followed by three of
    0..9, and nothing else. *)
Definition is_digit (c : ascii) : bool :=
  let n := Str.code c in ((48 <=? n) && (n <=? 57))%nat.

Definition id_formatum (s : string) : bool :=
  match s with
  | String a (String b (String x (String y (String z EmptyString)))) =>
      Str.is_ascii_upper a && Str.is_ascii_upper b && is_digit x && is_digit y && is_digit z
  | _ => false
  end.

(** [uj_foglalas r r']: [r'] is [r] with one more booking at the end of the
    list: an active booking that copies an active flight of [r], for a
    passenger name of at least two characters, under a well-formed
    identifier that was not in use in [r] and is in use in [r']. *)
Definition uj_foglalas (r r' : Rendszer) : Prop :=
  exists (jarat : Jarat.t) (utas_nev foglalas_id : string),
    (jarat ∈ List.filter Jarat.is_aktiv (jaratok_of r)) /\
    (2 <= Str.len utas_nev)%nat /\
    id_formatum foglalas_id = true /\
    (foglalas_id ∉ existing_foglalas_ids r) /\
    r' = mkRendszer (legitarsasag r)
           (foglalasok r ++ [JegyFoglalas.init foglalas_id jarat utas_nev])
           ({[ foglalas_id ]} ∪ existing_foglalas_ids r).

(** The flight numbers and the booking identifiers of a system. *)
Definition jaratszamok (r : Rendszer) : list string :=
  List.map Jarat.jaratszam (jaratok_of r).

Definition foglalas_idk (r : Rendszer) : list string :=
  List.map JegyFoglalas.foglalas_id (foglalasok r).

(** [foglalasok_orzese r r']: every booking of [r] is still at its place in
    [r'], either unchanged or changed in its status only, to [Lemondva]. *)
Definition foglalasok_orzese (r r' : Rendszer) : Prop :=
  forall n f,
    foglalasok r !! n = Some f ->
    exists f',
      foglalasok r' !! n = Some f' /\
      (f' = f \/ f' = JegyFoglalas.set_statusz Lemondva f).

(** [ids_egyeznek r]: the set of used identifiers holds exactly the
    identifiers of the bookings. *)
Definition ids_egyeznek (r : Rendszer) : Prop :=
  forall x, x ∈ existing_foglalas_ids r <-> x ∈ foglalas_idk r.

(** Relations between the system before and after: the flight numbers stay
    pairwise distinct if they were; the used identifiers stay the
    identifiers of the bookings if they were; no used identifier is
    dropped. *)
Definition jaratszamok_egyediek_maradnak (r r' : Rendszer) : Prop :=
  NoDup (jaratszamok r) -> NoDup (jaratszamok r').

Definition ids_egyeznek_marad (r r' : Rendszer) : Prop :=
  ids_egyeznek r -> ids_egyeznek r'.

Definition ids_bovul (r r' : Rendszer) : Prop :=
  existing_foglalas_ids r ⊆ existing_foglalas_ids r'.

(** The lines [print_foglalasok] prints when every price is finite. *)
Fixpoint foglalas_sorok (l : list JegyFoglalas.t) : list Msg :=
  match l with
  | [] => []
  | f :: rest => MFoglalas f (Float.trunc (JegyFoglalas.ar f)) :: foglalas_sorok rest
  end.

(** The ten lines of the menu. *)
Definition menu_sorok : list Msg :=
  [MVonal; MCim; MVonal; MMenuPont 1; MMenuPont 2; MMenuPont 3; MMenuPont 4;
   MMenuPont 5; MMenuPont 6; MMenuPont 7].

(** A menu choice that is none of "1" .. "7" once trimmed. *)
Definition ervenytelen_valasztas {builtins : PyBuiltins} (line : string) : bool :=
  negb (existsb (String.eqb (py_strip line)) ["1"; "2"; "3"; "4"; "5"; "6"; "7"]).

(** What the menu loop prints for [k] invalid choices in a row. *)
Fixpoint ervenytelen_korok (k : nat) : list Msg :=
  match k with
  | O => []
  | S k' => menu_sorok ++ [MErvenytelenMenu] ++ ervenytelen_korok k'
  end.

(** A price of 309 digits, 15 followed by 307 zeros: a binary64 number that
    is finite, and whose product with 1.3 is not. *)
Definition pelda_nagy_ar : string :=
  String.append "15" (string_of_list_ascii (List.repeat "0"%char 307)).

(** What [uj_jarat_hozzaadasa] leaves behind when it stores the flight
    [uj]. *)
Definition jarat_felveve (r : Rendszer) (l : Legitarsasag.t) (uj : Jarat.t) : Rendszer :=
  mkRendszer
    (Some (Legitarsasag.mk (Legitarsasag.nev l) (Legitarsasag.jaratok l ++ [uj])))
    (foglalasok r) (existing_foglalas_ids r).

(** The exception [int(x)] raises for a float that is not finite. *)
Definition int_kivetel (x : spec_float) : exn :=
  match x with
  | S754_nan => ValueError CannotConvertNaN
  | _ => OverflowError
  end.

(** An international flight with the base price 1000, hence the price
    1300, and a system with one booking of it, CD456. *)
Definition pelda_jarat_1300 : Jarat.t :=
  Jarat.init_nemzetkozi "WIZ400" "Budapest" "Wien" (Float.of_Z 1000)
                        "Wizz Air" (datetime_ymd 2025 6 15) pelda_most.

Definition pelda_rendszer_1300 : Rendszer :=
  mkRendszer (Some (Legitarsasag.mk "Wizz Air Hungary" [pelda_jarat_1300]))
             [JegyFoglalas.init "CD456" pelda_jarat_1300 "Nagy Anna"]
             {[ "CD456" ]}.

(** [csak_kiir m]: from any state, [m] ends (normally or with an
    exception) having only added lines to the output: the system, the
    remaining input, the clock and the random generator are as before. *)
Definition csak_kiir {A} (m : M A) : Prop :=
  forall r i o c cp v vp,
    exists res tobb,
      m (St r i o c cp v vp) = (res, St r i (o ++ tobb) c cp v vp) /\ res <> Div.

Arguments Float.mul : simpl never.
Arguments datetime_gtb : simpl never.
Arguments datetime_ltb : simpl never.
Arguments Float.trunc : simpl never.
Arguments Float.leb : simpl never.
Arguments py_strip : simpl never.
Arguments py_upper : simpl never.
Arguments py_lower : simpl never.
Arguments Str.len : simpl never.

(** * Properties *)

Local Open Scope list_scope.

(** ** Frame reasoning: what a computation does to the system object *)

Section Keeps.

Variable R : Rendszer -> Rendszer -> Prop.
Hypothesis R_refl : forall r, R r r.
Hypothesis R_trans : forall r1 r2 r3, R r1 r2 -> R r2 r3 -> R r1 r3.

Lemma keeps_ret {A} (a : A) : keeps R (ret a).
Proof. intros s. apply R_refl. Qed.

Lemma keeps_raise {A} (e : exn) : keeps R (@raise A e).
Proof. intros s. apply R_refl. Qed.

Lemma keeps_diverge {A} : keeps R (@diverge A).
Proof. intros s. apply R_refl. Qed.

Lemma keeps_get_self : keeps R get_self.
Proof. intros s. apply R_refl. Qed.

Lemma keeps_print (m : Msg) : keeps R (print m).
Proof. intros s. apply R_refl. Qed.

Lemma keeps_input : keeps R input.
Proof. intros s. unfold input. destruct (stdin (vilag s)); apply R_refl. Qed.

Lemma keeps_datetime_now : keeps R datetime_now.
Proof. intros s. apply R_refl. Qed.

Lemma keeps_random_draw : keeps R random_draw.
Proof. intros s. apply R_refl. Qed.

Lemma keeps_of_option {A} (e : exn) (o : option A) : keeps R (of_option e o).
Proof. destruct o; intros s; apply R_refl. Qed.

Lemma keeps_of_sum {A} (r : exn + A) : keeps R (of_sum r).
Proof. destruct r; intros s; apply R_refl. Qed.

Lemma keeps_int_of_float (x : spec_float) : keeps R (int_of_float x).
Proof. destruct x; intros st; apply R_refl. Qed.

Lemma keeps_getitem {A} (l : list A) (i : Z) : keeps R (getitem l i).
Proof.
  unfold getitem. repeat case_match; auto using keeps_of_option, @keeps_raise.
Qed.

Lemma keeps_bind {A B} (m : M A) (k : A -> M B) :
  keeps R m -> (forall a, keeps R (k a)) -> keeps R (bind m k).
Proof.
  intros Hm Hk s. unfold bind. specialize (Hm s).
  destruct (m s) as [[a | e | ] s'] eqn:E; cbn in *; auto.
  eapply R_trans; [exact Hm | apply Hk].
Qed.

(** A bind whose continuation relies on a fact [Q] about the value. *)
Lemma keeps_bind_post {A B} (Q : A -> Prop) (m : M A) (k : A -> M B) :
  keeps R m ->
  (forall s a s', m s = (Val a, s') -> Q a) ->
  (forall a, Q a -> keeps R (k a)) ->
  keeps R (bind m k).
Proof.
  intros Hm HQ Hk s. unfold bind. specialize (Hm s).
  destruct (m s) as [[a | e | ] s'] eqn:E; cbn in *; auto.
  eapply R_trans; [exact Hm | apply Hk; eauto].
Qed.

Lemma keeps_try_except {A} (m : M A) (h : exn -> M A) :
  keeps R m -> (forall e, keeps R (h e)) -> keeps R (try_except m h).
Proof.
  intros Hm Hh s. unfold try_except. specialize (Hm s).
  destruct (m s) as [[a | e | ] s'] eqn:E; cbn in *; auto.
  eapply R_trans; [exact Hm | apply Hh].
Qed.

Lemma keeps_random_choice (p : string) : keeps R (random_choice p).
Proof.
  apply keeps_bind; [apply keeps_random_draw | intros; apply keeps_of_option].
Qed.

Lemma keeps_random_choices (p : string) (k : nat) : keeps R (random_choices p k).
Proof.
  induction k; cbn; [apply keeps_ret |].
  apply keeps_bind; [apply keeps_random_choice | intros].
  apply keeps_bind; [exact IHk | intros; apply keeps_ret].
Qed.

Lemma keeps_new_JegyFoglalas (j : Jarat.t) (n : string) :
  keeps R (new_JegyFoglalas j n).
Proof.
  apply keeps_bind; [| intros; apply keeps_ret].
  apply keeps_bind; [apply keeps_random_choices | intros].
  apply keeps_bind; [apply keeps_random_choices | intros; apply keeps_ret].
Qed.

Lemma keeps_new_BelfoldiJarat a b c d e f :
  keeps R (new_BelfoldiJarat a b c d e f).
Proof. apply keeps_bind; [apply keeps_datetime_now | intros; apply keeps_ret]. Qed.

Lemma keeps_new_NemzetkoziJarat a b c d e f :
  keeps R (new_NemzetkoziJarat a b c d e f).
Proof. apply keeps_bind; [apply keeps_datetime_now | intros; apply keeps_ret]. Qed.

Lemma keeps_print_jaratok (l : list Jarat.t) : forall i, keeps R (print_jaratok i l).
Proof.
  induction l as [| j l IH]; intros i; cbn; [apply keeps_ret |].
  apply keeps_bind; [apply keeps_int_of_float | intros].
  apply keeps_bind; [apply keeps_print | intros; apply IH].
Qed.

Lemma keeps_print_foglalasok (l : list JegyFoglalas.t) : keeps R (print_foglalasok l).
Proof.
  induction l as [| f l IH]; cbn; [apply keeps_ret |].
  apply keeps_bind; [apply keeps_int_of_float | intros].
  apply keeps_bind; [apply keeps_print | intros; apply IH].
Qed.

End Keeps.

Create HintDb keeps discriminated.
#[export] Hint Resolve keeps_ret keeps_raise keeps_diverge keeps_get_self
  keeps_print keeps_input keeps_datetime_now keeps_random_draw keeps_of_option
  keeps_of_sum keeps_int_of_float keeps_getitem keeps_random_choice
  keeps_random_choices keeps_new_JegyFoglalas keeps_new_BelfoldiJarat
  keeps_new_NemzetkoziJarat keeps_print_jaratok keeps_print_foglalasok : keeps.

(** ** Facts about text *)
Module StrFacts.

Lemma islower_upper_char (c : ascii) : Str.is_ascii_lower (Str.ascii_upper_char c) = false.
Proof.
  destruct c as [[] [] [] [] [] [] [] []]; vm_compute; reflexivity.
Qed.

Lemma no_lower_upper (s : string) : Str.no_ascii_lower (Str.ascii_upper s) = true.
Proof.
  unfold Str.ascii_upper. induction s as [| c s IH]; cbn; [reflexivity |].
  rewrite islower_upper_char, IH. reflexivity.
Qed.

End StrFacts.

(** ** The flight list only grows *)

Section BovulRel.

Context {builtins : PyBuiltins}.

Lemma bovul_refl (r : Rendszer) : bovul r r.
Proof. exists []. rewrite app_nil_r. split; [reflexivity | constructor]. Qed.

Lemma bovul_trans (r1 r2 r3 : Rendszer) : bovul r1 r2 -> bovul r2 r3 -> bovul r1 r3.
Proof.
  intros (u1 & E1 & F1) (u2 & E2 & F2). exists (u1 ++ u2). split.
  - rewrite E2, E1, app_assoc. reflexivity.
  - apply Forall_app. split; assumption.
Qed.

Lemma bovul_same_legitarsasag (r r' : Rendszer) :
  legitarsasag r' = legitarsasag r -> bovul r r'.
Proof.
  intros E. exists []. unfold jaratok_of. rewrite E, app_nil_r.
  split; [reflexivity | constructor].
Qed.

End BovulRel.

Section Bovul.

Context {builtins : PyBuiltins}.

Lemma keeps_foglalasok_append (f : JegyFoglalas.t) : keeps bovul (foglalasok_append f).
Proof. intros s. apply bovul_same_legitarsasag. reflexivity. Qed.

Lemma keeps_existing_foglalas_ids_add (i : string) :
  keeps bovul (existing_foglalas_ids_add i).
Proof. intros s. apply bovul_same_legitarsasag. reflexivity. Qed.

Lemma keeps_foglalas_set_statusz (i : nat) (st : FoglalasStatusz) :
  keeps bovul (foglalas_set_statusz i st).
Proof. intros s. apply bovul_same_legitarsasag. reflexivity. Qed.

Lemma keeps_self_jarat_hozzaadasa (j : Jarat.t) :
  normalizalt (Jarat.jaratszam j) ->
  keeps bovul (self_jarat_hozzaadasa j).
Proof.
  intros Hj s. unfold self_jarat_hozzaadasa, bind, get_self.
  destruct (legitarsasag (self s)) as [l |] eqn:El; cbn; [| apply bovul_refl].
  unfold Legitarsasag.jarat_hozzaadasa.
  destruct (existsb _ _); cbn; [apply bovul_refl |].
  exists [j]. unfold jaratok_of. rewrite El. cbn.
  split; [reflexivity | repeat constructor; exact Hj].
Qed.

End Bovul.

#[export] Hint Resolve bovul_refl bovul_trans keeps_foglalasok_append
  keeps_existing_foglalas_ids_add keeps_foglalas_set_statusz : keeps.

(** Walks down a computation built from binds, handlers and branches. *)
Ltac keeps_bovul_step :=
  cbv beta zeta;
  first
    [ solve [eauto with keeps]
    | match goal with
      | |- keeps _ (match ?x with _ => _ end) => destruct x eqn:?
      | |- keeps _ (if ?x then _ else _) => destruct x eqn:?
      | |- keeps _ (bind _ _) => apply (keeps_bind bovul bovul_trans); [| intros ?]
      | |- keeps _ (try_except _ _) =>
          apply (keeps_try_except bovul bovul_trans); [| intros ?]
      end ].

Section BovulOps.

Context {builtins : PyBuiltins}.

Lemma keeps_duplikacio_ellenorzes (fuel : nat) (j : Jarat.t) (n : string) :
  forall f, keeps bovul (duplikacio_ellenorzes fuel j n f).
Proof.
  induction fuel as [| fuel IH]; intros f; cbn; repeat keeps_bovul_step.
Qed.

Lemma keeps_jegy_foglalas (fuel : nat) : keeps bovul (jegy_foglalas fuel).
Proof.
  unfold jegy_foglalas, int_of_str.
  pose proof keeps_duplikacio_ellenorzes. repeat keeps_bovul_step.
Qed.

Lemma keeps_lemondas_kereses (fid : string) (l : list JegyFoglalas.t) :
  forall i, keeps bovul (lemondas_kereses fid i l).
Proof.
  induction l as [| f l IH]; intros i; cbn; repeat keeps_bovul_step.
Qed.

Lemma keeps_foglalas_lemondasa : keeps bovul foglalas_lemondasa.
Proof.
  unfold foglalas_lemondasa. pose proof keeps_lemondas_kereses.
  repeat keeps_bovul_step.
Qed.

Lemma keeps_foglalasok_listazasa : keeps bovul foglalasok_listazasa.
Proof. unfold foglalasok_listazasa. repeat keeps_bovul_step. Qed.

Lemma keeps_jaratok_listazasa : keeps bovul jaratok_listazasa.
Proof. unfold jaratok_listazasa. repeat keeps_bovul_step. Qed.

Lemma keeps_rendszer_allapota : keeps bovul rendszer_allapota.
Proof. unfold rendszer_allapota. repeat keeps_bovul_step. Qed.

Lemma keeps_alapjegyar_bekerese : keeps bovul alapjegyar_bekerese.
Proof. unfold alapjegyar_bekerese, float_of_str. repeat keeps_bovul_step. Qed.

Lemma keeps_datum_ertelmezese (d : string) : keeps bovul (datum_ertelmezese d).
Proof. unfold datum_ertelmezese, strptime. repeat keeps_bovul_step. Qed.

(** The flight [uj_jarat_hozzaadasa] constructs carries the number it was
    given. *)
Lemma jarat_letrehozasa_jaratszam (tipus jaratszam indulo cel : string)
    (ar : spec_float) (lt : string) (datum : datetime) (s s' : Allapot)
    (o : option Jarat.t) :
  jarat_letrehozasa tipus jaratszam indulo cel ar lt datum s = (Val o, s') ->
  forall j, o = Some j -> Jarat.jaratszam j = jaratszam.
Proof.
  unfold jarat_letrehozasa. intros E j ->.
  destruct (String.eqb tipus "1"); [| destruct (String.eqb tipus "2")];
    cbn in E; inversion E; reflexivity.
Qed.

Lemma keeps_jarat_letrehozasa t a b c d e f :
  keeps bovul (jarat_letrehozasa t a b c d e f).
Proof. unfold jarat_letrehozasa. repeat keeps_bovul_step. Qed.

Lemma keeps_uj_jarat_hozzaadasa : keeps bovul uj_jarat_hozzaadasa.
Proof.
  unfold uj_jarat_hozzaadasa.
  pose proof keeps_alapjegyar_bekerese. pose proof keeps_datum_ertelmezese.
  repeat match goal with
         | |- keeps _ (bind (jarat_letrehozasa _ _ _ _ _ _ _) _) => fail 1
         | _ => keeps_bovul_step
         end.
  match goal with
  | |- keeps _ (bind (jarat_letrehozasa _ ?js _ _ _ _ _) _) =>
      apply (keeps_bind_post bovul bovul_trans
               (fun o => forall j, o = Some j -> Jarat.jaratszam j = js))
  end.
  - apply keeps_jarat_letrehozasa.
  - intros st o st' E. eapply jarat_letrehozasa_jaratszam. exact E.
  - intros o Ho. destruct o as [j |]; [| repeat keeps_bovul_step].
    apply (keeps_bind bovul bovul_trans); [| intros; repeat keeps_bovul_step].
    apply keeps_self_jarat_hozzaadasa. rewrite (Ho j eq_refl).
    eexists. reflexivity.
Qed.

Lemma keeps_muvelet (fuel : nat) (v : string) (m : M unit) :
  muvelet fuel v = Some m -> keeps bovul m.
Proof.
  unfold muvelet. intros E.
  repeat match type of E with
         | (if ?b then _ else _) = _ => destruct b
         end;
    inversion E; subst;
    auto using keeps_jegy_foglalas, keeps_foglalas_lemondasa,
      keeps_foglalasok_listazasa, keeps_uj_jarat_hozzaadasa,
      keeps_jaratok_listazasa, keeps_rendszer_allapota.
Qed.

Lemma keeps_menu_ciklus (fuel : nat) : keeps bovul (menu_ciklus fuel).
Proof.
  induction fuel as [| fuel IH]; cbn; [auto with keeps |].
  unfold menu_kiirasa.
  repeat match goal with
         | |- keeps _ (match muvelet ?f ?v with _ => _ end) =>
             let E := fresh "E" in
             destruct (muvelet f v) eqn:E; [apply keeps_muvelet in E |]
         | _ => keeps_bovul_step
         end.
Qed.

End BovulOps.

(** ** Rounding: what the binary64 product is

    [Float.mul] rounds the exact product to the nearest binary64 number.
    The lemmas below follow the rounding of [SpecFloat] step by step: the
    halvings of the mantissa, the rounding to nearest even, and the
    resulting error, first over the integers and then over the
    rationals. *)

Module FloatFacts.

Lemma iter_pos_nat {A} (f : A -> A) (p : positive) :
  forall x, SpecFloat.iter_pos f p x = Nat.iter (Pos.to_nat p) f x.
Proof.
  induction p as [p IH | p IH |]; intros x; cbn [SpecFloat.iter_pos].
  - rewrite !IH, Pos2Nat.inj_xI.
    replace (S (2 * Pos.to_nat p))%nat with (S (Pos.to_nat p + Pos.to_nat p))%nat by lia.
    rewrite Nat.iter_succ_r, Nat.iter_add. reflexivity.
  - rewrite !IH, Pos2Nat.inj_xO.
    replace (2 * Pos.to_nat p)%nat with (Pos.to_nat p + Pos.to_nat p)%nat by lia.
    rewrite Nat.iter_add. reflexivity.
  - reflexivity.
Qed.

Lemma shr_1_nonneg (m : Z) (r s : bool) :
  0 <= m ->
  shr_1 (Build_shr_record m r s) = Build_shr_record (m / 2) (Z.odd m) (r || s).
Proof.
  intros Hm. destruct m as [| p | p]; [reflexivity | | lia].
  destruct p as [p | p |]; cbn [shr_1].
  - f_equal. rewrite Pos2Z.inj_xI. symmetry.
    rewrite Z.mul_comm, Z.add_comm. rewrite Z.div_add by lia. reflexivity.
  - f_equal. rewrite Pos2Z.inj_xO. symmetry.
    rewrite Z.mul_comm. apply Z.div_mul. lia.
  - reflexivity.
Qed.

(** After [j] halvings of [(M, false, false)]: the quotient, the bit below it
    and whether anything lies below that bit. *)
Lemma shr_iter (M : Z) (j : nat) :
  0 <= M ->
  Nat.iter (S j) shr_1 (Build_shr_record M false false)
    = Build_shr_record (M / 2 ^ Z.of_nat (S j))
        (Z.odd (M / 2 ^ Z.of_nat j))
        (negb (M mod 2 ^ Z.of_nat j =? 0)).
Proof.
  intros HM. induction j as [| j IH].
  - cbn [Nat.iter]. rewrite shr_1_nonneg by exact HM.
    change (2 ^ Z.of_nat 1) with 2. change (2 ^ Z.of_nat 0) with 1.
    rewrite Z.div_1_r, Z.mod_1_r. reflexivity.
  - rewrite Nat.iter_succ, IH.
    assert (Hq : 0 <= M / 2 ^ Z.of_nat (S j)) by (apply Z.div_pos; lia).
    rewrite shr_1_nonneg by exact Hq.
    assert (Hp : 0 < 2 ^ Z.of_nat j) by (apply Z.pow_pos_nonneg; lia).
    assert (E1 : 2 ^ Z.of_nat (S j) = 2 ^ Z.of_nat j * 2).
    { rewrite Nat2Z.inj_succ, Z.pow_succ_r by lia. lia. }
    assert (E2 : 2 ^ Z.of_nat (S (S j)) = 2 ^ Z.of_nat (S j) * 2).
    { rewrite (Nat2Z.inj_succ (S j)), Z.pow_succ_r by lia. lia. }
    f_equal.
    + rewrite E2. rewrite Z.div_div by lia. reflexivity.
    + rewrite E1, Z.rem_mul_r by lia.
      pose proof (Z.mod_pos_bound M (2 ^ Z.of_nat j) Hp) as Hb.
      pose proof (Z.mod_pos_bound (M / 2 ^ Z.of_nat j) 2 ltac:(lia)) as Hb2.
      rewrite Zodd_mod.
      destruct (Z.eqb_spec ((M / 2 ^ Z.of_nat j) mod 2) 1) as [E | N];
        destruct (Z.eqb_spec (M mod 2 ^ Z.of_nat j) 0) as [E0 | N0];
        destruct (Z.eqb_spec (M mod 2 ^ Z.of_nat j
                              + 2 ^ Z.of_nat j * ((M / 2 ^ Z.of_nat j) mod 2)) 0)
          as [E3 | N3];
        cbn; try reflexivity; exfalso; nia.
Qed.

Lemma digits2_pos_bounds (p : positive) :
  2 ^ (Zpos (digits2_pos p) - 1) <= Zpos p < 2 ^ Zpos (digits2_pos p).
Proof.
  induction p as [p IH | p IH |]; cbn [digits2_pos].
  - rewrite Pos2Z.inj_succ.
    replace (Z.succ (Zpos (digits2_pos p)) - 1) with (Z.succ (Zpos (digits2_pos p) - 1)) by lia.
    rewrite !Z.pow_succ_r by lia. lia.
  - rewrite Pos2Z.inj_succ.
    replace (Z.succ (Zpos (digits2_pos p)) - 1) with (Z.succ (Zpos (digits2_pos p) - 1)) by lia.
    rewrite !Z.pow_succ_r by lia. lia.
  - cbn. lia.
Qed.

Lemma digits2_pos_unique (p : positive) (n : Z) :
  2 ^ (n - 1) <= Zpos p < 2 ^ n -> Zpos (digits2_pos p) = n.
Proof.
  intros [Hl Hu]. pose proof (digits2_pos_bounds p) as [Bl Bu].
  assert (Hn : 0 < n).
  { destruct (Z.lt_trichotomy n 0) as [H | [H | H]]; [| | exact H].
    - rewrite Z.pow_neg_r in Hu by lia. lia.
    - subst n. cbn in Hu. lia. }
  destruct (Z.lt_trichotomy (Zpos (digits2_pos p)) n) as [H | [H | H]]; [| exact H |].
  - exfalso.
    assert (2 ^ Zpos (digits2_pos p) <= 2 ^ (n - 1)) by (apply Z.pow_le_mono_r; lia).
    lia.
  - exfalso.
    assert (2 ^ n <= 2 ^ (Zpos (digits2_pos p) - 1)) by (apply Z.pow_le_mono_r; lia).
    lia.
Qed.

(** Rounding to nearest of the exact product [M * 2^E], when [M] has more
    than 53 bits and the result is in the range of the normal numbers: the
    result is finite, and differs from [M * 2^E] by at most [2^-53] of it. *)
Lemma binary_round_aux_bound (sx : bool) (M : positive) (E : Z) :
  53 < Zpos (digits2_pos M) ->
  -1074 <= Zpos (digits2_pos M) + E - 53 ->
  Zpos (digits2_pos M) + E - 52 <= 971 ->
  exists m e,
    binary_round_aux 53 1024 sx (Zpos M) E loc_Exact = S754_finite sx m e /\
    E <= e /\
    2 ^ 53 * Z.abs (Zpos m * 2 ^ (e - E) - Zpos M) <= Zpos M.
Proof.
  intros Hd H1 H2.
  pose proof (digits2_pos_bounds M) as [Bl Bu].
  set (d := Zpos (digits2_pos M)) in *.
  set (k := d - 53).
  assert (Hk : 0 < k) by (unfold k; lia).
  destruct k as [| kp |] eqn:Ek; try lia.
  unfold binary_round_aux.
  assert (Es : shr_fexp 53 1024 (Zpos M) E loc_Exact
               = (SpecFloat.iter_pos shr_1 kp (Build_shr_record (Zpos M) false false),
                  E + Zpos kp)).
  { unfold shr_fexp, shr, fexp, emin. cbn [Zdigits2 shr_record_of_loc]. fold d.
    replace (Z.max (d + E - 53) (3 - 1024 - 53) - E) with (Zpos kp) by lia.
    reflexivity. }
  rewrite Es, iter_pos_nat.
  destruct (Pos.to_nat kp) as [| j] eqn:Ej; [lia |].
  rewrite shr_iter by lia.
  assert (EkS : Z.of_nat (S j) = Zpos kp) by lia.
  assert (Ekj : Z.of_nat j = Zpos kp - 1) by lia.
  rewrite EkS, Ekj. cbn [shr_m].
  set (half := 2 ^ (Zpos kp - 1)).
  assert (Hhalf : 0 < half) by (apply Z.pow_pos_nonneg; lia).
  assert (E2k : 2 ^ Zpos kp = half * 2).
  { unfold half. replace (Zpos kp) with (Z.succ (Zpos kp - 1)) at 1 by lia.
    rewrite Z.pow_succ_r by lia. lia. }
  assert (E2d : 2 ^ (d - 1) = 2 ^ 52 * 2 ^ Zpos kp).
  { rewrite <- Z.pow_add_r by lia. f_equal. lia. }
  assert (E2d' : 2 ^ d = 2 ^ 53 * 2 ^ Zpos kp).
  { rewrite <- Z.pow_add_r by lia. f_equal. lia. }
  set (q := Zpos M / 2 ^ Zpos kp).
  set (b := (Zpos M / half) mod 2).
  set (low := Zpos M mod half).
  assert (Hlow : 0 <= low < half) by (apply Z.mod_pos_bound; exact Hhalf).
  assert (Hb : 0 <= b < 2) by (apply Z.mod_pos_bound; lia).
  assert (HM : Zpos M = 2 ^ Zpos kp * q + (low + half * b)).
  { unfold q, low, b. rewrite <- Z.rem_mul_r by lia. rewrite <- E2k.
    apply Z.div_mod. lia. }
  assert (Hq : 2 ^ 52 <= q < 2 ^ 53).
  { unfold q. split.
    - apply Z.div_le_lower_bound; lia.
    - apply Z.div_lt_upper_bound; lia. }
  assert (Hodd : Z.odd (Zpos M / half) = (b =? 1)).
  { rewrite Zodd_mod. reflexivity. }
  rewrite Hodd.
  fold low.
  set (m' := round_nearest_even q
               (loc_of_shr_record (Build_shr_record q (b =? 1) (negb (low =? 0))))).
  assert (Hm' : (m' = q \/ m' = q + 1) /\
                2 * Z.abs (2 ^ Zpos kp * m' - Zpos M) <= 2 ^ Zpos kp).
  { unfold m'. cbn [loc_of_shr_record].
    destruct (Z.eqb_spec b 1) as [Eb | Nb];
      destruct (Z.eqb_spec low 0) as [El | Nl]; cbn [negb round_nearest_even].
    - destruct (Z.even q); (split; [tauto || (right; reflexivity) || (left; reflexivity) | lia]).
    - split; [right; reflexivity | lia].
    - split; [left; reflexivity | lia].
    - split; [left; reflexivity | lia]. }
  destruct Hm' as [Hm'q Hm'e].
  assert (Hm'r : 2 ^ 52 <= m' <= 2 ^ 53) by lia.
  clearbody m'.
  assert (Hfin : 2 ^ 53 * (2 * Z.abs (2 ^ Zpos kp * m' - Zpos M)) <= 2 * Zpos M) by nia.
  destruct m' as [| pm |] eqn:Epm; try lia.
  destruct (Z.eq_dec (Zpos pm) (2 ^ 53)) as [Top | NTop].
  - (* the mantissa reached 2^53: one more exact halving *)
    assert (Edig : Zpos (digits2_pos pm) = 54).
    { apply digits2_pos_unique. rewrite Top. cbn. lia. }
    assert (Es2 : shr_fexp 53 1024 (Zpos pm) (E + Zpos kp) loc_Exact
                  = (shr_1 (Build_shr_record (Zpos pm) false false), E + Zpos kp + 1)).
    { unfold shr_fexp, shr, fexp, emin. cbn [Zdigits2 shr_record_of_loc]. rewrite Edig.
      replace (Z.max (54 + (E + Zpos kp) - 53) (3 - 1024 - 53) - (E + Zpos kp))
        with 1 by lia.
      reflexivity. }
    rewrite Es2, shr_1_nonneg by lia. cbn [shr_m]. rewrite Top.
    change (2 ^ 53 / 2) with 4503599627370496.
    replace (E + Zpos kp + 1 <=? 1024 - 53) with true by (symmetry; apply Z.leb_le; lia).
    eexists _, _. split; [reflexivity |]. split; [lia |].
    replace (E + Zpos kp + 1 - E) with (Z.succ (Zpos kp)) by lia.
    rewrite Z.pow_succ_r by lia.
    rewrite Top in Hfin.
    change 4503599627370496 with (2 ^ 52).
    replace (2 ^ 52 * (2 * 2 ^ Zpos kp)) with (2 ^ Zpos kp * 2 ^ 53) by (change (2 ^ 53) with (2 * 2 ^ 52); lia).
    lia.
  - assert (Edig : Zpos (digits2_pos pm) = 53).
    { apply digits2_pos_unique. change (53 - 1) with 52. lia. }
    assert (Es2 : shr_fexp 53 1024 (Zpos pm) (E + Zpos kp) loc_Exact
                  = (Build_shr_record (Zpos pm) false false, E + Zpos kp)).
    { unfold shr_fexp, shr, fexp, emin. cbn [Zdigits2 shr_record_of_loc]. rewrite Edig.
      replace (Z.max (53 + (E + Zpos kp) - 53) (3 - 1024 - 53) - (E + Zpos kp))
        with 0 by lia.
      reflexivity. }
    rewrite Es2. cbn [shr_m].
    replace (E + Zpos kp <=? 1024 - 53) with true by (symmetry; apply Z.leb_le; lia).
    eexists _, _. split; [reflexivity |]. split; [lia |].
    replace (E + Zpos kp - E) with (Zpos kp) by lia.
    replace (Zpos pm * 2 ^ Zpos kp) with (2 ^ Zpos kp * Zpos pm) by lia.
    lia.
Qed.

Lemma Qpower_2_pos (e : Z) : (0 < Qpower 2 e)%Q.
Proof. apply Qpower_0_lt. reflexivity. Qed.

Lemma Qpower_2_split (a b : Z) : (Qpower 2 (a + b) == Qpower 2 a * Qpower 2 b)%Q.
Proof. apply Qpower_plus. discriminate. Qed.

Lemma Qpower_2_inject (n : Z) : 0 <= n -> (inject_Z (2 ^ n) == Qpower 2 n)%Q.
Proof. intros H. rewrite Zpower_Qpower by exact H. reflexivity. Qed.

(** The product of a positive normal number [x] with a positive normal
    constant [c], when the exponents keep the result in the normal range:
    finite, and within [2^-53] of the exact product, relatively. *)
Lemma mul_relative_error (m1 m2 : positive) (e1 e2 : Z) :
  Zpos (digits2_pos m1) = 53 -> Zpos (digits2_pos m2) = 53 ->
  -1126 <= e1 + e2 -> e1 + e2 <= 917 ->
  let x := S754_finite false m1 e1 in
  let c := S754_finite false m2 e2 in
  Float.is_finite (Float.mul x c) = true /\
  (Qabs (Float.value (Float.mul x c) - Float.value x * Float.value c) <= Float.value x * Float.value c * (1 # 2 ^ 53))%Q.
Proof.
  intros D1 D2 H1 H2 x c.
  pose proof (digits2_pos_bounds m1) as [B1l B1u]. rewrite D1 in B1l, B1u.
  pose proof (digits2_pos_bounds m2) as [B2l B2u]. rewrite D2 in B2l, B2u.
  change (53 - 1) with 52 in *.
  pose proof (digits2_pos_bounds (m1 * m2)) as [Bl Bu].
  rewrite Pos2Z.inj_mul in Bl, Bu.
  assert (Hlo : 2 ^ 104 <= Zpos m1 * Zpos m2).
  { change (2 ^ 104) with (2 ^ 52 * 2 ^ 52). nia. }
  assert (Hhi : Zpos m1 * Zpos m2 < 2 ^ 106).
  { change (2 ^ 106) with (2 ^ 53 * 2 ^ 53). nia. }
  assert (Hd : 105 <= Zpos (digits2_pos (m1 * m2)) <= 106).
  { split.
    - destruct (Z_lt_le_dec (Zpos (digits2_pos (m1 * m2))) 105) as [H | H]; [| exact H].
      exfalso.
      assert (2 ^ Zpos (digits2_pos (m1 * m2)) <= 2 ^ 104)
        by (apply Z.pow_le_mono_r; lia).
      lia.
    - destruct (Z_lt_le_dec 106 (Zpos (digits2_pos (m1 * m2)))) as [H | H]; [| exact H].
      exfalso.
      assert (2 ^ 106 <= 2 ^ (Zpos (digits2_pos (m1 * m2)) - 1))
        by (apply Z.pow_le_mono_r; lia).
      lia. }
  destruct (binary_round_aux_bound false (m1 * m2) (e1 + e2)) as (m & e & Er & He & Hb);
    [lia | lia | lia |].
  assert (Emul : Float.mul x c = S754_finite false m e) by exact Er.
  rewrite Emul. split; [reflexivity |].
  cbn [Float.value x c].
  set (t := Qpower 2 (e1 + e2)).
  assert (Ht : (0 < t)%Q) by apply Qpower_2_pos.
  assert (Ep : (inject_Z (Zpos m) * Qpower 2 e
                == inject_Z (Zpos m * 2 ^ (e - (e1 + e2))) * t)%Q).
  { rewrite inject_Z_mult, Qpower_2_inject by lia.
    rewrite <- Qmult_assoc. unfold t. rewrite <- Qpower_2_split.
    replace (e - (e1 + e2) + (e1 + e2)) with e by lia. reflexivity. }
  assert (Ex : (inject_Z (Zpos m1) * Qpower 2 e1 * (inject_Z (Zpos m2) * Qpower 2 e2)
                == inject_Z (Zpos (m1 * m2)) * t)%Q).
  { unfold t. rewrite Qpower_2_split, Pos2Z.inj_mul, inject_Z_mult. ring. }
  rewrite Ep, Ex.
  set (D := Zpos m * 2 ^ (e - (e1 + e2))) in *.
  set (M := Zpos (m1 * m2)) in *.
  assert (HD1 : (inject_Z (2 ^ 53) * inject_Z M <= inject_Z M + inject_Z (2 ^ 53) * inject_Z D)%Q).
  { rewrite <- !inject_Z_mult, <- inject_Z_plus, <- Zle_Qle. lia. }
  assert (HD2 : (inject_Z (2 ^ 53) * inject_Z D <= inject_Z M + inject_Z (2 ^ 53) * inject_Z M)%Q).
  { rewrite <- !inject_Z_mult, <- inject_Z_plus, <- Zle_Qle. lia. }
  assert (HM : (0 < inject_Z M)%Q).
  { change 0%Q with (inject_Z 0). rewrite <- Zlt_Qlt. reflexivity. }
  apply Qabs_Qle_condition.
  change (inject_Z (2 ^ 53)) with (9007199254740992 # 1)%Q in HD1, HD2.
  change (1 # 2 ^ 53)%Q with (1 # 9007199254740992)%Q.
  set (a := inject_Z D) in *. set (b := inject_Z M) in *. clearbody a b t.
  split; nra.
Qed.

Lemma value_pos (m : positive) (e : Z) : (0 < Float.value (S754_finite false m e))%Q.
Proof.
  cbn [Float.value]. apply Qmult_lt_0_compat; [| apply Qpower_2_pos].
  change 0%Q with (inject_Z 0). rewrite <- Zlt_Qlt. reflexivity.
Qed.

(** The product of a positive normal number with the constant [c], a
    positive normal number within [2^-54] of the ratio [q], relatively, is
    within [2^-52] of [q] times the number, relatively. *)
Lemma mul_constant (m : positive) (e : Z) (mc : positive) (ec : Z) (q : Q) :
  Zpos (digits2_pos m) = 53 -> Zpos (digits2_pos mc) = 53 ->
  -1126 <= e + ec -> e + ec <= 917 ->
  (0 < q)%Q ->
  (Qabs (Float.value (S754_finite false mc ec) - q) <= q * (1 # 2 ^ 54))%Q ->
  let x := S754_finite false m e in
  Float.is_finite (Float.mul x (S754_finite false mc ec)) = true /\
  (Qabs (Float.value (Float.mul x (S754_finite false mc ec)) - q * Float.value x)
     <= q * Float.value x * (1 # 2 ^ 52))%Q.
Proof.
  intros D Dc H1 H2 Hq Hc x.
  destruct (mul_relative_error m mc e ec D Dc H1 H2) as [Hf Hb].
  split; [exact Hf |].
  pose proof (value_pos m e) as Hx. fold x in Hx.
  cbv zeta in Hb. fold x in Hb.
  set (p := Float.value (Float.mul x (S754_finite false mc ec))) in *.
  set (c := Float.value (S754_finite false mc ec)) in *.
  set (vx := Float.value x) in *. clearbody p c vx.
  apply Qabs_Qle_condition in Hb. apply Qabs_Qle_condition in Hc.
  apply Qabs_Qle_condition.
  change (1 # 2 ^ 53)%Q with (1 # 9007199254740992)%Q in Hb.
  change (1 # 2 ^ 54)%Q with (1 # 18014398509481984)%Q in Hc.
  change (1 # 2 ^ 52)%Q with (1 # 4503599627370496)%Q.
  destruct Hb as [Hb1 Hb2]. destruct Hc as [Hc1 Hc2].
  split; nra.
Qed.

Lemma c0_8_near : (Qabs (Float.value Float.c0_8 - (4 # 5)) <= (4 # 5) * (1 # 2 ^ 54))%Q.
Proof. vm_compute. discriminate. Qed.

Lemma c1_3_near : (Qabs (Float.value Float.c1_3 - (13 # 10)) <= (13 # 10) * (1 # 2 ^ 54))%Q.
Proof. vm_compute. discriminate. Qed.

Lemma c0_7_near : (Qabs (Float.value Float.c0_7 - (7 # 10)) <= (7 # 10) * (1 # 2 ^ 53))%Q.
Proof. vm_compute. discriminate. Qed.

Lemma c0_7_below : (Float.value Float.c0_7 < 7 # 10)%Q.
Proof. vm_compute. reflexivity. Qed.

(** The same with a constant that is within [2^-53] of [q] and below it:
    the product is within [2^-51] of [q] times the number, and is not above
    [q] times the number by more than [2^-53] of it. *)
Lemma mul_constant_below (m : positive) (e : Z) (mc : positive) (ec : Z) (q : Q) :
  Zpos (digits2_pos m) = 53 -> Zpos (digits2_pos mc) = 53 ->
  -1126 <= e + ec -> e + ec <= 917 ->
  (0 < q)%Q ->
  (Qabs (Float.value (S754_finite false mc ec) - q) <= q * (1 # 2 ^ 53))%Q ->
  (Float.value (S754_finite false mc ec) < q)%Q ->
  let x := S754_finite false m e in
  Float.is_finite (Float.mul x (S754_finite false mc ec)) = true /\
  (q * Float.value x * (1 - (1 # 2 ^ 51)) <= Float.value (Float.mul x (S754_finite false mc ec)))%Q /\
  (Float.value (Float.mul x (S754_finite false mc ec)) <= q * Float.value x * (1 + (1 # 2 ^ 53)))%Q.
Proof.
  intros D Dc H1 H2 Hq Hc Hlt x.
  destruct (mul_relative_error m mc e ec D Dc H1 H2) as [Hf Hb].
  split; [exact Hf |].
  pose proof (value_pos m e) as Hx. fold x in Hx.
  cbv zeta in Hb. fold x in Hb.
  set (p := Float.value (Float.mul x (S754_finite false mc ec))) in *.
  set (c := Float.value (S754_finite false mc ec)) in *.
  set (vx := Float.value x) in *. clearbody p c vx.
  apply Qabs_Qle_condition in Hb. apply Qabs_Qle_condition in Hc.
  change (1 # 2 ^ 53)%Q with (1 # 9007199254740992)%Q in *.
  change (1 # 2 ^ 51)%Q with (1 # 2251799813685248)%Q.
  destruct Hb as [Hb1 Hb2]. destruct Hc as [Hc1 Hc2].
  split; nra.
Qed.

(** [Float.trunc] is the integer part of the value. *)
Lemma trunc_value (m : positive) (e : Z) :
  let x := S754_finite false m e in
  (inject_Z (Float.trunc x) <= Float.value x < inject_Z (Float.trunc x) + 1)%Q.
Proof.
  destruct e as [| p | p]; unfold Float.trunc, Float.value; cbv beta iota zeta.
  - cbn [Qpower]. split; [rewrite Qmult_1_r; apply Qle_refl |].
    rewrite Qmult_1_r. rewrite <- (Qplus_0_r (inject_Z (Zpos m))) at 1.
    apply Qplus_lt_r. reflexivity.
  - rewrite inject_Z_mult, Qpower_2_inject by lia. split; [apply Qle_refl |].
    rewrite <- (Qplus_0_r (_ * _)) at 1. apply Qplus_lt_r. reflexivity.
  - assert (Hp : 0 < 2 ^ Zpos p) by (apply Z.pow_pos_nonneg; lia).
    pose proof (Z.div_mod (Zpos m) (2 ^ Zpos p) ltac:(lia)) as Hdm.
    pose proof (Z.mod_pos_bound (Zpos m) (2 ^ Zpos p) Hp) as Hmb.
    set (qz := Zpos m / 2 ^ Zpos p) in *. set (rz := Zpos m mod 2 ^ Zpos p) in *.
    assert (Ev : (inject_Z (Zpos m) * Qpower 2 (Zneg p) * inject_Z (2 ^ Zpos p)
                  == inject_Z (Zpos m))%Q).
    { rewrite Qpower_2_inject by lia. rewrite <- Qmult_assoc, <- Qpower_2_split.
      replace (Z.neg p + Z.pos p) with 0 by lia. cbn [Qpower]. apply Qmult_1_r. }
    assert (Ht : (0 < inject_Z (2 ^ Zpos p))%Q).
    { change 0%Q with (inject_Z 0). rewrite <- Zlt_Qlt. exact Hp. }
    assert (Hq1 : (inject_Z qz * inject_Z (2 ^ Zpos p) <= inject_Z (Zpos m))%Q).
    { rewrite <- inject_Z_mult, <- Zle_Qle. lia. }
    assert (Hq2 : (inject_Z (Zpos m) < (inject_Z qz + 1) * inject_Z (2 ^ Zpos p))%Q).
    { change 1%Q with (inject_Z 1).
      rewrite <- inject_Z_plus, <- inject_Z_mult, <- Zlt_Qlt. lia. }
    rewrite <- Ev in Hq1, Hq2.
    split.
    + apply Qmult_le_r in Hq1; assumption.
    + apply Qmult_lt_r in Hq2; assumption.
Qed.

Lemma value_pos_inv (x : spec_float) :
  (0 < Float.value x)%Q -> exists m e, x = S754_finite false m e.
Proof.
  destruct x as [sg | sg | | sg m e]; cbn [Float.value]; intros H;
    try (exfalso; apply (Qlt_irrefl 0); exact H).
  destruct sg; [| eexists _, _; reflexivity].
  exfalso.
  assert (Hp : (0 < inject_Z (Zpos m) * Qpower 2 e)%Q).
  { apply Qmult_lt_0_compat; [| apply Qpower_2_pos].
    change 0%Q with (inject_Z 0). rewrite <- Zlt_Qlt. reflexivity. }
  set (a := inject_Z (Zpos m)) in *. set (t := Qpower 2 e) in *. clearbody a t.
  nra.
Qed.

(** The refund: the product of a positive normal price with the binary64
    number nearest to 0.7, and its integer part. *)
Lemma refund_bounds (m : positive) (e : Z) :
  Zpos (digits2_pos m) = 53 -> -1073 <= e <= 969 ->
  let ar := S754_finite false m e in
  let visszaterites := Float.mul ar Float.c0_7 in
  Float.is_finite visszaterites = true /\
  ((7 # 10) * Float.value ar * (1 - (1 # 2 ^ 51)) <= Float.value visszaterites)%Q /\
  (Float.value visszaterites <= (7 # 10) * Float.value ar * (1 + (1 # 2 ^ 53)))%Q /\
  (inject_Z (Float.trunc visszaterites) <= Float.value visszaterites)%Q /\
  (Float.value visszaterites < inject_Z (Float.trunc visszaterites) + 1)%Q.
Proof.
  intros Hm He ar visszaterites.
  destruct (mul_constant_below m e 6305039478318694 (-53) (7 # 10)
              Hm eq_refl ltac:(lia) ltac:(lia) eq_refl
              c0_7_near c0_7_below) as (Hf & Hlo & Hhi).
  fold ar in Hf, Hlo, Hhi. change (S754_finite false 6305039478318694 (-53))
    with Float.c0_7 in Hf, Hlo, Hhi. fold visszaterites in Hf, Hlo, Hhi.
  split; [exact Hf |]. split; [exact Hlo |]. split; [exact Hhi |].
  pose proof (value_pos m e) as Hx. fold ar in Hx.
  assert (Hv : (0 < Float.value visszaterites)%Q).
  { eapply Qlt_le_trans; [| exact Hlo].
    change (1 # 2 ^ 51)%Q with (1 # 2251799813685248)%Q.
    set (vx := Float.value ar) in *. clearbody vx. nra. }
  destruct (value_pos_inv visszaterites Hv) as (m' & e' & E).
  rewrite E. apply (trunc_value m' e').
Qed.

End FloatFacts.

(** ** The claims about the domain classes *)

Section Classes.

Context {builtins : PyBuiltins}.

(** C9, as amended.  The base price [ar] is a positive normal binary64
    number, [m * 2^e] with [2^52 <= m < 2^53] and [-1073 <= e <= 969] (so
    between [2^-1021] and [2^1022]).  In any state of the program the
    constructor of [BelfoldiJarat] returns a domestic flight whose stored
    price is the binary64 product of [ar] and the binary64 number nearest to
    0.8: it is finite and differs from 0.8 times [ar] by at most [2^-52] of
    that; the constructor of [NemzetkoziJarat] returns an international
    flight whose stored price is the binary64 product of [ar] and the
    number nearest to 1.3: finite and within [2^-52] of 1.3 times [ar],
    relatively. *)
Theorem C9_jegyar_szorzo (jaratszam indulo cel : string) (m : positive) (e : Z)
    (lt : string) (datum : datetime)
    (Hm : Zpos (digits2_pos m) = 53)
    (He : -1073 <= e <= 969) :
  let ar := S754_finite false m e in
  (forall s, exists j s',
     new_BelfoldiJarat jaratszam indulo cel ar lt datum s = (Val j, s') /\
     Jarat.osztaly j = BelfoldiJarat /\
     Jarat.jegyar j = Float.mul ar Float.c0_8 /\
     Float.is_finite (Jarat.jegyar j) = true /\
     (Qabs (Float.value (Jarat.jegyar j) - (4 # 5) * Float.value ar)
        <= (4 # 5) * Float.value ar * (1 # 2 ^ 52))%Q) /\
  (forall s, exists j s',
     new_NemzetkoziJarat jaratszam indulo cel ar lt datum s = (Val j, s') /\
     Jarat.osztaly j = NemzetkoziJarat /\
     Jarat.jegyar j = Float.mul ar Float.c1_3 /\
     Float.is_finite (Jarat.jegyar j) = true /\
     (Qabs (Float.value (Jarat.jegyar j) - (13 # 10) * Float.value ar)
        <= (13 # 10) * Float.value ar * (1 # 2 ^ 52))%Q).
Proof.
  intros ar. split.
  - intros s. eexists _, _. split; [reflexivity |]. split; [reflexivity |].
    split; [reflexivity |].
    apply (FloatFacts.mul_constant m e 7205759403792794 (-53) (4 # 5));
      [exact Hm | reflexivity | lia | lia | reflexivity | apply FloatFacts.c0_8_near].
  - intros s. eexists _, _. split; [reflexivity |]. split; [reflexivity |].
    split; [reflexivity |].
    apply (FloatFacts.mul_constant m e 5854679515581645 (-52) (13 # 10));
      [exact Hm | reflexivity | lia | lia | reflexivity | apply FloatFacts.c1_3_near].
Qed.

(** C5. [Legitarsasag.jarat_hozzaadasa]: when a flight of the airline has
    the number of the new flight, the call raises the duplicate-number
    [ValueError] and the system, hence the flight list, is as before;
    otherwise the flight list afterwards is the old list, in its order,
    followed by the new flight. *)
Theorem C5_jarat_hozzaadasa (r : Rendszer) (w : Vilag) (l : Legitarsasag.t)
    (jarat : Jarat.t) (Hl : legitarsasag r = Some l) :
  ((exists j, j ∈ Legitarsasag.jaratok l /\
              Jarat.jaratszam j = Jarat.jaratszam jarat) ->
     Legitarsasag.jarat_hozzaadasa l jarat
       = inl (ValueError (JaratszamMarLetezik (Jarat.jaratszam jarat))) /\
     self_jarat_hozzaadasa jarat (mkAllapot r w)
       = (Exc (ValueError (JaratszamMarLetezik (Jarat.jaratszam jarat))),
          mkAllapot r w)) /\
  ((forall j, j ∈ Legitarsasag.jaratok l ->
              Jarat.jaratszam j <> Jarat.jaratszam jarat) ->
     Legitarsasag.jarat_hozzaadasa l jarat
       = inr (Legitarsasag.mk (Legitarsasag.nev l)
                              (Legitarsasag.jaratok l ++ [jarat])) /\
     self_jarat_hozzaadasa jarat (mkAllapot r w)
       = (Val tt,
          mkAllapot
            (mkRendszer
               (Some (Legitarsasag.mk (Legitarsasag.nev l)
                                      (Legitarsasag.jaratok l ++ [jarat])))
               (foglalasok r) (existing_foglalas_ids r))
            w)).
Proof.
  assert (Hex : existsb (fun j => String.eqb (Jarat.jaratszam j)
                                             (Jarat.jaratszam jarat))
                        (Legitarsasag.jaratok l) = true <->
                exists j, j ∈ Legitarsasag.jaratok l /\
                          Jarat.jaratszam j = Jarat.jaratszam jarat).
  { rewrite existsb_exists. split; intros (j & Hin & Hj); exists j.
    - apply list_elem_of_In in Hin. apply String.eqb_eq in Hj. auto.
    - apply list_elem_of_In in Hin. apply String.eqb_eq in Hj. auto. }
  unfold self_jarat_hozzaadasa, bind, get_self, Legitarsasag.jarat_hozzaadasa.
  cbn. rewrite Hl. split.
  - intros H. apply Hex in H. rewrite H. cbn. split; reflexivity.
  - intros H.
    destruct (existsb _ _) eqn:E.
    + destruct (proj1 Hex eq_refl) as (j & Hin & Hj). exfalso. exact (H j Hin Hj).
    + cbn. split; reflexivity.
Qed.

(** C4. The status a flight gets at construction is [AKTIV] exactly when its
    date is strictly after the clock value read in the constructor, and
    [INAKTIV] otherwise; and whatever the menu loop does afterwards, from any
    state and for any number of rounds, every flight that was in the list is
    still there at its place, unchanged, so with the status it had.  The
    clock value is the one the constructor call reads in the state of the
    program: each of the two constructors reads the clock once and compares
    the date with what it read. *)
Theorem C4_statusz_rogzitett :
  (forall o ido jaratszam indulo cel ar lt datum now,
     (datetime_cmp datum now = Gt ->
      Jarat.statusz (Jarat.init o ido jaratszam indulo cel ar lt datum now) = AKTIV) /\
     (datetime_cmp datum now <> Gt ->
      Jarat.statusz (Jarat.init o ido jaratszam indulo cel ar lt datum now) = INAKTIV)) /\
  (forall fuel s i j,
     jaratok_of (self s) !! i = Some j ->
     jaratok_of (self (snd (menu_ciklus fuel s))) !! i = Some j /\
     forall v m, muvelet fuel v = Some m ->
       jaratok_of (self (snd (m s))) !! i = Some j) /\
  (forall jaratszam indulo cel ar lt datum r i o c cp v vp,
     (exists j,
        new_BelfoldiJarat jaratszam indulo cel ar lt datum (St r i o c cp v vp)
          = (Val j, St r i o c (S cp) v vp) /\
        (Jarat.statusz j = AKTIV <-> datetime_cmp datum (c cp) = Gt) /\
        (Jarat.statusz j = INAKTIV <-> datetime_cmp datum (c cp) <> Gt)) /\
     (exists j,
        new_NemzetkoziJarat jaratszam indulo cel ar lt datum (St r i o c cp v vp)
          = (Val j, St r i o c (S cp) v vp) /\
        (Jarat.statusz j = AKTIV <-> datetime_cmp datum (c cp) = Gt) /\
        (Jarat.statusz j = INAKTIV <-> datetime_cmp datum (c cp) <> Gt))).
Proof.
  split; [| split].
  - intros. unfold Jarat.init, datetime_gtb. cbn.
    split; intros H; destruct (datetime_cmp datum now); congruence.
  - intros fuel s i j Hj. split.
    + destruct (keeps_menu_ciklus fuel s) as (uj & E & _).
      rewrite E. apply lookup_app_l_Some. exact Hj.
    + intros v m Hm. destruct (keeps_muvelet fuel v m Hm s) as (uj & E & _).
      rewrite E. apply lookup_app_l_Some. exact Hj.
  - intros. split; eexists; (split; [reflexivity |]);
      unfold Jarat.init_belfoldi, Jarat.init_nemzetkozi, Jarat.init, datetime_gtb;
      cbn [Jarat.statusz ora ora_poz vilag];
      destruct (datetime_cmp datum (c cp)); cbv beta iota;
      split; split; congruence.
Qed.

End Classes.

(** ** Worked instances of the claims about the classes *)

(** The base price 20000 is [5497558138880000 * 2^-38]: the domestic
    flight costs 16000 and the international one 26000, within the bound
    (here both products are exact). *)
Lemma C9_jegyar_szorzo_witness :
  let ar := S754_finite false 5497558138880000 (-38) in
  let s := St pelda_rendszer [] [] (fun _ => pelda_most) 0 (fun n => n) 0 in
  ar = Float.of_Z 20000 /\
  (exists j s',
     new_BelfoldiJarat "WIZ102" "Budapest" "Szeged" ar "Wizz Air"
                       (datetime_ymd 2025 6 10) s = (Val j, s') /\
     Jarat.osztaly j = BelfoldiJarat /\
     Jarat.jegyar j = Float.mul ar Float.c0_8 /\
     Float.is_finite (Jarat.jegyar j) = true /\
     (Qabs (Float.value (Jarat.jegyar j) - (4 # 5) * Float.value ar)
        <= (4 # 5) * Float.value ar * (1 # 2 ^ 52))%Q) /\
  Float.mul ar Float.c0_8 = Float.of_Z 16000 /\
  Float.mul ar Float.c1_3 = Float.of_Z 26000.
Proof.
  intros ar s. split; [reflexivity |]. split.
  - apply (proj1 (C9_jegyar_szorzo "WIZ102" "Budapest" "Szeged"
                    5497558138880000 (-38) "Wizz Air" (datetime_ymd 2025 6 10)
                    eq_refl ltac:(lia)) s).
  - split; vm_compute; reflexivity.
Defined.

(** C9 at the failing inputs.  For the base price 3 the domestic price is
    not 0.8 times 3: it is the binary64 number just above 2.4,
    2.4000000000000004.  For the base price of 309 digits (15 followed by
    307 zeros, a finite number) the international price is not a number at
    all: the product overflows to infinity. *)
Lemma C9_counterexample :
  let harom := Float.of_Z 3 in
  let b := Jarat.jegyar (Jarat.init_belfoldi "WIZ500" "Budapest" "Szeged" harom
                           "Wizz Air" (datetime_ymd 2025 6 10) pelda_most) in
  (Float.value harom == 3)%Q /\
  Float.is_finite b = true /\
  ~ (Float.value b == (4 # 5) * Float.value harom)%Q /\
  ((4 # 5) * Float.value harom < Float.value b)%Q /\
  option_map
    (fun nagy =>
       (Float.is_finite nagy, Float.leb nagy (S754_zero false),
        Float.is_finite
          (Jarat.jegyar (Jarat.init_nemzetkozi "WIZ500" "Budapest" "Wien" nagy
                           "Wizz Air" (datetime_ymd 2025 6 10) pelda_most))))
    (Parse.float pelda_nagy_ar)
    = Some (true, false, false).
Proof.
  vm_compute. repeat split; try reflexivity. intros H. discriminate H.
Qed.

(** Adding WIZ102 again is refused and changes nothing; adding WIZ103 puts
    it after WIZ102. *)
Lemma C5_jarat_hozzaadasa_witness :
  let w := Vilag_init [] (fun _ => pelda_most) (fun _ => O) in
  self_jarat_hozzaadasa (pelda_jarat "WIZ102") (mkAllapot pelda_rendszer w)
    = (Exc (ValueError (JaratszamMarLetezik "WIZ102")), mkAllapot pelda_rendszer w) /\
  Legitarsasag.jarat_hozzaadasa pelda_legitarsasag (pelda_jarat "WIZ103")
    = inr (Legitarsasag.mk "Wizz Air Hungary"
             [pelda_jarat "WIZ102"; pelda_jarat "WIZ103"]).
Proof.
  intros w. split.
  - apply (proj1 (C5_jarat_hozzaadasa pelda_rendszer w pelda_legitarsasag
                    (pelda_jarat "WIZ102") eq_refl)).
    exists (pelda_jarat "WIZ102"). split; [apply list_elem_of_here | reflexivity].
  - apply (proj2 (C5_jarat_hozzaadasa pelda_rendszer w pelda_legitarsasag
                    (pelda_jarat "WIZ103") eq_refl)).
    intros j Hj. apply list_elem_of_singleton in Hj. subst j. discriminate.
Defined.

(** WIZ102, dated 2025-06-10, is active when constructed on 2025-01-15 and
    inactive when constructed on 2025-07-01 or at the very instant of its
    date; and an active WIZ102 already in the list is still there, active,
    after any ten rounds of the menu loop on any input. *)
Lemma C4_statusz_rogzitett_witness :
  Jarat.statusz (pelda_jarat "WIZ102") = AKTIV /\
  Jarat.statusz (teszt_jarat_2 (ora_julius 0)) = INAKTIV /\
  Jarat.statusz (teszt_jarat_2 (datetime_ymd 2025 6 10)) = INAKTIV /\
  forall w,
    option_map Jarat.statusz
      (jaratok_of
         (self (snd (menu_ciklus (builtins := Parse.builtins) 10
                       (mkAllapot pelda_rendszer w)))) !! 0%nat)
      = Some AKTIV.
Proof.
  destruct (@C4_statusz_rogzitett Parse.builtins) as (Hinit & Hkeep & _).
  split; [| split; [| split]].
  - apply (proj1 (Hinit BelfoldiJarat 2 "WIZ102" "Budapest" "Szeged"
                    (Float.mul (Float.of_Z 20000) Float.c0_8) "Wizz Air"
                    (datetime_ymd 2025 6 10) pelda_most)).
    reflexivity.
  - apply (proj2 (Hinit BelfoldiJarat 2 "WIZ102" "Budapest" "Szeged"
                    (Float.mul (Float.of_Z 20000) Float.c0_8) "Wizz Air"
                    (datetime_ymd 2025 6 10) (ora_julius 0%nat))).
    discriminate.
  - apply (proj2 (Hinit BelfoldiJarat 2 "WIZ102" "Budapest" "Szeged"
                    (Float.mul (Float.of_Z 20000) Float.c0_8) "Wizz Air"
                    (datetime_ymd 2025 6 10) (datetime_ymd 2025 6 10))).
    discriminate.
  - intros w.
    rewrite (proj1 (Hkeep 10%nat (mkAllapot pelda_rendszer w) 0%nat
                      (pelda_jarat "WIZ102") eq_refl)).
    reflexivity.
Defined.

(** ** Running the program: the primitives on an explicit state *)

Lemma get_lt (s : string) : forall n, (n < String.length s)%nat -> String.get n s <> None.
Proof.
  induction s as [| c s IH]; intros n Hn; cbn in Hn; [lia |].
  destruct n as [| n]; cbn; [discriminate | apply IH; lia].
Qed.

Lemma random_choice_run (population : string) r i o c cp v vp :
  population <> EmptyString ->
  random_choice population (St r i o c cp v vp)
    = (Val (pick population (v vp)), St r i o c cp v (S vp)).
Proof.
  intros Hne. unfold random_choice, bind, random_draw, pick. cbn.
  destruct (String.get _ population) eqn:E; [reflexivity |].
  exfalso. revert E. apply get_lt. apply Nat.mod_upper_bound.
  destruct population; [congruence | discriminate].
Qed.

Lemma generate_foglalas_id_run r i o c cp v vp :
  _generate_foglalas_id (St r i o c cp v vp)
    = (Val (id_of v vp), St r i o c cp v (5 + vp)%nat).
Proof.
  unfold _generate_foglalas_id, random_choices, bind, ret.
  repeat (rewrite random_choice_run by discriminate; cbv beta iota).
  reflexivity.
Qed.

Lemma new_JegyFoglalas_run (jarat : Jarat.t) (utas_nev : string) r i o c cp v vp :
  new_JegyFoglalas jarat utas_nev (St r i o c cp v vp)
    = (Val (JegyFoglalas.init (id_of v vp) jarat utas_nev),
       St r i o c cp v (5 + vp)%nat).
Proof.
  unfold new_JegyFoglalas, bind. rewrite generate_foglalas_id_run. reflexivity.
Qed.

Lemma int_of_float_finite (x : spec_float) (s : Allapot) :
  Float.is_finite x = true -> int_of_float x s = (Val (Float.trunc x), s).
Proof. destruct x; cbn; intros H; (discriminate || reflexivity). Qed.

Lemma print_jaratok_run (l : list Jarat.t) :
  Forall (fun j => Float.is_finite (Jarat.jegyar j) = true) l ->
  forall n r i o c cp v vp,
    print_jaratok n l (St r i o c cp v vp)
      = (Val tt, St r i (o ++ jarat_sorok n l) c cp v vp).
Proof.
  induction 1 as [| j l Hj Hl IH]; intros n r i o c cp v vp; cbn.
  - rewrite app_nil_r. reflexivity.
  - unfold bind. rewrite int_of_float_finite by exact Hj. cbn.
    rewrite IH, <- app_assoc. reflexivity.
Qed.

(** Whatever the prices, [print_jaratok] touches the printed lines only. *)
Lemma print_jaratok_frame (l : list Jarat.t) :
  forall n r i o c cp v vp,
    exists res o',
      print_jaratok n l (St r i o c cp v vp) = (res, St r i o' c cp v vp) /\
      res <> Div.
Proof.
  induction l as [| j l IH]; intros n r i o c cp v vp; cbn.
  - eexists _, _. split; [reflexivity | discriminate].
  - unfold bind. destruct (Jarat.jegyar j); cbn;
      try (eexists _, _; split; [reflexivity | discriminate]);
      apply IH.
Qed.

(** ** Running the program: sequencing *)

Lemma bind_val {A B} (m : M A) (k : A -> M B) (s s' : Allapot) (a : A) :
  m s = (Val a, s') -> bind m k s = k a s'.
Proof. intros E. unfold bind. rewrite E. reflexivity. Qed.

Lemma bind_exc {A B} (m : M A) (k : A -> M B) (s s' : Allapot) (e : exn) :
  m s = (Exc e, s') -> bind m k s = (Exc e, s').
Proof. intros E. unfold bind. rewrite E. reflexivity. Qed.

Lemma try_except_val {A} (m : M A) (h : exn -> M A) (s s' : Allapot) (a : A) :
  m s = (Val a, s') -> try_except m h s = (Val a, s').
Proof. intros E. unfold try_except. rewrite E. reflexivity. Qed.

Lemma try_except_exc {A} (m : M A) (h : exn -> M A) (s s' : Allapot) (e : exn) :
  m s = (Exc e, s') -> try_except m h s = h e s'.
Proof. intros E. unfold try_except. rewrite E. reflexivity. Qed.

Lemma new_BelfoldiJarat_run jaratszam indulo cel ar lt datum r i o c cp v vp :
  new_BelfoldiJarat jaratszam indulo cel ar lt datum (St r i o c cp v vp)
    = (Val (Jarat.init_belfoldi jaratszam indulo cel ar lt datum (c cp)),
       St r i o c (S cp) v vp).
Proof. reflexivity. Qed.

Lemma new_NemzetkoziJarat_run jaratszam indulo cel ar lt datum r i o c cp v vp :
  new_NemzetkoziJarat jaratszam indulo cel ar lt datum (St r i o c cp v vp)
    = (Val (Jarat.init_nemzetkozi jaratszam indulo cel ar lt datum (c cp)),
       St r i o c (S cp) v vp).
Proof. reflexivity. Qed.

Lemma print_run (m : Msg) r i o c cp v vp :
  print m (St r i o c cp v vp) = (Val tt, St r i (o ++ [m]) c cp v vp).
Proof. reflexivity. Qed.

Lemma input_run (line : string) r i o c cp v vp :
  input (St r (line :: i) o c cp v vp) = (Val line, St r i o c cp v vp).
Proof. reflexivity. Qed.

Lemma get_self_run r i o c cp v vp :
  get_self (St r i o c cp v vp) = (Val r, St r i o c cp v vp).
Proof. reflexivity. Qed.

Lemma put_self_run r' r i o c cp v vp :
  put_self r' (St r i o c cp v vp) = (Val tt, St r' i o c cp v vp).
Proof. reflexivity. Qed.

Lemma datetime_now_run r i o c cp v vp :
  datetime_now (St r i o c cp v vp) = (Val (c cp), St r i o c (S cp) v vp).
Proof. reflexivity. Qed.

(** Runs the next statement of a sequence with the equation [tac] proves
    for it. *)
Ltac run_by tac := erewrite bind_val by tac.
Ltac run_prim :=
  run_by ltac:(first [ apply print_run | apply input_run | apply get_self_run
                     | apply put_self_run | apply datetime_now_run
                     | apply new_BelfoldiJarat_run | apply new_NemzetkoziJarat_run
                     | apply new_JegyFoglalas_run | apply generate_foglalas_id_run ]).

(** ** The seed data *)

Lemma elem_of_ids_hozzaadva (l : list JegyFoglalas.t) :
  forall X x, x ∈ ids_hozzaadva l X <->
              x ∈ X \/ x ∈ List.map JegyFoglalas.foglalas_id l.
Proof.
  induction l as [| f l IH]; intros X x; cbn.
  - rewrite elem_of_nil. tauto.
  - rewrite IH, elem_of_union, elem_of_singleton, elem_of_cons. tauto.
Qed.

Section Seed.

Context {builtins : PyBuiltins}.

Lemma ids_nyomonkovetese_run (l : list JegyFoglalas.t) :
  forall lt fs X i o c cp v vp,
    ids_nyomonkovetese l (St (mkRendszer lt fs X) i o c cp v vp)
      = (Val tt, St (mkRendszer lt fs (ids_hozzaadva l X)) i o c cp v vp).
Proof.
  induction l as [| f l IH]; intros; cbn; [reflexivity |].
  apply IH.
Qed.

Lemma teszt_foglalas_run (k : Z) (utas_nev : string) (jarat : Jarat.t)
    lt fs X i o c cp v vp :
  (0 <= k < Z.of_nat (length (Legitarsasag.jaratok lt))) ->
  Legitarsasag.jaratok lt !! Z.to_nat k = Some jarat ->
  teszt_foglalas k utas_nev (St (mkRendszer (Some lt) fs X) i o c cp v vp)
    = (Val tt,
       St (mkRendszer (Some lt)
             (fs ++ [JegyFoglalas.init (id_of v vp) jarat utas_nev]) X)
          i o c cp v (5 + vp)%nat).
Proof.
  intros Hk Hj. unfold teszt_foglalas, bind, get_self, getitem. cbn.
  replace ((0 <=? k) && (k <? Z.of_nat (length (Legitarsasag.jaratok lt))))
    with true by (symmetry; apply andb_true_iff; split; lia).
  rewrite Hj. cbn. rewrite new_JegyFoglalas_run. reflexivity.
Qed.

(** What [_init_test_adatok] does to a new system, for any clock and any
    random generator: it returns normally, having read the clock three
    times and drawn thirty random numbers. *)
Lemma self_jarat_hozzaadasa_run (jarat : Jarat.t) (l : Legitarsasag.t)
    fs X i o c cp v vp :
  existsb (fun j => String.eqb (Jarat.jaratszam j) (Jarat.jaratszam jarat))
          (Legitarsasag.jaratok l) = false ->
  self_jarat_hozzaadasa jarat (St (mkRendszer (Some l) fs X) i o c cp v vp)
    = (Val tt,
       St (mkRendszer
             (Some (Legitarsasag.mk (Legitarsasag.nev l)
                                    (Legitarsasag.jaratok l ++ [jarat])))
             fs X)
          i o c cp v vp).
Proof.
  intros E. unfold self_jarat_hozzaadasa, bind, get_self,
    Legitarsasag.jarat_hozzaadasa. cbn. rewrite E. reflexivity.
Qed.

(** What [_init_test_adatok] does to a new system, for any clock and any
    random generator: it returns normally, having read the clock three
    times and drawn thirty random numbers. *)
Lemma init_test_adatok_run i o c cp v vp :
  _init_test_adatok (St Rendszer_init i o c cp v vp)
    = (Val tt,
       St (mkRendszer
             (Some (Legitarsasag.mk "Wizz Air Hungary" (teszt_jaratok c cp)))
             (teszt_foglalasok c cp v vp)
             (ids_hozzaadva (teszt_foglalasok c cp v vp) ∅))
          i o c (3 + cp)%nat v (30 + vp)%nat).
Proof.
  unfold _init_test_adatok, Rendszer_init.
  do 3 run_prim.
  run_by ltac:(apply self_jarat_hozzaadasa_run; reflexivity).
  run_prim.
  run_by ltac:(apply self_jarat_hozzaadasa_run; reflexivity).
  run_prim.
  run_by ltac:(apply self_jarat_hozzaadasa_run; reflexivity).
  do 6 (run_by ltac:(apply teszt_foglalas_run; [cbn; lia | reflexivity])).
  run_prim.
  rewrite ids_nyomonkovetese_run. reflexivity.
Qed.

End Seed.

(** ** C3: the seed data and the status report *)

Lemma teszt_ar_1 : Float.mul (Float.of_Z 15000) Float.c0_8 = Float.of_Z 12000.
Proof. vm_compute. reflexivity. Qed.

Lemma teszt_ar_2 : Float.mul (Float.of_Z 20000) Float.c0_8 = Float.of_Z 16000.
Proof. vm_compute. reflexivity. Qed.

Lemma teszt_ar_3 : Float.mul (Float.of_Z 50000) Float.c1_3 = Float.of_Z 65000.
Proof. vm_compute. reflexivity. Qed.

Section SeedClaims.

Context {builtins : PyBuiltins}.

Lemma rendszer_allapota_run (l : Legitarsasag.t) fs X i o c cp v vp :
  rendszer_allapota (St (mkRendszer (Some l) fs X) i o c cp v vp)
    = (Val tt, St (mkRendszer (Some l) fs X) i (o ++ allapot_sorok l fs) c cp v vp).
Proof.
  unfold rendszer_allapota, allapot_sorok, bind, print. cbn.
  repeat rewrite <- app_assoc. reflexivity.
Qed.

(** C3, as amended.  Seeding a new system returns normally and leaves three
    flights in insertion order, WIZ001 (domestic, dated 2023-01-01, 12000),
    WIZ102 (domestic, 20000 x 0.8 = 16000) and WIZ201 (international,
    50000 x 1.3 = 65000), and six active bookings, two against WIZ102 and
    four against WIZ201.  When the clock read in the first constructor is not
    before 2023-01-01 and the clock values read in the second and third are
    before 2025-06-10 and 2025-06-15, the first flight is inactive, the
    other two are active, and the status report shows 3 flights, 2 active,
    2 domestic, 1 international, 6 bookings, 6 active, 0 cancelled. *)
Theorem C3_teszt_adatok i o c cp v vp :
  exists r,
    _init_test_adatok (St Rendszer_init i o c cp v vp)
      = (Val tt, St r i o c (3 + cp)%nat v (30 + vp)%nat) /\
    List.map Jarat.jaratszam (jaratok_of r) = ["WIZ001"; "WIZ102"; "WIZ201"] /\
    List.map Jarat.osztaly (jaratok_of r)
      = [BelfoldiJarat; BelfoldiJarat; NemzetkoziJarat] /\
    List.map Jarat.datum (jaratok_of r)
      = [datetime_ymd 2023 1 1; datetime_ymd 2025 6 10; datetime_ymd 2025 6 15] /\
    List.map Jarat.jegyar (jaratok_of r)
      = [Float.of_Z 12000; Float.of_Z 16000; Float.of_Z 65000] /\
    List.map JegyFoglalas.jaratszam (foglalasok r)
      = ["WIZ102"; "WIZ102"; "WIZ201"; "WIZ201"; "WIZ201"; "WIZ201"] /\
    List.map JegyFoglalas.statusz (foglalasok r)
      = [Aktiv; Aktiv; Aktiv; Aktiv; Aktiv; Aktiv] /\
    (datetime_gtb (datetime_ymd 2023 1 1) (c cp) = false ->
     datetime_gtb (datetime_ymd 2025 6 10) (c (1 + cp)%nat) = true ->
     datetime_gtb (datetime_ymd 2025 6 15) (c (2 + cp)%nat) = true ->
     List.map Jarat.statusz (jaratok_of r) = [INAKTIV; AKTIV; AKTIV] /\
     rendszer_allapota (St r i o c (3 + cp)%nat v (30 + vp)%nat)
       = (Val tt, St r i (o ++ teszt_jelentes) c (3 + cp)%nat v (30 + vp)%nat)).
Proof.
  eexists. split; [apply init_test_adatok_run |].
  cbn [jaratok_of legitarsasag foglalasok Legitarsasag.jaratok].
  split; [reflexivity |]. split; [reflexivity |]. split; [reflexivity |].
  split.
  { unfold teszt_jaratok, teszt_jarat_1, teszt_jarat_2, teszt_jarat_3,
      Jarat.init_belfoldi, Jarat.init_nemzetkozi, Jarat.init.
    cbn [List.map Jarat.jegyar].
    rewrite teszt_ar_1, teszt_ar_2, teszt_ar_3. reflexivity. }
  split; [reflexivity |]. split; [reflexivity |].
  intros H1 H2 H3.
  assert (Hs : List.map Jarat.statusz (teszt_jaratok c cp) = [INAKTIV; AKTIV; AKTIV]).
  { unfold teszt_jaratok, teszt_jarat_1, teszt_jarat_2, teszt_jarat_3,
      Jarat.init_belfoldi, Jarat.init_nemzetkozi, Jarat.init. cbn [List.map Jarat.statusz].
    rewrite H1, H2, H3. reflexivity. }
  assert (Ha : List.filter Jarat.is_aktiv (teszt_jaratok c cp)
               = [teszt_jarat_2 (c (1 + cp)%nat); teszt_jarat_3 (c (2 + cp)%nat)]).
  { unfold teszt_jaratok, Jarat.is_aktiv, teszt_jarat_1, teszt_jarat_2,
      teszt_jarat_3, Jarat.init_belfoldi, Jarat.init_nemzetkozi, Jarat.init.
    cbn [List.filter Jarat.statusz]. rewrite H1, H2, H3. reflexivity. }
  split; [exact Hs |].
  rewrite rendszer_allapota_run. do 2 f_equal.
  unfold allapot_sorok, teszt_jelentes.
  cbn [Legitarsasag.jaratok Legitarsasag.nev]. rewrite Ha. reflexivity.
Qed.

End SeedClaims.

(** Seeding on 2024-03-01: the statuses and the report are as the claim
    says. *)
Lemma C3_teszt_adatok_witness :
  exists r o',
    _init_test_adatok (St Rendszer_init [] [] ora_2024 0 (fun n => n) 0)
      = (Val tt, St r [] [] ora_2024 3 (fun n => n) 30) /\
    List.map Jarat.statusz (jaratok_of r) = [INAKTIV; AKTIV; AKTIV] /\
    rendszer_allapota (St r [] [] ora_2024 3 (fun n => n) 30)
      = (Val tt, St r [] o' ora_2024 3 (fun n => n) 30) /\
    o' = teszt_jelentes.
Proof.
  destruct (C3_teszt_adatok [] [] ora_2024 0%nat (fun n => n) 0%nat)
    as (r & E & _ & _ & _ & _ & _ & _ & Hido).
  destruct (Hido eq_refl eq_refl eq_refl) as (Hs & Hr).
  exists r, teszt_jelentes. repeat split; assumption.
Defined.

(** Seeding on 2026-11-04: the three flights are all inactive, and the
    status report shows no active flight. *)
Lemma C3_counterexample :
  let s := snd (_init_test_adatok (St Rendszer_init [] [] ora_2026 0 (fun n => n) 0)) in
  List.map Jarat.statusz (jaratok_of (self s)) = [INAKTIV; INAKTIV; INAKTIV] /\
  List.map Jarat.statusz (jaratok_of (self s)) <> [INAKTIV; AKTIV; AKTIV] /\
  stdout (vilag (snd (rendszer_allapota s)))
    = [MRendszerAllapota; MVonal; MLegitarsasag "Wizz Air Hungary";
       MJaratokSzama 3; MAktivJaratok 0; MBelfoldiJaratok 2; MNemzetkoziJaratok 1;
       MFoglalasokSzama 6; MAktivFoglalasokSzama 6; MLemondottFoglalasokSzama 0] /\
  stdout (vilag (snd (rendszer_allapota s)))
    <> teszt_jelentes.
Proof.
  vm_compute. repeat split; (reflexivity || discriminate).
Qed.

(** ** C2 and C8: the checks of [jegy_foglalas] *)

Section JegyFoglalas.

Context {builtins : PyBuiltins}.

Lemma getitem_run {A} (l : list A) (k : Z) (a : A) (s : Allapot) :
  0 <= k -> l !! Z.to_nat k = Some a -> getitem l k s = (Val a, s).
Proof.
  intros Hk Ha. unfold getitem.
  assert (Z.to_nat k < length l)%nat by (eapply lookup_lt_Some; exact Ha).
  replace ((0 <=? k) && (k <? Z.of_nat (length l))) with true
    by (symmetry; apply andb_true_iff; split; lia).
  rewrite Ha. reflexivity.
Qed.

Lemma int_of_str_run (line : string) (n : Z) (s : Allapot) :
  py_int line = Some n -> int_of_str line s = (Val n, s).
Proof. intros E. unfold int_of_str. rewrite E. reflexivity. Qed.

(** C2, as amended.  A flight is selected from the numbered list of active
    flights (the list printed, the entry an integer within range); when its
    date is strictly before the clock value read at the re-check, the
    operation prints the already-departed line and returns, the system
    object being exactly as before: no booking, no identifier. *)
Theorem C2_datum_elmult (fuel : nat) (r : Rendszer) i o c cp v vp
    (line : string) (valasztas : Z) (jarat : Jarat.t)
    (Hfin : Forall (fun j => Float.is_finite (Jarat.jegyar j) = true)
                   (List.filter Jarat.is_aktiv (jaratok_of r)))
    (Hint : py_int line = Some valasztas)
    (Hge : 1 <= valasztas)
    (Hsel : List.filter Jarat.is_aktiv (jaratok_of r) !! Z.to_nat (valasztas - 1)
            = Some jarat)
    (Hlt : datetime_ltb (Jarat.datum jarat) (c cp) = true) :
  jegy_foglalas fuel (St r (line :: i) o c cp v vp)
    = (Val tt,
       St r i
          (o ++ MElerhetoJaratok
             :: jarat_sorok 1 (List.filter Jarat.is_aktiv (jaratok_of r))
             ++ [MJaratKivalasztva jarat (Float.trunc (Jarat.jegyar jarat));
                 MDatumElmult])
          c (S cp) v vp).
Proof.
  unfold jegy_foglalas. run_prim.
  destruct (jaratok_of r) as [| j0 js] eqn:Ej; [discriminate Hsel |].
  cbv zeta.
  destruct (List.filter Jarat.is_aktiv (j0 :: js)) as [| a0 aktiv] eqn:Ea;
    [discriminate Hsel |].
  assert (Hlen : (Z.to_nat (valasztas - 1) < length (a0 :: aktiv))%nat)
    by (eapply lookup_lt_Some; exact Hsel).
  assert (Hj : Float.is_finite (Jarat.jegyar jarat) = true).
  { eapply (Forall_lookup_1 _ _ _ _ Hfin). exact Hsel. }
  run_prim.
  run_by ltac:(apply print_jaratok_run; exact Hfin).
  erewrite try_except_val; [reflexivity |].
  run_prim.
  run_by ltac:(apply int_of_str_run; exact Hint).
  replace ((valasztas <? 1) || (valasztas >? Z.of_nat (length (a0 :: aktiv))))
    with false by (symmetry; apply orb_false_iff; split; lia).
  run_by ltac:(apply getitem_run; [lia | exact Hsel]).
  run_by ltac:(apply int_of_float_finite; exact Hj).
  do 2 run_prim.
  rewrite Hlt. rewrite print_run.
  repeat rewrite <- app_assoc. reflexivity.
Qed.

(** C8.  Whenever the line entered at the name prompt has, once trimmed,
    fewer than two characters, [jegy_foglalas] leaves the system object as it
    was (same bookings, same set of used identifiers) and draws no random
    number, so no identifier is generated: this holds from every state and
    for every first line, since the name is the second line the operation
    reads.  When the selection is valid and the re-check of the date passes,
    the operation prints the name-too-short line and returns. *)
Theorem C8_rovid_nev (fuel : nat) (r : Rendszer) i o c cp v vp
    (line nev : string)
    (Hrovid : (Str.len (py_strip nev) < 2)%nat) :
  (self (snd (jegy_foglalas fuel (St r (line :: nev :: i) o c cp v vp))) = r /\
   veletlen_poz (vilag (snd (jegy_foglalas fuel (St r (line :: nev :: i) o c cp v vp))))
     = vp) /\
  (forall (valasztas : Z) (jarat : Jarat.t),
     Forall (fun j => Float.is_finite (Jarat.jegyar j) = true)
            (List.filter Jarat.is_aktiv (jaratok_of r)) ->
     py_int line = Some valasztas ->
     1 <= valasztas ->
     List.filter Jarat.is_aktiv (jaratok_of r) !! Z.to_nat (valasztas - 1)
       = Some jarat ->
     datetime_ltb (Jarat.datum jarat) (c cp) = false ->
     jegy_foglalas fuel (St r (line :: nev :: i) o c cp v vp)
       = (Val tt,
          St r i
             (o ++ MElerhetoJaratok
                :: jarat_sorok 1 (List.filter Jarat.is_aktiv (jaratok_of r))
                ++ [MJaratKivalasztva jarat (Float.trunc (Jarat.jegyar jarat));
                    MDatumOK (Jarat.datum jarat);
                    MNevTulRovid])
             c (S cp) v vp)).
Proof.
  assert (Hb : (Str.len (py_strip nev) <? 2)%nat = true)
    by (apply Nat.ltb_lt; exact Hrovid).
  split.
  - unfold jegy_foglalas. run_prim.
    destruct (jaratok_of r) as [| j0 js] eqn:Ej; [split; reflexivity |].
    cbv zeta.
    destruct (List.filter Jarat.is_aktiv (j0 :: js)) as [| a0 aktiv] eqn:Ea;
      [split; reflexivity |].
    run_prim.
    destruct (print_jaratok_frame (a0 :: aktiv) 1%nat r (line :: nev :: i)
                (o ++ [MElerhetoJaratok]) c cp v vp) as (res & o' & E & Hres).
    destruct res as [[] | e |]; [| | congruence].
    2: { erewrite bind_exc by exact E. split; reflexivity. }
    run_by ltac:(exact E).
    unfold try_except, bind, input, int_of_str, getitem, int_of_float, of_option,
      datetime_now, print, raise, ret.
    cbn.
    assert (Hb' : (Str.len (py_strip nev) <=? 1)%nat = true)
      by (apply Nat.leb_le; lia).
    repeat first
      [ split; reflexivity
      | rewrite Hb'
      | match goal with
        | |- context [match ?x with _ => _ end] =>
            lazymatch x with
            | context [match _ with _ => _ end] => fail
            | _ => destruct x eqn:?; cbn
            end
        end ].
  - intros valasztas jarat Hfin Hint Hge Hsel Hlt.
    unfold jegy_foglalas. run_prim.
    destruct (jaratok_of r) as [| j0 js] eqn:Ej; [discriminate Hsel |].
    cbv zeta.
    destruct (List.filter Jarat.is_aktiv (j0 :: js)) as [| a0 aktiv] eqn:Ea;
      [discriminate Hsel |].
    assert (Hlen : (Z.to_nat (valasztas - 1) < length (a0 :: aktiv))%nat)
      by (eapply lookup_lt_Some; exact Hsel).
    assert (Hj : Float.is_finite (Jarat.jegyar jarat) = true).
    { eapply (Forall_lookup_1 _ _ _ _ Hfin). exact Hsel. }
    run_prim.
    run_by ltac:(apply print_jaratok_run; exact Hfin).
    erewrite try_except_val; [reflexivity |].
    run_prim.
    run_by ltac:(apply int_of_str_run; exact Hint).
    replace ((valasztas <? 1) || (valasztas >? Z.of_nat (length (a0 :: aktiv))))
      with false by (symmetry; apply orb_false_iff; split; lia).
    run_by ltac:(apply getitem_run; [lia | exact Hsel]).
    run_by ltac:(apply int_of_float_finite; exact Hj).
    do 2 run_prim.
    rewrite Hlt. do 2 run_prim. rewrite Hb. rewrite print_run.
    repeat rewrite <- app_assoc. reflexivity.
Qed.

End JegyFoglalas.

(** *** Worked instances for C2 and C8 *)

(** WIZ102, dated 2025-06-10, was constructed in January and is active; at
    the re-check on 2025-07-01 the booking is refused. *)
Lemma C2_datum_elmult_witness :
  jegy_foglalas (builtins := Parse.builtins) 0
      (St pelda_rendszer ["1"; "Nagy Anna"] [] ora_julius 0 (fun n => n) 0)
    = (Val tt,
       St pelda_rendszer ["Nagy Anna"]
          [MElerhetoJaratok;
           MJaratSor 1 (pelda_jarat "WIZ102") 16000;
           MJaratKivalasztva (pelda_jarat "WIZ102") 16000;
           MDatumElmult]
          ora_julius 1 (fun n => n) 0).
Proof.
  apply (C2_datum_elmult (builtins := Parse.builtins) 0 pelda_rendszer
           ["Nagy Anna"] [] ora_julius 0%nat (fun n => n) 0%nat
           "1" 1 (pelda_jarat "WIZ102")).
  - repeat constructor.
  - reflexivity.
  - lia.
  - reflexivity.
  - reflexivity.
Defined.

(** A flight whose date equals the clock at the re-check is not refused: the
    date of WIZ102 is not strictly after that clock value, yet no
    already-departed line is printed and a seventh booking is created. *)
Lemma C2_counterexample :
  let s0 := snd (_init_test_adatok
                   (St Rendszer_init ["1"; "Nagy Anna"] [] ora_C2 0 (fun n => n) 0)) in
  let s1 := snd (jegy_foglalas (builtins := Parse.builtins) 0 s0) in
  option_map Jarat.datum
     (List.filter Jarat.is_aktiv (jaratok_of (self s0)) !! 0%nat)
    = Some (datetime_ymd 2025 6 10) /\
  ora_C2 (ora_poz (vilag s0)) = datetime_ymd 2025 6 10 /\
  datetime_gtb (datetime_ymd 2025 6 10) (ora_C2 (ora_poz (vilag s0))) = false /\
  existsb is_MDatumElmult (stdout (vilag s1)) = false /\
  length (foglalasok (self s0)) = 6%nat /\
  length (foglalasok (self s1)) = 7%nat /\
  option_map JegyFoglalas.utas_nev (last (foglalasok (self s1))) = Some "Nagy Anna" /\
  option_map JegyFoglalas.jaratszam (last (foglalasok (self s1))) = Some "WIZ102".
Proof.
  vm_compute. repeat split; reflexivity.
Qed.

(** The name " A " is one character long once trimmed: nothing is booked. *)
Lemma C8_rovid_nev_witness :
  jegy_foglalas (builtins := Parse.builtins) 0
      (St pelda_rendszer ["1"; " A "] [] (fun _ => pelda_most) 0 (fun n => n) 0)
    = (Val tt,
       St pelda_rendszer []
          [MElerhetoJaratok;
           MJaratSor 1 (pelda_jarat "WIZ102") 16000;
           MJaratKivalasztva (pelda_jarat "WIZ102") 16000;
           MDatumOK (datetime_ymd 2025 6 10);
           MNevTulRovid]
          (fun _ => pelda_most) 1 (fun n => n) 0).
Proof.
  assert (H : (Str.len (Str.ascii_strip " A ") < 2)%nat) by (vm_compute; lia).
  apply (proj2 (C8_rovid_nev (builtins := Parse.builtins) 0 pelda_rendszer
                  [] [] (fun _ => pelda_most) 0%nat (fun n => n) 0%nat
                  "1" " A " H)
               1 (pelda_jarat "WIZ102")).
  - repeat constructor.
  - reflexivity.
  - lia.
  - reflexivity.
  - reflexivity.
Defined.

(** ** C7: cancelling a booking *)

Section Lemondas.

Context {builtins : PyBuiltins}.

Lemma lemondas_kereses_skip (fid : string) (elotte l : list JegyFoglalas.t) :
  Forall (fun g => illik fid g = false) elotte ->
  forall n s,
    lemondas_kereses fid n (elotte ++ l) s
      = lemondas_kereses fid (length elotte + n) l s.
Proof.
  induction 1 as [| g elotte Hg _ IH]; intros n s; [reflexivity |].
  cbn [app lemondas_kereses length]. unfold illik in Hg. rewrite Hg.
  rewrite IH. f_equal. lia.
Qed.

Lemma lemondas_kereses_nincs (fid : string) (l : list JegyFoglalas.t) :
  Forall (fun g => illik fid g = false) l ->
  forall n s, lemondas_kereses fid n l s = print MNemTalalhato s.
Proof.
  intros H n s. rewrite <- (app_nil_r l).
  rewrite lemondas_kereses_skip by exact H. reflexivity.
Qed.

Lemma foglalas_set_statusz_run (n : nat) (st : FoglalasStatusz) lt fs X i o c cp v vp :
  foglalas_set_statusz n st (St (mkRendszer lt fs X) i o c cp v vp)
    = (Val tt,
       St (mkRendszer lt (alter (JegyFoglalas.set_statusz st) n fs) X) i o c cp v vp).
Proof. reflexivity. Qed.

(** C7, as amended.  The identifier entered matches the active booking [f]
    (the first such booking of the list) whose price prints.  If the answer to the
    confirmation, trimmed and lowercased, is not "i", the operation prints
    the details and the aborted line and returns with the system object
    exactly as before: the booking stays active and no refund line is
    printed.  If it is "i", the status of [f] becomes [Lemondva], nothing
    else changes, and the refund is the binary64 product of the booking's
    price and 0.7; the refund line shows it the way the program prints
    every amount, as its integer part.  When the price is a positive normal
    binary64 number, [m * 2^e] with [2^52 <= m < 2^53] and
    [-1073 <= e <= 969], that product is finite, not above 0.7 times the
    price by more than [2^-53] of it and not below by more than [2^-51] of
    it, and the number printed is at most the product and less than 1
    below it. *)
Theorem C7_megerosites (r : Rendszer) i o c cp v vp
    (sor megerosites : string)
    (elotte utana : list JegyFoglalas.t) (f : JegyFoglalas.t)
    (Hf : foglalasok r = elotte ++ f :: utana)
    (Helotte : Forall (fun g => illik (py_upper (py_strip sor)) g = false) elotte)
    (Hid : JegyFoglalas.foglalas_id f = py_upper (py_strip sor))
    (Haktiv : JegyFoglalas.statusz f = Aktiv)
    (Har : Float.is_finite (JegyFoglalas.ar f) = true) :
  (py_lower (py_strip megerosites) <> "i" ->
     foglalas_lemondasa (St r (sor :: megerosites :: i) o c cp v vp)
       = (Val tt,
          St r i
             (o ++ [MFoglalasReszletei;
                    MFoglalas f (Float.trunc (JegyFoglalas.ar f));
                    MLemondasMegszakitva])
             c cp v vp)) /\
  (py_lower (py_strip megerosites) = "i" ->
   forall visszaterites,
     visszaterites = Float.mul (JegyFoglalas.ar f) Float.c0_7 ->
     Float.is_finite visszaterites = true ->
     foglalas_lemondasa (St r (sor :: megerosites :: i) o c cp v vp)
       = (Val tt,
          St (mkRendszer (legitarsasag r)
                (elotte ++ JegyFoglalas.set_statusz Lemondva f :: utana)
                (existing_foglalas_ids r))
             i
             (o ++ [MFoglalasReszletei;
                    MFoglalas f (Float.trunc (JegyFoglalas.ar f));
                    MSikeresenLemondva;
                    MVisszaterites (Float.trunc visszaterites)])
             c cp v vp)) /\
  (forall m e,
     JegyFoglalas.ar f = S754_finite false m e ->
     Zpos (digits2_pos m) = 53 -> -1073 <= e <= 969 ->
     let visszaterites := Float.mul (JegyFoglalas.ar f) Float.c0_7 in
     Float.is_finite visszaterites = true /\
     ((7 # 10) * Float.value (JegyFoglalas.ar f) * (1 - (1 # 2 ^ 51))
        <= Float.value visszaterites)%Q /\
     (Float.value visszaterites
        <= (7 # 10) * Float.value (JegyFoglalas.ar f) * (1 + (1 # 2 ^ 53)))%Q /\
     (inject_Z (Float.trunc visszaterites) <= Float.value visszaterites)%Q /\
     (Float.value visszaterites < inject_Z (Float.trunc visszaterites) + 1)%Q).
Proof.
  assert (Hszam : forall m e,
            JegyFoglalas.ar f = S754_finite false m e ->
            Zpos (digits2_pos m) = 53 -> -1073 <= e <= 969 ->
            let visszaterites := Float.mul (JegyFoglalas.ar f) Float.c0_7 in
            Float.is_finite visszaterites = true /\
            ((7 # 10) * Float.value (JegyFoglalas.ar f) * (1 - (1 # 2 ^ 51))
               <= Float.value visszaterites)%Q /\
            (Float.value visszaterites
               <= (7 # 10) * Float.value (JegyFoglalas.ar f) * (1 + (1 # 2 ^ 53)))%Q /\
            (inject_Z (Float.trunc visszaterites) <= Float.value visszaterites)%Q /\
            (Float.value visszaterites < inject_Z (Float.trunc visszaterites) + 1)%Q).
  { intros m e E Hm He. rewrite E. apply FloatFacts.refund_bounds; assumption. }
  cut ((py_lower (py_strip megerosites) <> "i" ->
        foglalas_lemondasa (St r (sor :: megerosites :: i) o c cp v vp)
          = (Val tt,
             St r i
                (o ++ [MFoglalasReszletei;
                       MFoglalas f (Float.trunc (JegyFoglalas.ar f));
                       MLemondasMegszakitva])
                c cp v vp)) /\
       (py_lower (py_strip megerosites) = "i" ->
        forall visszaterites,
          visszaterites = Float.mul (JegyFoglalas.ar f) Float.c0_7 ->
          Float.is_finite visszaterites = true ->
          foglalas_lemondasa (St r (sor :: megerosites :: i) o c cp v vp)
            = (Val tt,
               St (mkRendszer (legitarsasag r)
                     (elotte ++ JegyFoglalas.set_statusz Lemondva f :: utana)
                     (existing_foglalas_ids r))
                  i
                  (o ++ [MFoglalasReszletei;
                         MFoglalas f (Float.trunc (JegyFoglalas.ar f));
                         MSikeresenLemondva;
                         MVisszaterites (Float.trunc visszaterites)])
                  c cp v vp))).
  { intros [Ha Hb]. split; [exact Ha |]. split; [exact Hb | exact Hszam]. }
  clear Hszam.
  destruct r as [lt fs X]. cbn [foglalasok legitarsasag existing_foglalas_ids] in *.
  subst fs.
  assert (Hstart : forall s,
    foglalas_lemondasa
        (St (mkRendszer lt (elotte ++ f :: utana) X) (sor :: megerosites :: i)
            o c cp v vp) = s <->
    (do _ <- print MFoglalasReszletei;
     do ar <- int_of_float (JegyFoglalas.ar f);
     do _ <- print (MFoglalas f ar);
     do line <- input;
     if String.eqb (py_lower (py_strip line)) "i"
     then
       do _ <- foglalas_set_statusz (length elotte + 0) Lemondva;
       do _ <- print MSikeresenLemondva;
       do osszeg <- int_of_float (Float.mul (JegyFoglalas.ar f) Float.c0_7);
       print (MVisszaterites osszeg)
     else print MLemondasMegszakitva)
      (St (mkRendszer lt (elotte ++ f :: utana) X) (megerosites :: i) o c cp v vp)
    = s).
  { intros s. unfold foglalas_lemondasa. run_prim. cbn [foglalasok].
    destruct (elotte ++ f :: utana) as [| x xs] eqn:E;
      [destruct elotte; discriminate |].
    rewrite <- E. run_prim.
    rewrite lemondas_kereses_skip by exact Helotte.
    cbn [lemondas_kereses]. rewrite Hid, String.eqb_refl.
    unfold JegyFoglalas.is_aktiv. rewrite Haktiv. cbn [FoglalasStatusz_eqb andb].
    reflexivity. }
  split.
  - intros Hn. apply Hstart.
    run_prim.
    run_by ltac:(apply int_of_float_finite; exact Har).
    do 2 run_prim.
    apply String.eqb_neq in Hn. rewrite Hn. rewrite print_run.
    repeat rewrite <- app_assoc. reflexivity.
  - intros Hi visszaterites -> Hv. apply Hstart.
    run_prim.
    run_by ltac:(apply int_of_float_finite; exact Har).
    do 2 run_prim.
    rewrite Hi. cbn [String.eqb Ascii.eqb Bool.eqb andb].
    run_by ltac:(apply foglalas_set_statusz_run).
    run_prim.
    run_by ltac:(apply int_of_float_finite; exact Hv).
    rewrite print_run. rewrite alter_app_r. cbn [alter list_alter].
    repeat rewrite <- app_assoc. reflexivity.
Qed.

End Lemondas.

(** *** A worked instance for C7 *)

(** Booking AB123 costs 16000.  Answering "n" leaves it active; answering
    "I" cancels it with a refund of 11200. *)
Lemma C7_megerosites_witness :
  foglalas_lemondasa (builtins := Parse.builtins)
      (St pelda_rendszer_foglalassal [" ab123"; "n"] [] ora_julius 0 (fun n => n) 0)
    = (Val tt,
       St pelda_rendszer_foglalassal []
          [MFoglalasReszletei; MFoglalas pelda_foglalas 16000; MLemondasMegszakitva]
          ora_julius 0 (fun n => n) 0) /\
  foglalas_lemondasa (builtins := Parse.builtins)
      (St pelda_rendszer_foglalassal [" ab123"; " I "] [] ora_julius 0 (fun n => n) 0)
    = (Val tt,
       St (mkRendszer (Some pelda_legitarsasag)
             [JegyFoglalas.set_statusz Lemondva pelda_foglalas] {[ "AB123" ]})
          []
          [MFoglalasReszletei; MFoglalas pelda_foglalas 16000;
           MSikeresenLemondva; MVisszaterites 11200]
          ora_julius 0 (fun n => n) 0).
Proof.
  split.
  - apply (proj1 (C7_megerosites (builtins := Parse.builtins)
                    pelda_rendszer_foglalassal [] [] ora_julius
                    0%nat (fun n => n) 0%nat " ab123" "n" [] [] pelda_foglalas
                    eq_refl (List.Forall_nil _) eq_refl eq_refl eq_refl)).
    vm_compute. discriminate.
  - apply (proj1 (proj2 (C7_megerosites (builtins := Parse.builtins)
                    pelda_rendszer_foglalassal [] [] ora_julius
                    0%nat (fun n => n) 0%nat " ab123" " I " [] [] pelda_foglalas
                    eq_refl (List.Forall_nil _) eq_refl eq_refl eq_refl))
                 eq_refl
                 (Float.mul (JegyFoglalas.ar pelda_foglalas) Float.c0_7)
                 eq_refl eq_refl).
Defined.

(** C7 at the failing input.  The booking CD456 has the price 1300, of which
    0.7 times is 910.  After the confirmation the booking is cancelled and
    the refund reported is 909: the binary64 product of 1300 and the number
    nearest to 0.7 lies just below 910, and the program prints its integer
    part. *)
Lemma C7_counterexample :
  let s1 := snd (foglalas_lemondasa (builtins := Parse.builtins)
                   (St pelda_rendszer_1300 ["CD456"; "i"] []
                       ora_julius 0 (fun n => n) 0)) in
  List.map (fun f => Qred (Float.value (JegyFoglalas.ar f)))
           (foglalasok pelda_rendszer_1300) = [1300 # 1]%Q /\
  ((7 # 10) * (1300 # 1) == 910 # 1)%Q /\
  List.map JegyFoglalas.statusz (foglalasok (self s1)) = [Lemondva] /\
  visszateritesek (stdout (vilag s1)) = [909] /\
  909 <> 910.
Proof.
  vm_compute. repeat split; try reflexivity. intros H. discriminate H.
Qed.

(** ** C1 and C6: identifiers of the seed bookings *)

(** C1 at the failing input.  [_init_test_adatok] creates its six bookings
    without looking at the identifiers already given: with a generator that
    repeats its first five draws, the first two bookings are both AB234, the
    identifiers of the bookings are not pairwise distinct, and the set of
    used identifiers has five elements for six bookings. *)
Theorem C1_teszt_adatok_utkozes :
  let s := snd (_init_test_adatok
                  (St Rendszer_init [] [] ora_2024 0 veletlen_utkozo 0)) in
  List.map JegyFoglalas.foglalas_id (foglalasok (self s))
    = ["AB234"; "AB234"; "KL234"; "PQ789"; "UV234"; "ZA789"] /\
  ~ NoDup (List.map JegyFoglalas.foglalas_id (foglalasok (self s))) /\
  size (existing_foglalas_ids (self s)) = 5%nat.
Proof.
  vm_compute. split; [reflexivity |]. split; [| reflexivity].
  intros H. apply NoDup_cons in H. destruct H as [H _]. apply H.
  apply list_elem_of_here.
Qed.

(** C6 at the failing input.  After that seeding, AB234 is cancelled and
    confirmed twice.  The first attempt cancels the first booking; the second
    attempt does not print the not-found line: it finds the second booking,
    which has the same identifier and is still active, cancels it and prints
    a second refund. *)
Theorem C6_masodik_lemondas :
  let s0 := snd (_init_test_adatok
                   (St Rendszer_init ["AB234"; "i"; "AB234"; "i"] []
                       ora_2024 0 veletlen_utkozo 0)) in
  let s1 := snd (foglalas_lemondasa (builtins := Parse.builtins) s0) in
  let s2 := snd (foglalas_lemondasa (builtins := Parse.builtins) s1) in
  List.map JegyFoglalas.statusz (foglalasok (self s1))
    = [Lemondva; Aktiv; Aktiv; Aktiv; Aktiv; Aktiv] /\
  List.map JegyFoglalas.statusz (foglalasok (self s2))
    = [Lemondva; Lemondva; Aktiv; Aktiv; Aktiv; Aktiv] /\
  self s2 <> self s1 /\
  existsb is_MNemTalalhato (stdout (vilag s2)) = false /\
  visszateritesek (stdout (vilag s1)) = [11200] /\
  visszateritesek (stdout (vilag s2)) = [11200; 11200].
Proof.
  vm_compute. repeat split; try reflexivity. intros H. discriminate H.
Qed.

(** ** C10: flight numbers are stored in upper case *)

Module CaseFacts.

Lemma upper_char_idem (c : ascii) : Str.ascii_upper_char (Str.ascii_upper_char c) = Str.ascii_upper_char c.
Proof. destruct c as [[] [] [] [] [] [] [] []]; vm_compute; reflexivity. Qed.

Lemma isspace_upper_char (c : ascii) : Str.is_ascii_space (Str.ascii_upper_char c) = Str.is_ascii_space c.
Proof. destruct c as [[] [] [] [] [] [] [] []]; vm_compute; reflexivity. Qed.

Lemma map_rev_app (f : ascii -> ascii) (s : string) :
  forall t, Str.map f (String.rev_app s t) = String.rev_app (Str.map f s) (Str.map f t).
Proof.
  induction s as [| c s IH]; intros t; cbn; [reflexivity |].
  rewrite IH. reflexivity.
Qed.

Lemma map_rev (f : ascii -> ascii) (s : string) :
  Str.map f (String.rev s) = String.rev (Str.map f s).
Proof. unfold String.rev. rewrite map_rev_app. reflexivity. Qed.

Lemma upper_lstrip (s : string) : Str.ascii_upper (Str.ascii_lstrip s) = Str.ascii_lstrip (Str.ascii_upper s).
Proof.
  unfold Str.ascii_upper. induction s as [| c s IH]; cbn; [reflexivity |].
  rewrite isspace_upper_char. destruct (Str.is_ascii_space c); [exact IH | reflexivity].
Qed.

Lemma upper_strip (s : string) : Str.ascii_upper (Str.ascii_strip s) = Str.ascii_strip (Str.ascii_upper s).
Proof.
  unfold Str.ascii_strip, Str.ascii_rstrip.
  change (Str.ascii_upper (String.rev (Str.ascii_lstrip (String.rev (Str.ascii_lstrip s)))))
    with (Str.map Str.ascii_upper_char (String.rev (Str.ascii_lstrip (String.rev (Str.ascii_lstrip s))))).
  rewrite map_rev.
  change (Str.map Str.ascii_upper_char (Str.ascii_lstrip (String.rev (Str.ascii_lstrip s))))
    with (Str.ascii_upper (Str.ascii_lstrip (String.rev (Str.ascii_lstrip s)))).
  rewrite upper_lstrip.
  change (Str.ascii_upper (String.rev (Str.ascii_lstrip s)))
    with (Str.map Str.ascii_upper_char (String.rev (Str.ascii_lstrip s))).
  rewrite map_rev.
  change (Str.map Str.ascii_upper_char (Str.ascii_lstrip s)) with (Str.ascii_upper (Str.ascii_lstrip s)).
  rewrite upper_lstrip. reflexivity.
Qed.

Lemma same_modulo_case_upper (s : string) :
  forall t, Str.same_modulo_ascii_case s t = true -> Str.ascii_upper s = Str.ascii_upper t.
Proof.
  unfold Str.ascii_upper.
  induction s as [| c s IH]; intros [| d t] H; cbn in H; try discriminate;
    [reflexivity |].
  apply andb_true_iff in H. destruct H as [Hc Hr]. cbn. f_equal; [| apply IH; exact Hr].
  apply orb_true_iff in Hc. destruct Hc as [Hc | Hc];
    [apply orb_true_iff in Hc; destruct Hc as [Hc | Hc] |];
    apply Ascii.eqb_eq in Hc; subst;
    rewrite ?upper_char_idem; reflexivity.
Qed.

Lemma is_ascii_lstrip (s : string) :
  Str.is_ascii s = true -> Str.is_ascii (Str.ascii_lstrip s) = true.
Proof.
  induction s as [| c s IH]; cbn; [reflexivity |]. intros H.
  destruct (Str.is_ascii_space c); [| exact H].
  apply andb_true_iff in H. apply IH, H.
Qed.

Lemma is_ascii_rev_app (s : string) :
  forall t, Str.is_ascii (String.rev_app s t) = Str.is_ascii s && Str.is_ascii t.
Proof.
  induction s as [| c s IH]; intros t; cbn [String.rev_app Str.is_ascii];
    [reflexivity |].
  rewrite IH. cbn [Str.is_ascii].
  destruct (Str.code c <? 128)%nat, (Str.is_ascii s), (Str.is_ascii t); reflexivity.
Qed.

Lemma is_ascii_rev (s : string) : Str.is_ascii (String.rev s) = Str.is_ascii s.
Proof. unfold String.rev. rewrite is_ascii_rev_app. cbn. apply andb_true_r. Qed.

Lemma is_ascii_strip (s : string) :
  Str.is_ascii s = true -> Str.is_ascii (Str.ascii_strip s) = true.
Proof.
  intros H. unfold Str.ascii_strip, Str.ascii_rstrip.
  rewrite is_ascii_rev. apply is_ascii_lstrip. rewrite is_ascii_rev.
  apply is_ascii_lstrip. exact H.
Qed.

(** Two entries that differ only in the case of their letters are stored
    under the same number. *)
Lemma same_modulo_case_jaratszam (s t : string) :
  Str.same_modulo_ascii_case s t = true ->
  Str.ascii_upper (Str.ascii_strip s) = Str.ascii_upper (Str.ascii_strip t).
Proof.
  intros H. rewrite !upper_strip. f_equal. apply same_modulo_case_upper. exact H.
Qed.

End CaseFacts.

Lemma try_except_bind_val {A B} (m : M A) (k : A -> M B) (h : exn -> M B)
    (s s' : Allapot) (a : A) :
  m s = (Val a, s') -> try_except (bind m k) h s = try_except (k a) h s'.
Proof. intros E. unfold try_except, bind. rewrite E. reflexivity. Qed.

Ltac try_run_by tac := erewrite try_except_bind_val by tac; cbv beta iota zeta.

Section UjJarat.

Context {builtins : PyBuiltins}.

Lemma alapjegyar_bekerese_run (line : string) (ar : spec_float) r i o c cp v vp :
  py_float line = Some ar ->
  Float.leb ar (S754_zero false) = false ->
  alapjegyar_bekerese (St r (line :: i) o c cp v vp)
    = (Val (Some ar), St r i o c cp v vp).
Proof.
  intros E1 E2. unfold alapjegyar_bekerese.
  erewrite try_except_val; [reflexivity |].
  run_prim. unfold float_of_str. rewrite E1. cbn [of_option].
  run_by ltac:(reflexivity). rewrite E2. reflexivity.
Qed.

Lemma datum_ertelmezese_run (datum_str : string) (datum : datetime) (s : Allapot) :
  strptime_ymd datum_str = Some datum ->
  datum_ertelmezese datum_str s = (Val (Some datum), s).
Proof.
  intros E. unfold datum_ertelmezese, strptime, try_except, bind. rewrite E.
  reflexivity.
Qed.

Lemma jarat_letrehozasa_run (tipus jaratszam indulo cel : string) (ar : spec_float)
    (lt : string) (datum : datetime) r i o c cp v vp :
  tipus = "1" \/ tipus = "2" ->
  jarat_letrehozasa tipus jaratszam indulo cel ar lt datum (St r i o c cp v vp)
    = (Val (Some (uj_jarat_peldany tipus jaratszam indulo cel ar lt datum (c cp))),
       St r i o c (S cp) v vp).
Proof. intros [-> | ->]; reflexivity. Qed.

(** A valid form brings [uj_jarat_hozzaadasa] to the insertion of the new
    flight, with seven lines read and the clock read once. *)
Lemma uj_jarat_urlap_run (r : Rendszer) (l : Legitarsasag.t)
    (n ind cel ars lts ds ts : string) (ar : spec_float) (datum : datetime)
    i o c cp v vp :
  legitarsasag r = Some l ->
  urlap_ervenyes ars ds ts ar datum ->
  uj_jarat_hozzaadasa (St r (n :: ind :: cel :: ars :: lts :: ds :: ts :: i) o c cp v vp)
    = try_except
        (let uj_jarat :=
           uj_jarat_peldany (py_strip ts) (py_upper (py_strip n)) (py_strip ind)
                            (py_strip cel) ar (py_strip lts) datum (c cp) in
         do _ <- self_jarat_hozzaadasa uj_jarat;
         do ar_egesz <- int_of_float (Jarat.jegyar uj_jarat);
         print (MJaratHozzaadva uj_jarat ar_egesz))
        uj_jarat_kivetel
        (St r i (o ++ [MUjJaratHozzaadasa]) c (S cp) v vp).
Proof.
  intros Hl (Ear & Hpos & Edatum & Htipus).
  unfold uj_jarat_hozzaadasa. run_prim. rewrite Hl. run_prim.
  do 3 try_run_by ltac:(apply input_run). cbv zeta.
  try_run_by ltac:(apply alapjegyar_bekerese_run; eassumption).
  do 2 try_run_by ltac:(apply input_run). cbv zeta.
  try_run_by ltac:(apply datum_ertelmezese_run; eassumption).
  try_run_by ltac:(apply input_run). cbv zeta.
  try_run_by ltac:(apply jarat_letrehozasa_run; exact Htipus).
  reflexivity.
Qed.

Lemma uj_jarat_peldany_jaratszam tipus jaratszam indulo cel ar lt datum now :
  Jarat.jaratszam (uj_jarat_peldany tipus jaratszam indulo cel ar lt datum now)
    = jaratszam.
Proof. unfold uj_jarat_peldany. destruct (String.eqb tipus "1"); reflexivity. Qed.

Lemma existsb_jaratszam (l : list Jarat.t) (jaratszam : string) :
  existsb (fun j => String.eqb (Jarat.jaratszam j) jaratszam) l = true <->
  jaratszam ∈ List.map Jarat.jaratszam l.
Proof.
  rewrite existsb_exists, list_elem_of_In, in_map_iff.
  split; intros (j & H1 & H2); exists j.
  - apply String.eqb_eq in H2. tauto.
  - split; [tauto | apply String.eqb_eq; tauto].
Qed.

(** The form of a flight whose number is taken: the duplicate is reported
    and nothing changes. *)
Lemma uj_jarat_duplikalt_run (r : Rendszer) (l : Legitarsasag.t)
    (n ind cel ars lts ds ts : string) (ar : spec_float) (datum : datetime)
    i o c cp v vp :
  legitarsasag r = Some l ->
  urlap_ervenyes ars ds ts ar datum ->
  py_upper (py_strip n) ∈ List.map Jarat.jaratszam (Legitarsasag.jaratok l) ->
  uj_jarat_hozzaadasa (St r (n :: ind :: cel :: ars :: lts :: ds :: ts :: i) o c cp v vp)
    = (Val tt,
       St r i
          (o ++ [MUjJaratHozzaadasa;
                 MHiba (ValueError (JaratszamMarLetezik (py_upper (py_strip n))))])
          c (S cp) v vp).
Proof.
  intros Hl Hform Hdup. erewrite uj_jarat_urlap_run by eassumption. cbv zeta.
  erewrite try_except_exc.
  2: { apply bind_exc. unfold self_jarat_hozzaadasa. run_prim. rewrite Hl.
       apply bind_exc. unfold Legitarsasag.jarat_hozzaadasa.
       rewrite uj_jarat_peldany_jaratszam.
       rewrite (proj2 (existsb_jaratszam _ _) Hdup). reflexivity. }
  cbn [uj_jarat_kivetel]. rewrite print_run.
  repeat rewrite <- app_assoc. reflexivity.
Qed.

(** After a valid form the number entered, trimmed and in upper case, is a
    number of the flight list, whether the flight was added or refused. *)
Lemma uj_jarat_utan (r : Rendszer) (l : Legitarsasag.t)
    (n ind cel ars lts ds ts : string) (ar : spec_float) (datum : datetime)
    i o c cp v vp :
  legitarsasag r = Some l ->
  urlap_ervenyes ars ds ts ar datum ->
  exists l' o',
    uj_jarat_hozzaadasa
        (St r (n :: ind :: cel :: ars :: lts :: ds :: ts :: i) o c cp v vp)
      = (Val tt,
         St (mkRendszer (Some l') (foglalasok r) (existing_foglalas_ids r))
            i o' c (S cp) v vp) /\
    py_upper (py_strip n) ∈ List.map Jarat.jaratszam (Legitarsasag.jaratok l').
Proof.
  intros Hl Hform.
  destruct (existsb (fun j => String.eqb (Jarat.jaratszam j) (py_upper (py_strip n)))
                    (Legitarsasag.jaratok l)) eqn:Ex.
  - apply existsb_jaratszam in Ex. exists l. eexists. split; [| exact Ex].
    erewrite uj_jarat_duplikalt_run by eassumption.
    destruct r as [lt fs X]. cbn in Hl. subst lt. reflexivity.
  - erewrite uj_jarat_urlap_run by eassumption. cbv zeta.
    destruct r as [lt fs X]. cbn in Hl. subst lt.
    set (uj := uj_jarat_peldany _ _ _ _ _ _ _ _).
    assert (Hadd : self_jarat_hozzaadasa uj
                     (St (mkRendszer (Some l) fs X) i (o ++ [MUjJaratHozzaadasa])
                         c (S cp) v vp)
                   = (Val tt,
                      St (mkRendszer
                            (Some (Legitarsasag.mk (Legitarsasag.nev l)
                                     (Legitarsasag.jaratok l ++ [uj]))) fs X)
                         i (o ++ [MUjJaratHozzaadasa]) c (S cp) v vp)).
    { apply self_jarat_hozzaadasa_run. unfold uj.
      rewrite uj_jarat_peldany_jaratszam. exact Ex. }
    eexists (Legitarsasag.mk (Legitarsasag.nev l) (Legitarsasag.jaratok l ++ [uj])).
    assert (Hin : py_upper (py_strip n)
                  ∈ List.map Jarat.jaratszam (Legitarsasag.jaratok l ++ [uj])).
    { rewrite List.map_app. apply elem_of_app. right. cbn. unfold uj.
      rewrite uj_jarat_peldany_jaratszam. apply list_elem_of_here. }
    destruct (Jarat.jegyar uj) as [sg | sg | | sg m e] eqn:Ear.
    + eexists. split; [| exact Hin].
      erewrite try_except_val; [reflexivity |].
      run_by ltac:(exact Hadd). run_by ltac:(reflexivity).
      apply print_run.
    + eexists. split; [| exact Hin].
      erewrite try_except_exc.
      2: { run_by ltac:(exact Hadd). apply bind_exc. reflexivity. }
      apply print_run.
    + eexists. split; [| exact Hin].
      erewrite try_except_exc.
      2: { run_by ltac:(exact Hadd). apply bind_exc. reflexivity. }
      apply print_run.
    + eexists. split; [| exact Hin].
      erewrite try_except_val; [reflexivity |].
      run_by ltac:(exact Hadd). run_by ltac:(reflexivity).
      apply print_run.
Qed.

End UjJarat.

Section NagybetusJaratszam.

Context {builtins : PyBuiltins}.

Lemma futtatas_jaratszamok (fuel : nat) i c v :
  Forall (fun j => Jarat.jaratszam j ∈ ["WIZ001"; "WIZ102"; "WIZ201"] \/
                   normalizalt (Jarat.jaratszam j))
    (jaratok_of
       (self (snd (futtatas fuel (mkAllapot Rendszer_init (Vilag_init i c v)))))).
Proof.
  unfold futtatas, Vilag_init. run_prim.
  run_by ltac:(apply init_test_adatok_run). run_prim.
  match goal with
  | |- context [menu_ciklus fuel ?s] =>
      destruct (keeps_menu_ciklus fuel s) as (uj & E & Huj)
  end.
  rewrite E. apply Forall_app. split.
  - cbn [self jaratok_of legitarsasag Legitarsasag.jaratok].
    unfold teszt_jaratok.
    repeat (apply List.Forall_cons; [left; cbn; set_solver |]).
    apply List.Forall_nil.
  - eapply Forall_impl; [exact Huj |]. intros j Hj. right. exact Hj.
Qed.

Lemma ascii_normalizalt (s : string) :
  ascii_szoveg -> Str.is_ascii s = true ->
  py_upper (py_strip s) = Str.ascii_upper (Str.ascii_strip s).
Proof.
  intros H Hs. rewrite (proj1 (H s Hs)).
  apply (H (Str.ascii_strip s)). apply CaseFacts.is_ascii_strip. exact Hs.
Qed.

(** C10, as amended.  Two forms are entered one after the other in the
    add-a-flight operation, each with a price, a date and a type that are
    accepted, and their flight numbers have the same form once trimmed and
    upper-cased.  After the first form that form is a number of the flight
    list; the second form is refused with the duplicate-number error,
    printed with that form, and changes nothing.  In every run of the
    program each stored flight number is a seed number or the upper-cased
    form of a trimmed line, and the menu loop only appends flights with
    such numbers.  When the text methods act on ASCII text as Python's do,
    two ASCII entries that differ only in the case of letters have the same
    form, and the form of an ASCII entry has no lowercase letter. *)
Theorem C10_jaratszam_nagybetus (r : Rendszer) (l : Legitarsasag.t)
    (n1 ind1 cel1 ars1 lts1 ds1 ts1 : string) (ar1 : spec_float) (d1 : datetime)
    (n2 ind2 cel2 ars2 lts2 ds2 ts2 : string) (ar2 : spec_float) (d2 : datetime)
    i o c cp v vp
    (Hl : legitarsasag r = Some l)
    (H1 : urlap_ervenyes ars1 ds1 ts1 ar1 d1)
    (H2 : urlap_ervenyes ars2 ds2 ts2 ar2 d2)
    (Hcase : py_upper (py_strip n1) = py_upper (py_strip n2)) :
  (exists r1 o1,
     uj_jarat_hozzaadasa
         (St r (n1 :: ind1 :: cel1 :: ars1 :: lts1 :: ds1 :: ts1 ::
                n2 :: ind2 :: cel2 :: ars2 :: lts2 :: ds2 :: ts2 :: i)
             o c cp v vp)
       = (Val tt,
          St r1 (n2 :: ind2 :: cel2 :: ars2 :: lts2 :: ds2 :: ts2 :: i)
             o1 c (S cp) v vp) /\
     (py_upper (py_strip n1) ∈ List.map Jarat.jaratszam (jaratok_of r1)) /\
     uj_jarat_hozzaadasa
         (St r1 (n2 :: ind2 :: cel2 :: ars2 :: lts2 :: ds2 :: ts2 :: i)
             o1 c (S cp) v vp)
       = (Val tt,
          St r1 i
             (o1 ++ [MUjJaratHozzaadasa;
                     MHiba (ValueError
                              (JaratszamMarLetezik (py_upper (py_strip n2))))])
             c (S (S cp)) v vp)) /\
  (forall fuel i' c' v',
     Forall (fun j => Jarat.jaratszam j ∈ ["WIZ001"; "WIZ102"; "WIZ201"] \/
                      normalizalt (Jarat.jaratszam j))
       (jaratok_of
          (self (snd (futtatas fuel (mkAllapot Rendszer_init (Vilag_init i' c' v'))))))) /\
  (forall fuel s,
     exists uj,
       jaratok_of (self (snd (menu_ciklus fuel s))) = (jaratok_of (self s) ++ uj)%list /\
       Forall (fun j => normalizalt (Jarat.jaratszam j)) uj) /\
  (ascii_szoveg ->
   forall a b,
     Str.is_ascii a = true -> Str.is_ascii b = true ->
     (Str.same_modulo_ascii_case a b = true ->
      py_upper (py_strip a) = py_upper (py_strip b)) /\
     py_upper (py_strip a) = Str.ascii_upper (Str.ascii_strip a) /\
     Str.no_ascii_lower (py_upper (py_strip a)) = true).
Proof.
  split; [| split; [apply futtatas_jaratszamok | split; [apply keeps_menu_ciklus |]]].
  - destruct (uj_jarat_utan r l n1 ind1 cel1 ars1 lts1 ds1 ts1 ar1 d1
                (n2 :: ind2 :: cel2 :: ars2 :: lts2 :: ds2 :: ts2 :: i)
                o c cp v vp Hl H1) as (l' & o1 & E1 & Hin).
    eexists _, o1. split; [exact E1 |]. split; [exact Hin |].
    eapply uj_jarat_duplikalt_run; [reflexivity | exact H2 |].
    rewrite <- Hcase. exact Hin.
  - intros Hascii a b Ha Hb. split; [| split].
    + intros Hab. rewrite !ascii_normalizalt by assumption.
      apply CaseFacts.same_modulo_case_jaratszam. exact Hab.
    + apply ascii_normalizalt; assumption.
    + rewrite ascii_normalizalt by assumption. apply StrFacts.no_lower_upper.
Qed.

End NagybetusJaratszam.

(** Entering wiz300 and then Wiz300: the first is added, the second is
    refused as a duplicate of WIZ300.  The text methods of the example
    instance are the ASCII ones: the two entries, which differ only in the
    case of letters, have the same form, without lowercase letters. *)
Lemma C10_jaratszam_nagybetus_witness :
  ascii_szoveg (builtins := Parse.builtins) /\
  @py_upper Parse.builtins (@py_strip Parse.builtins "wiz300") = "WIZ300" /\
  @py_upper Parse.builtins (@py_strip Parse.builtins "Wiz300") = "WIZ300" /\
  exists r1 o1,
    uj_jarat_hozzaadasa (builtins := Parse.builtins)
        (St pelda_rendszer
            ["wiz300"; "Budapest"; "Wien"; "30000"; "Wizz Air"; "2025-08-01"; "2";
             "Wiz300"; "Budapest"; "Wien"; "31000"; "Wizz Air"; "2025-08-02"; "1"]
            [] (fun _ => pelda_most) 0 (fun n => n) 0)
      = (Val tt,
         St r1 ["Wiz300"; "Budapest"; "Wien"; "31000"; "Wizz Air"; "2025-08-02"; "1"]
            o1 (fun _ => pelda_most) 1 (fun n => n) 0) /\
    List.map Jarat.jaratszam (jaratok_of r1) = ["WIZ102"; "WIZ300"] /\
    uj_jarat_hozzaadasa (builtins := Parse.builtins)
        (St r1 ["Wiz300"; "Budapest"; "Wien"; "31000"; "Wizz Air"; "2025-08-02"; "1"]
            o1 (fun _ => pelda_most) 1 (fun n => n) 0)
      = (Val tt,
         St r1 []
            (o1 ++ [MUjJaratHozzaadasa;
                    MHiba (ValueError (JaratszamMarLetezik "WIZ300"))])
            (fun _ => pelda_most) 2 (fun n => n) 0).
Proof.
  assert (Hascii : ascii_szoveg (builtins := Parse.builtins))
    by (intros s _; split; reflexivity).
  split; [exact Hascii |].
  pose proof (proj2 (proj2 (proj2 (C10_jaratszam_nagybetus (builtins := Parse.builtins)
              pelda_rendszer pelda_legitarsasag
              "wiz300" "Budapest" "Wien" "30000" "Wizz Air" "2025-08-01" "2"
              (Float.of_Z 30000) (datetime_ymd 2025 8 1)
              "Wiz300" "Budapest" "Wien" "31000" "Wizz Air" "2025-08-02" "1"
              (Float.of_Z 31000) (datetime_ymd 2025 8 2)
              [] [] (fun _ => pelda_most) 0%nat (fun n => n) 0%nat
              eq_refl
              ltac:(repeat split; try reflexivity; right; reflexivity)
              ltac:(repeat split; try reflexivity; left; reflexivity)
              eq_refl)))
              Hascii "wiz300" "Wiz300" eq_refl eq_refl) as (Hsame & Hform & _).
  split; [rewrite Hform; reflexivity |].
  split; [rewrite <- (Hsame eq_refl), Hform; reflexivity |].
  assert (F1 : urlap_ervenyes (builtins := Parse.builtins)
                 "30000" "2025-08-01" "2" (Float.of_Z 30000) (datetime_ymd 2025 8 1)).
  { repeat split; try reflexivity. right. reflexivity. }
  assert (F2 : urlap_ervenyes (builtins := Parse.builtins)
                 "31000" "2025-08-02" "1" (Float.of_Z 31000) (datetime_ymd 2025 8 2)).
  { repeat split; try reflexivity. left. reflexivity. }
  destruct (proj1 (C10_jaratszam_nagybetus (builtins := Parse.builtins)
              pelda_rendszer pelda_legitarsasag
              "wiz300" "Budapest" "Wien" "30000" "Wizz Air" "2025-08-01" "2"
              (Float.of_Z 30000) (datetime_ymd 2025 8 1)
              "Wiz300" "Budapest" "Wien" "31000" "Wizz Air" "2025-08-02" "1"
              (Float.of_Z 31000) (datetime_ymd 2025 8 2)
              [] [] (fun _ => pelda_most) 0%nat (fun n => n) 0%nat
              eq_refl F1 F2 eq_refl))
    as (r1 & o1 & E1 & _ & E2).
  exists r1, o1. split; [exact E1 |]. split; [| exact E2].
  vm_compute in E1. inversion E1. reflexivity.
Defined.

(** C10 at the failing input.  The number entered is wizĸ; its last letter
    is the lowercase letter kra, which has no upper-case form, so [upper]
    leaves it in place (the ASCII text methods of the example instance do
    what Python's do on this line).  The flight is stored under WIZĸ: a
    stored flight number that contains a lowercase letter. *)
Lemma C10_counterexample :
  let s1 := snd (uj_jarat_hozzaadasa (builtins := Parse.builtins)
                   (St pelda_rendszer
                       ["wizĸ"; "Budapest"; "Wien"; "30000"; "Wizz Air";
                        "2025-08-01"; "2"]
                       [] (fun _ => pelda_most) 0 (fun n => n) 0)) in
  List.map Jarat.jaratszam (jaratok_of (self s1)) = ["WIZ102"; "WIZĸ"] /\
  "WIZĸ" = String.append "WIZ" Str.kra /\
  Str.contains_kra "WIZĸ" = true /\
  existsb (fun j => Str.contains_kra (Jarat.jaratszam j)) (jaratok_of (self s1)) = true.
Proof.
  vm_compute. repeat split; reflexivity.
Qed.

(** ** Relations every menu operation keeps

    For a reflexive and transitive relation on the system object that the
    state-changing steps keep (adding a flight, cancelling a booking) and
    that [jegy_foglalas] keeps, the whole menu loop keeps it. *)

Ltac keeps_step_with Htrans :=
  cbv beta zeta;
  first
    [ solve [eauto with keeps]
    | match goal with
      | |- keeps _ (match ?x with _ => _ end) => destruct x eqn:?
      | |- keeps _ (if ?x then _ else _) => destruct x eqn:?
      | |- keeps _ (bind _ _) => apply (keeps_bind _ Htrans); [| intros ?]
      | |- keeps _ (try_except _ _) => apply (keeps_try_except _ Htrans); [| intros ?]
      end ].

Section KeepsMenu.

Context {builtins : PyBuiltins}.

Variable R : Rendszer -> Rendszer -> Prop.
Hypothesis R_refl : forall r, R r r.
Hypothesis R_trans : forall r1 r2 r3, R r1 r2 -> R r2 r3 -> R r1 r3.
Hypothesis R_lemondas : forall n, keeps R (foglalas_set_statusz n Lemondva).
Hypothesis R_jarat : forall j, keeps R (self_jarat_hozzaadasa j).
Hypothesis R_jegy : forall fuel, keeps R (jegy_foglalas fuel).

Lemma keepsR_lemondas_kereses (fid : string) (l : list JegyFoglalas.t) :
  forall n, keeps R (lemondas_kereses fid n l).
Proof.
  induction l as [| f l IH]; intros n; cbn; repeat keeps_step_with R_trans.
Qed.

Lemma keepsR_foglalas_lemondasa : keeps R foglalas_lemondasa.
Proof.
  unfold foglalas_lemondasa. pose proof keepsR_lemondas_kereses.
  repeat keeps_step_with R_trans.
Qed.

Lemma keepsR_foglalasok_listazasa : keeps R foglalasok_listazasa.
Proof. unfold foglalasok_listazasa. repeat keeps_step_with R_trans. Qed.

Lemma keepsR_jaratok_listazasa : keeps R jaratok_listazasa.
Proof. unfold jaratok_listazasa. repeat keeps_step_with R_trans. Qed.

Lemma keepsR_rendszer_allapota : keeps R rendszer_allapota.
Proof. unfold rendszer_allapota. repeat keeps_step_with R_trans. Qed.

Lemma keepsR_uj_jarat_hozzaadasa : keeps R uj_jarat_hozzaadasa.
Proof.
  unfold uj_jarat_hozzaadasa, alapjegyar_bekerese, datum_ertelmezese,
    jarat_letrehozasa, float_of_str, strptime.
  repeat keeps_step_with R_trans.
Qed.

Lemma keepsR_muvelet (fuel : nat) (valasztas : string) (m : M unit) :
  muvelet fuel valasztas = Some m -> keeps R m.
Proof.
  unfold muvelet. intros E.
  repeat match type of E with
         | (if ?b then _ else _) = _ => destruct b
         end;
    inversion E; subst;
    auto using keepsR_foglalas_lemondasa, keepsR_foglalasok_listazasa,
      keepsR_uj_jarat_hozzaadasa, keepsR_jaratok_listazasa,
      keepsR_rendszer_allapota.
Qed.

Lemma keepsR_menu_ciklus (fuel : nat) : keeps R (menu_ciklus fuel).
Proof.
  induction fuel as [| fuel IH]; cbn; [auto with keeps |].
  unfold menu_kiirasa.
  repeat match goal with
         | |- keeps _ (match muvelet ?f ?v with _ => _ end) =>
             let E := fresh "E" in
             destruct (muvelet f v) eqn:E; [apply keepsR_muvelet in E |]
         | _ => keeps_step_with R_trans
         end.
Qed.

End KeepsMenu.

(** ** A cancelled booking stays cancelled *)

Lemma lemondva_marad_refl (r : Rendszer) : lemondva_marad r r.
Proof. intros n f H _. exact H. Qed.

Lemma lemondva_marad_trans (r1 r2 r3 : Rendszer) :
  lemondva_marad r1 r2 -> lemondva_marad r2 r3 -> lemondva_marad r1 r3.
Proof. intros H12 H23 n f H Hs. apply H23; [apply H12 |]; assumption. Qed.

Lemma set_statusz_lemondva_id (f : JegyFoglalas.t) :
  JegyFoglalas.statusz f = Lemondva -> JegyFoglalas.set_statusz Lemondva f = f.
Proof. destruct f; cbn; intros ->; reflexivity. Qed.

Section LemondvaMarad.

Context {builtins : PyBuiltins}.

Lemma lemondva_marad_lemondas (n : nat) :
  keeps lemondva_marad (foglalas_set_statusz n Lemondva).
Proof.
  intros s k f Hk Hs. cbn.
  destruct (decide (n = k)) as [-> | Hne].
  - rewrite list_lookup_alter_eq, Hk. cbn. f_equal.
    apply set_statusz_lemondva_id. exact Hs.
  - rewrite list_lookup_alter_ne by exact Hne. exact Hk.
Qed.

Lemma lemondva_marad_jarat (j : Jarat.t) :
  keeps lemondva_marad (self_jarat_hozzaadasa j).
Proof.
  intros s k f Hk Hs. unfold self_jarat_hozzaadasa, bind, get_self.
  destruct (legitarsasag (self s)); cbn; [| exact Hk].
  destruct (Legitarsasag.jarat_hozzaadasa _ _); cbn; exact Hk.
Qed.

Lemma lemondva_marad_append (f : JegyFoglalas.t) :
  keeps lemondva_marad (foglalasok_append f).
Proof. intros s k g Hk Hs. cbn. apply lookup_app_l_Some. exact Hk. Qed.

Lemma lemondva_marad_add (x : string) :
  keeps lemondva_marad (existing_foglalas_ids_add x).
Proof. intros s k g Hk Hs. exact Hk. Qed.

Lemma lemondva_marad_duplikacio (fuel : nat) (j : Jarat.t) (n : string) :
  forall f, keeps lemondva_marad (duplikacio_ellenorzes fuel j n f).
Proof.
  pose proof lemondva_marad_refl. pose proof lemondva_marad_trans.
  induction fuel as [| fuel IH]; intros f; cbn;
    repeat keeps_step_with lemondva_marad_trans.
Qed.

Lemma lemondva_marad_jegy (fuel : nat) : keeps lemondva_marad (jegy_foglalas fuel).
Proof.
  pose proof lemondva_marad_refl. pose proof lemondva_marad_trans.
  pose proof lemondva_marad_append. pose proof lemondva_marad_add. pose proof lemondva_marad_duplikacio.
  unfold jegy_foglalas, int_of_str.
  repeat keeps_step_with lemondva_marad_trans.
Qed.

(** Whatever the menu loop does, from any state and for any number of
    rounds, a booking that was cancelled is still in the list at its place,
    cancelled. *)
Lemma lemondott_nem_aktivalodik (fuel : nat) (s : Allapot) (n : nat)
    (f : JegyFoglalas.t) :
  foglalasok (self s) !! n = Some f ->
  JegyFoglalas.statusz f = Lemondva ->
  foglalasok (self (snd (menu_ciklus fuel s))) !! n = Some f.
Proof.
  apply (keepsR_menu_ciklus lemondva_marad lemondva_marad_refl
           lemondva_marad_trans lemondva_marad_lemondas lemondva_marad_jarat
           lemondva_marad_jegy fuel s).
Qed.

(** With an identifier that no other active booking carries, cancelling
    twice behaves as C6 says: the second attempt prints the not-found line
    and changes nothing. *)
Lemma masodik_lemondas_egyedi_azonositoval (lt : option Legitarsasag.t)
    (X : gset string) i o c cp v vp (sor : string)
    (elotte utana : list JegyFoglalas.t) (f : JegyFoglalas.t) :
  Forall (fun g => illik (py_upper (py_strip sor)) g = false) elotte ->
  Forall (fun g => illik (py_upper (py_strip sor)) g = false) utana ->
  let r' := mkRendszer lt (elotte ++ JegyFoglalas.set_statusz Lemondva f :: utana) X in
  foglalas_lemondasa (St r' (sor :: i) o c cp v vp)
    = (Val tt, St r' i (o ++ [MNemTalalhato]) c cp v vp).
Proof.
  intros He Hu r'. subst r'. unfold foglalas_lemondasa. run_prim.
  cbn [foglalasok].
  destruct (elotte ++ JegyFoglalas.set_statusz Lemondva f :: utana)
    as [| x xs] eqn:E; [destruct elotte; discriminate |].
  rewrite <- E. run_prim.
  rewrite lemondas_kereses_nincs; [apply print_run |].
  apply Forall_app. split; [exact He |]. constructor; [| exact Hu].
  unfold illik, JegyFoglalas.is_aktiv. cbn. apply andb_false_r.
Qed.

End LemondvaMarad.

(** ** Identifiers stay distinct once they are *)

Lemma ids_megorzi_refl (r : Rendszer) : ids_megorzi r r.
Proof. intros H. exact H. Qed.

Lemma ids_megorzi_trans (r1 r2 r3 : Rendszer) :
  ids_megorzi r1 r2 -> ids_megorzi r2 r3 -> ids_megorzi r1 r3.
Proof. intros H12 H23 H. apply H23, H12, H. Qed.

Lemma map_id_set_statusz (st : FoglalasStatusz) (l : list JegyFoglalas.t) :
  forall n,
    List.map JegyFoglalas.foglalas_id (alter (JegyFoglalas.set_statusz st) n l)
      = List.map JegyFoglalas.foglalas_id l.
Proof.
  induction l as [| f l IH]; intros [| n]; cbn; try reflexivity.
  rewrite IH. reflexivity.
Qed.

(** A booking with an unused identifier keeps the identifiers in order. *)
Lemma ids_rendben_uj (r : Rendszer) (f : JegyFoglalas.t) :
  ids_rendben r ->
  JegyFoglalas.foglalas_id f ∉ existing_foglalas_ids r ->
  ids_rendben
    (mkRendszer (legitarsasag r) (foglalasok r ++ [f])
                ({[ JegyFoglalas.foglalas_id f ]} ∪ existing_foglalas_ids r)).
Proof.
  intros [Hnd Hin] Hf. split; cbn; rewrite List.map_app; cbn.
  - apply NoDup_app. split; [exact Hnd |]. split.
    + intros x Hx Hx'. apply list_elem_of_singleton in Hx'. subst x.
      apply Hf, Hin, Hx.
    + apply NoDup_singleton.
  - intros x Hx. apply elem_of_app in Hx. apply elem_of_union.
    destruct Hx as [Hx | Hx].
    + right. apply Hin, Hx.
    + left. apply list_elem_of_singleton in Hx. apply elem_of_singleton. exact Hx.
Qed.

Section IdsRendben.

Context {builtins : PyBuiltins}.

Lemma ids_megorzi_lemondas (n : nat) :
  keeps ids_megorzi (foglalas_set_statusz n Lemondva).
Proof.
  intros s [Hnd Hin]. split; cbn; rewrite map_id_set_statusz; assumption.
Qed.

Lemma ids_megorzi_jarat (j : Jarat.t) : keeps ids_megorzi (self_jarat_hozzaadasa j).
Proof.
  intros s H. unfold self_jarat_hozzaadasa, bind, get_self.
  destruct (legitarsasag (self s)); cbn; [| exact H].
  destruct (Legitarsasag.jarat_hozzaadasa _ _); cbn; exact H.
Qed.

(** The identifier loop returns a booking whose identifier is unused, and
    leaves the system object alone. *)
Lemma duplikacio_ellenorzes_friss (fuel : nat) (j : Jarat.t) (n : string) :
  forall f r i o c cp v vp f' s',
    duplikacio_ellenorzes fuel j n f (St r i o c cp v vp) = (Val f', s') ->
    self s' = r /\ JegyFoglalas.foglalas_id f' ∉ existing_foglalas_ids r.
Proof.
  induction fuel as [| fuel IH]; intros f r i o c cp v vp f' s';
    cbn [duplikacio_ellenorzes]; run_prim;
    destruct (bool_decide _) eqn:Eb.
  - discriminate.
  - intros E. inversion E; subst. split; [reflexivity |].
    apply bool_decide_eq_false in Eb. exact Eb.
  - run_prim. apply IH.
  - intros E. inversion E; subst. split; [reflexivity |].
    apply bool_decide_eq_false in Eb. exact Eb.
Qed.

(** Whatever its outcome, the identifier loop leaves the system object
    alone. *)
Lemma duplikacio_ellenorzes_self (fuel : nat) (j : Jarat.t) (n : string) :
  forall f, keeps (fun r r' => r' = r) (duplikacio_ellenorzes fuel j n f).
Proof.
  assert (Hrefl : forall r : Rendszer, r = r) by reflexivity.
  assert (Htrans : forall r1 r2 r3 : Rendszer, r2 = r1 -> r3 = r2 -> r3 = r1)
    by (intros; congruence).
  induction fuel as [| fuel IH]; intros f; cbn;
    repeat keeps_step_with Htrans.
Qed.

Lemma ids_megorzi_jegy (fuel : nat) : keeps ids_megorzi (jegy_foglalas fuel).
Proof.
  intros [r [i o c cp v vp]] Hr. cbn [self] in Hr.
  unfold jegy_foglalas. run_prim.
  destruct (jaratok_of r) as [| j0 js] eqn:Ej; [exact Hr |].
  cbv zeta.
  destruct (List.filter Jarat.is_aktiv (j0 :: js)) as [| a0 aktiv] eqn:Ea;
    [exact Hr |].
  run_prim.
  destruct (print_jaratok_frame (a0 :: aktiv) 1%nat r i
              (o ++ [MElerhetoJaratok]) c cp v vp) as (res & o' & E & Hres).
  destruct res as [[] | e |]; [| | congruence].
  2: { erewrite bind_exc by exact E. exact Hr. }
  run_by ltac:(exact E).
  unfold try_except, bind, input, int_of_str, getitem, int_of_float, of_option,
    datetime_now, print, raise, ret, existing_foglalas_ids_add, foglalasok_append,
    get_self, put_self.
  cbn.
  repeat first
    [ exact Hr
    | match goal with
      | H : new_JegyFoglalas _ _ (St _ _ _ _ _ _ _) = _ |- _ =>
          rewrite new_JegyFoglalas_run in H; inversion H; subst; clear H
      | H : duplikacio_ellenorzes _ _ _ _ (St _ _ _ _ _ _ _) = (Val _, _) |- _ =>
          apply duplikacio_ellenorzes_friss in H; destruct H as [? ?]
      | H : self ?s = r |- _ => rewrite H in *; clear H
      | |- ids_rendben (mkRendszer _ (_ ++ [_]) _) => apply ids_rendben_uj; assumption
      | H : duplikacio_ellenorzes ?a ?b ?c ?d ?s = (_, ?s')
        |- context [self ?s'] =>
          pose proof (duplikacio_ellenorzes_self a b c d s) as Hk;
          rewrite H in Hk; cbn in Hk; rewrite Hk; clear Hk
      | |- context [match ?x with _ => _ end] =>
          lazymatch x with
          | context [match _ with _ => _ end] => fail
          | _ => destruct x eqn:?; cbn
          end
      end ].
Qed.

End IdsRendben.

Section IdsFuttatas.

Context {builtins : PyBuiltins}.

(** The menu loop, from any state and for any number of rounds, keeps the
    identifiers pairwise distinct and recorded. *)
Lemma menu_ciklus_ids_rendben (fuel : nat) (s : Allapot) :
  ids_rendben (self s) -> ids_rendben (self (snd (menu_ciklus fuel s))).
Proof.
  apply (keepsR_menu_ciklus ids_megorzi ids_megorzi_refl ids_megorzi_trans
           ids_megorzi_lemondas ids_megorzi_jarat ids_megorzi_jegy fuel s).
Qed.

(** What remains true of C1: in a run whose six seed identifiers happen to be
    pairwise distinct, all identifiers of the bookings are pairwise distinct
    at every later point, and each is in the set of used identifiers. *)
Lemma futtatas_ids_rendben (fuel : nat) i c v :
  NoDup (List.map JegyFoglalas.foglalas_id (teszt_foglalasok c 0 v 0)) ->
  ids_rendben
    (self (snd (futtatas fuel (mkAllapot Rendszer_init (Vilag_init i c v))))).
Proof.
  intros Hnd. unfold futtatas, Vilag_init. run_prim.
  run_by ltac:(apply init_test_adatok_run). run_prim.
  apply menu_ciklus_ids_rendben. cbn [self]. split; cbn [foglalasok existing_foglalas_ids].
  - exact Hnd.
  - intros x Hx. apply elem_of_ids_hozzaadva. right. exact Hx.
Qed.

End IdsFuttatas.

(** * Further properties of the program *)

(** ** X1: the shape of generated identifiers *)

Lemma pick_ascii_uppercase (r : nat) : Str.is_ascii_upper (pick ascii_uppercase r) = true.
Proof.
  unfold pick. change (String.length ascii_uppercase) with 26%nat.
  assert (H : (r mod 26 < 26)%nat) by (apply Nat.mod_upper_bound; discriminate).
  revert H. generalize (r mod 26)%nat. intros n H.
  do 26 (destruct n as [| n]; [vm_compute; reflexivity |]). lia.
Qed.

Lemma pick_digits (r : nat) : is_digit (pick digits r) = true.
Proof.
  unfold pick. change (String.length digits) with 10%nat.
  assert (H : (r mod 10 < 10)%nat) by (apply Nat.mod_upper_bound; discriminate).
  revert H. generalize (r mod 10)%nat. intros n H.
  do 10 (destruct n as [| n]; [vm_compute; reflexivity |]). lia.
Qed.

Lemma id_of_formatum (v : nat -> nat) (p : nat) : id_formatum (id_of v p) = true.
Proof.
  unfold id_of, id_formatum.
  rewrite !pick_ascii_uppercase, !pick_digits. reflexivity.
Qed.

(** X1.  From every state, whatever the random generator draws,
    [_generate_foglalas_id] returns normally a string of exactly five
    characters, two of A..Z followed by three of 0..9; it uses five draws and
    touches nothing else, and so does the constructor of [JegyFoglalas],
    whose object is active and carries the flight's number, route, date and
    price. *)
Theorem X1_azonosito_formatum (jarat : Jarat.t) (utas_nev : string)
    r i o c cp v vp :
  exists foglalas_id,
    id_formatum foglalas_id = true /\
    String.length foglalas_id = 5%nat /\
    _generate_foglalas_id (St r i o c cp v vp)
      = (Val foglalas_id, St r i o c cp v (5 + vp)%nat) /\
    new_JegyFoglalas jarat utas_nev (St r i o c cp v vp)
      = (Val (JegyFoglalas.mk foglalas_id (Jarat.jaratszam jarat)
                (Jarat.indulo_repter jarat) (Jarat.celallomas jarat)
                (Jarat.datum jarat) utas_nev (Jarat.jegyar jarat) Aktiv),
         St r i o c cp v (5 + vp)%nat).
Proof.
  exists (id_of v vp). split; [apply id_of_formatum |]. split; [reflexivity |].
  split; [apply generate_foglalas_id_run | apply new_JegyFoglalas_run].
Qed.

(** ** X2: looking a flight up by its number *)

Lemma get_jarat_by_jaratszam_in_Some (l : list Jarat.t) (jaratszam : string)
    (jarat : Jarat.t) :
  Legitarsasag.get_jarat_by_jaratszam_in l jaratszam = Some jarat ->
  jarat ∈ l /\ Jarat.jaratszam jarat = jaratszam.
Proof.
  induction l as [| j l IH]; cbn; [discriminate |].
  destruct (String.eqb (Jarat.jaratszam j) jaratszam) eqn:E.
  - intros H. inversion H; subst. apply String.eqb_eq in E.
    split; [apply list_elem_of_here | exact E].
  - intros H. destruct (IH H) as [Hin Hn].
    split; [apply list_elem_of_further; exact Hin | exact Hn].
Qed.

Lemma get_jarat_by_jaratszam_in_None (l : list Jarat.t) (jaratszam : string) :
  Legitarsasag.get_jarat_by_jaratszam_in l jaratszam = None <->
  jaratszam ∉ List.map Jarat.jaratszam l.
Proof.
  induction l as [| j l IH]; cbn.
  - split; [intros _ H; inversion H | reflexivity].
  - destruct (String.eqb (Jarat.jaratszam j) jaratszam) eqn:E.
    + apply String.eqb_eq in E. split; [discriminate |].
      intros H. exfalso. apply H. rewrite E. apply list_elem_of_here.
    + apply String.eqb_neq in E. rewrite IH. rewrite not_elem_of_cons.
      split; [intros H; split; [congruence | exact H] | intros [_ H]; exact H].
Qed.

Lemma get_jarat_by_jaratszam_in_app (l : list Jarat.t) (jarat : Jarat.t)
    (jaratszam : string) :
  Legitarsasag.get_jarat_by_jaratszam_in (l ++ [jarat]) jaratszam
    = match Legitarsasag.get_jarat_by_jaratszam_in l jaratszam with
      | Some j => Some j
      | None => if String.eqb (Jarat.jaratszam jarat) jaratszam
                then Some jarat else None
      end.
Proof.
  induction l as [| j l IH]; cbn; [reflexivity |].
  destruct (String.eqb (Jarat.jaratszam j) jaratszam); [reflexivity | exact IH].
Qed.

(** X2.  [get_jarat_by_jaratszam] returns a flight of the list that has the
    number asked for, and returns nothing exactly when no flight has it.
    After [jarat_hozzaadasa] has added a flight, looking its number up gives
    that flight, and every other number is looked up as before. *)
Theorem X2_kereses_jaratszam_szerint (self self' : Legitarsasag.t)
    (jarat : Jarat.t)
    (Hadd : Legitarsasag.jarat_hozzaadasa self jarat = inr self') :
  Legitarsasag.get_jarat_by_jaratszam self (Jarat.jaratszam jarat) = None /\
  Legitarsasag.get_jarat_by_jaratszam self' (Jarat.jaratszam jarat) = Some jarat /\
  (forall jaratszam,
     jaratszam <> Jarat.jaratszam jarat ->
     Legitarsasag.get_jarat_by_jaratszam self' jaratszam
       = Legitarsasag.get_jarat_by_jaratszam self jaratszam) /\
  (forall jaratszam j,
     Legitarsasag.get_jarat_by_jaratszam self' jaratszam = Some j ->
     j ∈ Legitarsasag.jaratok self' /\ Jarat.jaratszam j = jaratszam) /\
  (forall jaratszam,
     Legitarsasag.get_jarat_by_jaratszam self' jaratszam = None <->
     jaratszam ∉ List.map Jarat.jaratszam (Legitarsasag.jaratok self')).
Proof.
  unfold Legitarsasag.jarat_hozzaadasa in Hadd.
  destruct (existsb _ _) eqn:Ex; [discriminate |].
  inversion Hadd; subst self'. clear Hadd.
  assert (Hnone : Legitarsasag.get_jarat_by_jaratszam self (Jarat.jaratszam jarat)
                  = None).
  { apply get_jarat_by_jaratszam_in_None. intros Hin.
    apply existsb_jaratszam in Hin. congruence. }
  unfold Legitarsasag.get_jarat_by_jaratszam in *. cbn [Legitarsasag.jaratok].
  split; [exact Hnone |]. split; [| split; [| split]].
  - rewrite get_jarat_by_jaratszam_in_app, Hnone, String.eqb_refl. reflexivity.
  - intros k Hk. rewrite get_jarat_by_jaratszam_in_app.
    destruct (Legitarsasag.get_jarat_by_jaratszam_in _ k); [reflexivity |].
    destruct (String.eqb (Jarat.jaratszam jarat) k) eqn:E; [| reflexivity].
    apply String.eqb_eq in E. congruence.
  - intros k j. apply get_jarat_by_jaratszam_in_Some.
  - intros k. apply get_jarat_by_jaratszam_in_None.
Qed.

(** Adding WIZ103 to the airline that has WIZ102: both are found afterwards,
    WIZ999 is not. *)
Lemma X2_kereses_jaratszam_szerint_witness :
  let l' := Legitarsasag.mk "Wizz Air Hungary"
              [pelda_jarat "WIZ102"; pelda_jarat "WIZ103"] in
  Legitarsasag.get_jarat_by_jaratszam pelda_legitarsasag "WIZ103" = None /\
  Legitarsasag.get_jarat_by_jaratszam l' "WIZ103" = Some (pelda_jarat "WIZ103") /\
  Legitarsasag.get_jarat_by_jaratszam l' "WIZ102" = Some (pelda_jarat "WIZ102") /\
  Legitarsasag.get_jarat_by_jaratszam l' "WIZ999" = None.
Proof.
  intros l'.
  destruct (X2_kereses_jaratszam_szerint pelda_legitarsasag l'
              (pelda_jarat "WIZ103") eq_refl) as (H1 & H2 & H3 & _ & _).
  split; [exact H1 |]. split; [exact H2 |]. split.
  - rewrite (H3 "WIZ102"); [reflexivity | discriminate].
  - rewrite (H3 "WIZ999"); [reflexivity | discriminate].
Defined.

(** ** X3: what [jegy_foglalas] can do to the system *)

Section JegyFoglalasHatasa.

Context {builtins : PyBuiltins}.

(** The identifier loop, started on a booking made from draws of the
    generator, returns a booking made the same way, whose identifier is not
    in use; only the position of the generator moves. *)
Lemma duplikacio_ellenorzes_eredmeny (fuel : nat) (j : Jarat.t) (n : string) :
  forall p0 r i o c cp v vp f' s',
    duplikacio_ellenorzes fuel j n (JegyFoglalas.init (id_of v p0) j n)
        (St r i o c cp v vp) = (Val f', s') ->
    exists p vp',
      f' = JegyFoglalas.init (id_of v p) j n /\
      (id_of v p ∉ existing_foglalas_ids r) /\
      s' = St r i o c cp v vp'.
Proof.
  induction fuel as [| fuel IH]; intros p0 r i o c cp v vp f' s';
    cbn [duplikacio_ellenorzes]; run_prim;
    destruct (bool_decide _) eqn:Eb.
  - discriminate.
  - intros E. inversion E; subst. exists p0, vp.
    apply bool_decide_eq_false in Eb. auto.
  - run_prim. apply IH.
  - intros E. inversion E; subst. exists p0, vp.
    apply bool_decide_eq_false in Eb. auto.
Qed.

(** The two things [jegy_foglalas] can do to the system object. *)
Lemma jegy_foglalas_hatasa (fuel : nat) (s : Allapot) :
  self (snd (jegy_foglalas fuel s)) = self s \/
  uj_foglalas (self s) (self (snd (jegy_foglalas fuel s))).
Proof.
  destruct s as [r [i o c cp v vp]]. cbn [self].
  unfold jegy_foglalas. run_prim.
  destruct (jaratok_of r) as [| j0 js] eqn:Ej; [left; reflexivity |].
  cbv zeta.
  destruct (List.filter Jarat.is_aktiv (j0 :: js)) as [| a0 aktiv] eqn:Ea;
    [left; reflexivity |].
  run_prim.
  destruct (print_jaratok_frame (a0 :: aktiv) 1%nat r i
              (o ++ [MElerhetoJaratok]) c cp v vp) as (res & o' & E & Hres).
  destruct res as [[] | e |]; [| | congruence].
  2: { erewrite bind_exc by exact E. left. reflexivity. }
  run_by ltac:(exact E).
  assert (Huj : forall (t : Jarat.t) (k : nat) (nev : string) (p : nat) X,
            (a0 :: aktiv) !! k = Some t ->
            (Str.len (py_strip nev) <=? 1)%nat = false ->
            id_of v p ∉ existing_foglalas_ids r ->
            X = {[ id_of v p ]} ∪ existing_foglalas_ids r ->
            uj_foglalas r
              (mkRendszer (legitarsasag r)
                 (foglalasok r ++ [JegyFoglalas.init (id_of v p) t (py_strip nev)])
                 X)).
  { intros t k nev p X Ht Hlen Hfresh ->. exists t, (py_strip nev), (id_of v p).
    split; [rewrite Ej, Ea; eapply list_elem_of_lookup_2; exact Ht |].
    split; [apply Nat.leb_gt in Hlen; lia |].
    split; [apply id_of_formatum |]. split; [exact Hfresh | reflexivity]. }
  unfold try_except, bind, input, int_of_str, getitem, int_of_float, of_option,
    datetime_now, print, raise, ret, existing_foglalas_ids_add, foglalasok_append,
    get_self, put_self.
  cbn.
  repeat first
    [ left; reflexivity
    | match goal with
      | H : new_JegyFoglalas _ _ (St _ _ _ _ _ _ _) = _ |- _ =>
          rewrite new_JegyFoglalas_run in H; inversion H; subst; clear H
      | H : duplikacio_ellenorzes _ _ _ _ (St _ _ _ _ _ _ _) = (Val _, _) |- _ =>
          apply duplikacio_ellenorzes_eredmeny in H;
          destruct H as (? & ? & ? & ? & ?); subst; cbn
      | H : duplikacio_ellenorzes ?a ?b ?c ?d ?st = (_, ?st')
        |- context [self ?st'] =>
          pose proof (duplikacio_ellenorzes_self a b c d st) as Hk;
          rewrite H in Hk; cbn in Hk; rewrite Hk; clear Hk
      | |- _ \/ uj_foglalas _ (mkRendszer _ (_ ++ [_]) _) =>
          right; eapply Huj; [eassumption | eassumption | assumption | reflexivity]
      | |- context [match ?x with _ => _ end] =>
          lazymatch x with
          | context [match _ with _ => _ end] => fail
          | _ => destruct x eqn:?; cbn
          end
      end ].
Qed.

(** X3.  From every state and on every input, [jegy_foglalas] either leaves
    the system object exactly as it was, or appends one booking and records
    its identifier: an active booking that copies one of the flights that
    were listed as active, for a trimmed passenger name of at least two
    characters, under an identifier of the right shape that was not in use
    before.  It never removes or changes a booking, a flight or a used
    identifier. *)
Theorem X3_jegy_foglalas_hatasa (fuel : nat) (s : Allapot) :
  self (snd (jegy_foglalas fuel s)) = self s \/
  uj_foglalas (self s) (self (snd (jegy_foglalas fuel s))).
Proof. apply jegy_foglalas_hatasa. Qed.

End JegyFoglalasHatasa.

(** ** X4 to X7: what every run keeps *)

Section MindenFutas.

Context {builtins : PyBuiltins}.

(** A reflexive relation that holds across a new booking is kept by
    [jegy_foglalas]. *)
Lemma keeps_jegy_foglalas_uj (R : Rendszer -> Rendszer -> Prop) :
  (forall r, R r r) ->
  (forall r r', uj_foglalas r r' -> R r r') ->
  forall fuel, keeps R (jegy_foglalas fuel).
Proof.
  intros Hrefl Huj fuel s.
  destruct (jegy_foglalas_hatasa fuel s) as [E | H]; [rewrite E; apply Hrefl | apply Huj, H].
Qed.

End MindenFutas.

Lemma foglalasok_orzese_refl (r : Rendszer) : foglalasok_orzese r r.
Proof. intros n f H. exists f. auto. Qed.

Lemma set_statusz_lemondva_idem (f : JegyFoglalas.t) :
  JegyFoglalas.set_statusz Lemondva (JegyFoglalas.set_statusz Lemondva f)
    = JegyFoglalas.set_statusz Lemondva f.
Proof. reflexivity. Qed.

Lemma foglalasok_orzese_trans (r1 r2 r3 : Rendszer) :
  foglalasok_orzese r1 r2 -> foglalasok_orzese r2 r3 -> foglalasok_orzese r1 r3.
Proof.
  intros H12 H23 n f H.
  destruct (H12 n f H) as (f2 & E2 & Hf2).
  destruct (H23 n f2 E2) as (f3 & E3 & Hf3).
  exists f3. split; [exact E3 |].
  destruct Hf2 as [-> | ->], Hf3 as [-> | ->]; auto.
Qed.

Lemma foglalasok_orzese_app (r : Rendszer) lt fs X :
  foglalasok_orzese r (mkRendszer lt (foglalasok r ++ fs) X).
Proof.
  intros n f H. exists f. split; [| auto]. cbn. apply lookup_app_l_Some. exact H.
Qed.

Section MindenFutasInvariansai.

Context {builtins : PyBuiltins}.

Lemma foglalasok_orzese_lemondas (n : nat) :
  keeps foglalasok_orzese (foglalas_set_statusz n Lemondva).
Proof.
  intros s k f Hk. cbn.
  destruct (decide (n = k)) as [-> | Hne].
  - rewrite list_lookup_alter_eq, Hk. cbn. eexists. split; [reflexivity | auto].
  - rewrite list_lookup_alter_ne by exact Hne. exists f. auto.
Qed.

Lemma foglalasok_orzese_jarat (j : Jarat.t) :
  keeps foglalasok_orzese (self_jarat_hozzaadasa j).
Proof.
  intros s. unfold self_jarat_hozzaadasa, bind, get_self.
  destruct (legitarsasag (self s)); cbn; [| apply foglalasok_orzese_refl].
  destruct (Legitarsasag.jarat_hozzaadasa _ _); cbn; intros n f H; exists f; auto.
Qed.

Lemma foglalasok_orzese_jegy (fuel : nat) :
  keeps foglalasok_orzese (jegy_foglalas fuel).
Proof.
  apply keeps_jegy_foglalas_uj; [apply foglalasok_orzese_refl |].
  intros r r' (j & n & x & _ & _ & _ & _ & ->). apply foglalasok_orzese_app.
Qed.

Lemma menu_ciklus_foglalasok_orzese (fuel : nat) :
  keeps foglalasok_orzese (menu_ciklus fuel).
Proof.
  apply (keepsR_menu_ciklus foglalasok_orzese foglalasok_orzese_refl
           foglalasok_orzese_trans foglalasok_orzese_lemondas
           foglalasok_orzese_jarat foglalasok_orzese_jegy).
Qed.

(** X4.  Whatever the menu loop does, from any state, on any input and for
    any number of rounds, a booking that is in the list stays in the list at
    its place with its identifier, flight data, passenger and price; all
    that can change is its status, and only to [Lemondva].  A booking whose
    status is [Lemondva] stays exactly as it is. *)
Theorem X4_foglalasok_megmaradnak (fuel : nat) (s : Allapot) (n : nat)
    (f : JegyFoglalas.t)
    (Hf : foglalasok (self s) !! n = Some f) :
  (exists f',
     foglalasok (self (snd (menu_ciklus fuel s))) !! n = Some f' /\
     (f' = f \/ f' = JegyFoglalas.set_statusz Lemondva f) /\
     JegyFoglalas.foglalas_id f' = JegyFoglalas.foglalas_id f /\
     JegyFoglalas.jaratszam f' = JegyFoglalas.jaratszam f /\
     JegyFoglalas.utas_nev f' = JegyFoglalas.utas_nev f /\
     JegyFoglalas.ar f' = JegyFoglalas.ar f) /\
  (JegyFoglalas.statusz f = Lemondva ->
   foglalasok (self (snd (menu_ciklus fuel s))) !! n = Some f) /\
  (length (foglalasok (self s))
     <= length (foglalasok (self (snd (menu_ciklus fuel s)))))%nat.
Proof.
  pose proof (menu_ciklus_foglalasok_orzese fuel s) as H.
  split; [| split].
  - destruct (H n f Hf) as (f' & E & Hf'). exists f'. split; [exact E |].
    split; [exact Hf' |]. destruct Hf' as [-> | ->]; repeat split; reflexivity.
  - intros Hs. destruct (H n f Hf) as (f' & E & [-> | ->]); [exact E |].
    rewrite E. f_equal. apply set_statusz_lemondva_id. exact Hs.
  - destruct (Nat.le_gt_cases (length (foglalasok (self s)))
                (length (foglalasok (self (snd (menu_ciklus fuel s))))))
      as [Hle | Hgt]; [exact Hle | exfalso].
    destruct (foglalasok (self s)) as [| f0 fs] eqn:Efs; [cbn in Hgt; lia |].
    assert (Hlast : is_Some ((f0 :: fs) !! length fs)).
    { apply lookup_lt_is_Some. cbn. lia. }
    destruct Hlast as [g Hg]. rewrite <- Efs in Hg.
    destruct (H _ _ Hg) as (g' & Eg & _).
    apply lookup_lt_Some in Eg. cbn in Hgt. lia.
Qed.

End MindenFutasInvariansai.

(** In the system with the one booking AB123, the menu loop adds a flight,
    cancels AB123 and exits: AB123 is still the first booking, now
    cancelled, with everything else as it was. *)
Lemma X4_foglalasok_megmaradnak_witness :
  let s := St pelda_rendszer_foglalassal
              ["4"; "wiz500"; "Budapest"; "Roma"; "40000"; "Wizz Air";
               "2025-09-01"; "2"; "2"; "ab123"; "i"; "7"]
              [] ora_julius 0 (fun n => n) 0 in
  exists f',
    foglalasok (self (snd (menu_ciklus (builtins := Parse.builtins) 5 s))) !! 0%nat
      = Some f' /\
    f' = JegyFoglalas.set_statusz Lemondva pelda_foglalas /\
    JegyFoglalas.ar f' = JegyFoglalas.ar pelda_foglalas.
Proof.
  intros s.
  destruct (proj1 (X4_foglalasok_megmaradnak (builtins := Parse.builtins)
                     5 s 0 pelda_foglalas eq_refl))
    as (f' & E & _ & _ & _ & _ & Har).
  exists f'. split; [exact E |]. split; [| exact Har].
  vm_compute in E. inversion E. reflexivity.
Defined.

Section EgyediJaratszamok.

Context {builtins : PyBuiltins}.

Lemma jaratszamok_same (r r' : Rendszer) :
  legitarsasag r' = legitarsasag r -> jaratszamok r' = jaratszamok r.
Proof. intros E. unfold jaratszamok, jaratok_of. rewrite E. reflexivity. Qed.

Lemma jaratszamok_egyediek_refl (r : Rendszer) : jaratszamok_egyediek_maradnak r r.
Proof. intros H. exact H. Qed.

Lemma jaratszamok_egyediek_trans (r1 r2 r3 : Rendszer) :
  jaratszamok_egyediek_maradnak r1 r2 -> jaratszamok_egyediek_maradnak r2 r3 ->
  jaratszamok_egyediek_maradnak r1 r3.
Proof. intros H12 H23 H. apply H23, H12, H. Qed.

Lemma jaratszamok_egyediek_lemondas (n : nat) :
  keeps jaratszamok_egyediek_maradnak (foglalas_set_statusz n Lemondva).
Proof. intros s H. exact H. Qed.

Lemma jaratszamok_egyediek_jarat (j : Jarat.t) :
  keeps jaratszamok_egyediek_maradnak (self_jarat_hozzaadasa j).
Proof.
  intros s H. unfold self_jarat_hozzaadasa, bind, get_self.
  destruct (legitarsasag (self s)) as [l |] eqn:El; cbn; [| exact H].
  unfold Legitarsasag.jarat_hozzaadasa.
  destruct (existsb _ _) eqn:Ex; cbn; [exact H |].
  unfold jaratszamok, jaratok_of in *. rewrite El in H. cbn.
  rewrite List.map_app. apply NoDup_app. split; [exact H |]. split.
  - intros x Hx Hx'. cbn in Hx'. apply list_elem_of_singleton in Hx'. subst x.
    apply existsb_jaratszam in Hx. congruence.
  - apply NoDup_singleton.
Qed.

Lemma jaratszamok_egyediek_jegy (fuel : nat) :
  keeps jaratszamok_egyediek_maradnak (jegy_foglalas fuel).
Proof.
  apply keeps_jegy_foglalas_uj; [apply jaratszamok_egyediek_refl |].
  intros r r' (j & n & x & _ & _ & _ & _ & ->) H.
  erewrite jaratszamok_same; [exact H | reflexivity].
Qed.

(** X5.  In every run of the program, for any input, clock, random generator
    and number of menu rounds, the numbers of the flights of the airline are
    pairwise distinct; and from any state in which they are, the menu loop
    keeps them so. *)
Theorem X5_jaratszamok_egyediek :
  (forall fuel i c v,
     NoDup (jaratszamok
              (self (snd (futtatas fuel (mkAllapot Rendszer_init (Vilag_init i c v))))))) /\
  (forall fuel s,
     NoDup (jaratszamok (self s)) ->
     NoDup (jaratszamok (self (snd (menu_ciklus fuel s))))).
Proof.
  assert (Hmenu : forall fuel s,
            NoDup (jaratszamok (self s)) ->
            NoDup (jaratszamok (self (snd (menu_ciklus fuel s))))).
  { intros fuel s.
    apply (keepsR_menu_ciklus jaratszamok_egyediek_maradnak
             jaratszamok_egyediek_refl jaratszamok_egyediek_trans
             jaratszamok_egyediek_lemondas jaratszamok_egyediek_jarat
             jaratszamok_egyediek_jegy fuel s). }
  split; [| exact Hmenu].
  intros fuel i c v. unfold futtatas, Vilag_init. run_prim.
  run_by ltac:(apply init_test_adatok_run). run_prim.
  apply Hmenu. cbn [self]. unfold jaratszamok. cbn.
  repeat (apply NoDup_cons; split;
          [rewrite ?not_elem_of_cons; repeat split;
           first [discriminate | apply not_elem_of_nil] |]).
  apply NoDup_nil_2.
Qed.

End EgyediJaratszamok.

Section HasznaltAzonositok.

Context {builtins : PyBuiltins}.

Lemma ids_egyeznek_marad_refl (r : Rendszer) : ids_egyeznek_marad r r.
Proof. intros H. exact H. Qed.

Lemma ids_egyeznek_marad_trans (r1 r2 r3 : Rendszer) :
  ids_egyeznek_marad r1 r2 -> ids_egyeznek_marad r2 r3 -> ids_egyeznek_marad r1 r3.
Proof. intros H12 H23 H. apply H23, H12, H. Qed.

Lemma ids_egyeznek_marad_lemondas (n : nat) :
  keeps ids_egyeznek_marad (foglalas_set_statusz n Lemondva).
Proof.
  intros s H x. unfold foglalas_idk. cbn. rewrite map_id_set_statusz. apply H.
Qed.

Lemma ids_egyeznek_marad_jarat (j : Jarat.t) :
  keeps ids_egyeznek_marad (self_jarat_hozzaadasa j).
Proof.
  intros s H. unfold self_jarat_hozzaadasa, bind, get_self.
  destruct (legitarsasag (self s)); cbn; [| exact H].
  destruct (Legitarsasag.jarat_hozzaadasa _ _); cbn; exact H.
Qed.

Lemma ids_egyeznek_marad_jegy (fuel : nat) :
  keeps ids_egyeznek_marad (jegy_foglalas fuel).
Proof.
  apply keeps_jegy_foglalas_uj; [apply ids_egyeznek_marad_refl |].
  intros r r' (j & n & fid & _ & _ & _ & _ & ->) H x.
  unfold foglalas_idk in *. cbn. rewrite List.map_app, elem_of_union, elem_of_app.
  cbn. rewrite elem_of_singleton, list_elem_of_singleton, (H x). tauto.
Qed.

Lemma ids_bovul_refl (r : Rendszer) : ids_bovul r r.
Proof. intros x H. exact H. Qed.

Lemma ids_bovul_trans (r1 r2 r3 : Rendszer) :
  ids_bovul r1 r2 -> ids_bovul r2 r3 -> ids_bovul r1 r3.
Proof. intros H12 H23 x H. apply H23, H12, H. Qed.

Lemma ids_bovul_lemondas (n : nat) : keeps ids_bovul (foglalas_set_statusz n Lemondva).
Proof. intros s x H. exact H. Qed.

Lemma ids_bovul_jarat (j : Jarat.t) : keeps ids_bovul (self_jarat_hozzaadasa j).
Proof.
  intros s. unfold self_jarat_hozzaadasa, bind, get_self.
  destruct (legitarsasag (self s)); cbn; [| apply ids_bovul_refl].
  destruct (Legitarsasag.jarat_hozzaadasa _ _); cbn; intros x H; exact H.
Qed.

Lemma ids_bovul_jegy (fuel : nat) : keeps ids_bovul (jegy_foglalas fuel).
Proof.
  apply keeps_jegy_foglalas_uj; [apply ids_bovul_refl |].
  intros r r' (j & n & fid & _ & _ & _ & _ & ->) x H. cbn.
  apply elem_of_union. right. exact H.
Qed.

(** X6.  In every run of the program the set of used identifiers holds
    exactly the identifiers of the bookings, active or cancelled; the menu
    loop keeps this from any state in which it holds; and it never takes an
    identifier out of the set, so cancelling a booking does not free its
    identifier. *)
Theorem X6_hasznalt_azonositok :
  (forall fuel i c v,
     ids_egyeznek
       (self (snd (futtatas fuel (mkAllapot Rendszer_init (Vilag_init i c v)))))) /\
  (forall fuel s,
     ids_egyeznek (self s) -> ids_egyeznek (self (snd (menu_ciklus fuel s)))) /\
  (forall fuel s x,
     x ∈ existing_foglalas_ids (self s) ->
     x ∈ existing_foglalas_ids (self (snd (menu_ciklus fuel s)))).
Proof.
  assert (Hmenu : forall fuel s,
            ids_egyeznek (self s) -> ids_egyeznek (self (snd (menu_ciklus fuel s)))).
  { intros fuel s.
    apply (keepsR_menu_ciklus ids_egyeznek_marad ids_egyeznek_marad_refl
             ids_egyeznek_marad_trans ids_egyeznek_marad_lemondas
             ids_egyeznek_marad_jarat ids_egyeznek_marad_jegy fuel s). }
  split; [| split; [exact Hmenu |]].
  - intros fuel i c v. unfold futtatas, Vilag_init. run_prim.
    run_by ltac:(apply init_test_adatok_run). run_prim.
    apply Hmenu. cbn [self]. intros x. unfold foglalas_idk.
    cbn [existing_foglalas_ids foglalasok].
    rewrite elem_of_ids_hozzaadva. rewrite elem_of_empty. tauto.
  - intros fuel s x.
    apply (keepsR_menu_ciklus ids_bovul ids_bovul_refl ids_bovul_trans
             ids_bovul_lemondas ids_bovul_jarat ids_bovul_jegy fuel s).
Qed.

(** X7.  In a run whose six seed identifiers are pairwise distinct, the
    identifiers of all bookings are pairwise distinct at every later point
    and all are in the set of used identifiers: a new booking never gets the
    identifier of an earlier booking, cancelled or not. *)
Theorem X7_azonositok_egyediek_maradnak (fuel : nat) i c v
    (Hseed : NoDup (List.map JegyFoglalas.foglalas_id (teszt_foglalasok c 0 v 0))) :
  NoDup (foglalas_idk
           (self (snd (futtatas fuel (mkAllapot Rendszer_init (Vilag_init i c v)))))) /\
  forall f,
    f ∈ foglalasok
          (self (snd (futtatas fuel (mkAllapot Rendszer_init (Vilag_init i c v))))) ->
    JegyFoglalas.foglalas_id f
      ∈ existing_foglalas_ids
          (self (snd (futtatas fuel (mkAllapot Rendszer_init (Vilag_init i c v))))).
Proof.
  assert (H : ids_rendben
                (self (snd (futtatas fuel
                              (mkAllapot Rendszer_init (Vilag_init i c v)))))).
  { unfold futtatas, Vilag_init. run_prim.
    run_by ltac:(apply init_test_adatok_run). run_prim.
    apply (keepsR_menu_ciklus ids_megorzi ids_megorzi_refl ids_megorzi_trans
             ids_megorzi_lemondas ids_megorzi_jarat ids_megorzi_jegy).
    cbn [self]. split; cbn [foglalasok existing_foglalas_ids].
    - exact Hseed.
    - intros x Hx. apply elem_of_ids_hozzaadva. right. exact Hx. }
  destruct H as [Hnd Hin]. split; [exact Hnd |].
  intros f Hf. apply Hin. apply list_elem_of_fmap_2. exact Hf.
Qed.

End HasznaltAzonositok.

(** With the generator that draws 0, 1, 2, ... the six seed identifiers are
    distinct; after two bookings made from the menu, the eight identifiers
    are pairwise distinct. *)
Lemma X7_azonositok_egyediek_maradnak_witness :
  NoDup (foglalas_idk
           (self (snd (futtatas (builtins := Parse.builtins) 5
                         (mkAllapot Rendszer_init
                            (Vilag_init ["1"; "1"; "Nagy Anna"; "1"; "2"; "Kis Pál"; "7"]
                                        ora_2024 (fun n => n))))))).
Proof.
  apply (X7_azonositok_egyediek_maradnak (builtins := Parse.builtins) 5
           ["1"; "1"; "Nagy Anna"; "1"; "2"; "Kis Pál"; "7"] ora_2024 (fun n => n)).
  apply (bool_decide_unpack _). vm_compute. exact I.
Defined.

(** ** X8: a booking that succeeds, after any number of collisions *)

Section SikeresFoglalas.

Context {builtins : PyBuiltins}.

Lemma existing_foglalas_ids_add_run (x : string) lt fs X i o c cp v vp :
  existing_foglalas_ids_add x (St (mkRendszer lt fs X) i o c cp v vp)
    = (Val tt, St (mkRendszer lt fs ({[ x ]} ∪ X)) i o c cp v vp).
Proof. reflexivity. Qed.

Lemma foglalasok_append_run (f : JegyFoglalas.t) lt fs X i o c cp v vp :
  foglalasok_append f (St (mkRendszer lt fs X) i o c cp v vp)
    = (Val tt, St (mkRendszer lt (fs ++ [f]) X) i o c cp v vp).
Proof. reflexivity. Qed.

(** The identifier loop with [k] collisions: the candidates drawn at
    positions [p], [p + 5], ... are in use, the one drawn at [p + 5k] is
    not, and the loop may draw at least [k] times. *)
Lemma duplikacio_ellenorzes_run (j : Jarat.t) (n : string) (k : nat) :
  forall fuel p r i o c cp v,
    (k <= fuel)%nat ->
    (forall m, (m < k)%nat -> id_of v (5 * m + p) ∈ existing_foglalas_ids r) ->
    id_of v (5 * k + p) ∉ existing_foglalas_ids r ->
    duplikacio_ellenorzes fuel j n (JegyFoglalas.init (id_of v p) j n)
        (St r i o c cp v (5 + p)%nat)
      = (Val (JegyFoglalas.init (id_of v (5 * k + p)) j n),
         St r i o c cp v (5 + (5 * k + p))%nat).
Proof.
  induction k as [| k IH]; intros fuel p r i o c cp v Hfuel Hin Hfresh.
  - destruct fuel; cbn [duplikacio_ellenorzes]; run_prim;
      cbn [JegyFoglalas.init JegyFoglalas.foglalas_id];
      change (5 * 0 + p)%nat with p in Hfresh;
      rewrite (bool_decide_eq_false_2 _ Hfresh); reflexivity.
  - destruct fuel as [| fuel]; [lia |].
    cbn [duplikacio_ellenorzes]. run_prim.
    cbn [JegyFoglalas.init JegyFoglalas.foglalas_id].
    assert (H0 : id_of v p ∈ existing_foglalas_ids r).
    { specialize (Hin 0%nat). rewrite Nat.mul_0_r in Hin. apply Hin. lia. }
    rewrite (bool_decide_eq_true_2 _ H0). run_prim.
    replace (5 * S k + p)%nat with (5 * k + (5 + p))%nat by lia.
    apply IH.
    + lia.
    + intros m Hm. specialize (Hin (S m)).
      replace (5 * S m + p)%nat with (5 * m + (5 + p))%nat in Hin by lia.
      apply Hin. lia.
    + replace (5 * k + (5 + p))%nat with (5 * S k + p)%nat by lia. exact Hfresh.
Qed.

(** X8.  A flight is selected from the list of active flights, its date is
    not before the clock at the re-check, and the trimmed name has at least
    two characters.  If the first [k] identifiers drawn are in use and the
    next one is not, and the loop may run [k] times, the operation returns
    normally: that identifier is recorded, one active booking with it is
    appended, carrying the flight's number, route, date and price and the
    trimmed name, and the identifier and the price are printed. *)
Theorem X8_sikeres_foglalas (fuel k : nat) lt fs X i o c cp v vp
    (line nev : string) (valasztas : Z) (jarat : Jarat.t)
    (Hfin : Forall (fun j => Float.is_finite (Jarat.jegyar j) = true)
                   (List.filter Jarat.is_aktiv (jaratok_of (mkRendszer lt fs X))))
    (Hint : py_int line = Some valasztas)
    (Hge : 1 <= valasztas)
    (Hsel : List.filter Jarat.is_aktiv (jaratok_of (mkRendszer lt fs X))
              !! Z.to_nat (valasztas - 1) = Some jarat)
    (Hdatum : datetime_ltb (Jarat.datum jarat) (c cp) = false)
    (Hnev : (2 <= Str.len (py_strip nev))%nat)
    (Hfuel : (k <= fuel)%nat)
    (Hutkozik : forall m, (m < k)%nat -> id_of v (5 * m + vp) ∈ X)
    (Hszabad : id_of v (5 * k + vp) ∉ X) :
  jegy_foglalas fuel (St (mkRendszer lt fs X) (line :: nev :: i) o c cp v vp)
    = (Val tt,
       St (mkRendszer lt
             (fs ++ [JegyFoglalas.mk (id_of v (5 * k + vp))
                       (Jarat.jaratszam jarat) (Jarat.indulo_repter jarat)
                       (Jarat.celallomas jarat) (Jarat.datum jarat)
                       (py_strip nev) (Jarat.jegyar jarat) Aktiv])
             ({[ id_of v (5 * k + vp) ]} ∪ X))
          i
          (o ++ MElerhetoJaratok
             :: jarat_sorok 1 (List.filter Jarat.is_aktiv
                                 (jaratok_of (mkRendszer lt fs X)))
             ++ [MJaratKivalasztva jarat (Float.trunc (Jarat.jegyar jarat));
                 MDatumOK (Jarat.datum jarat);
                 MFoglalasLetrehozva;
                 MFoglalasiAzonosito (id_of v (5 * k + vp));
                 MFizetendo (Float.trunc (Jarat.jegyar jarat))])
          c (S cp) v (5 + (5 * k + vp))%nat).
Proof.
  set (r := mkRendszer lt fs X) in *.
  unfold jegy_foglalas. run_prim.
  destruct (jaratok_of r) as [| j0 js] eqn:Ej; [discriminate Hsel |].
  cbv zeta.
  destruct (List.filter Jarat.is_aktiv (j0 :: js)) as [| a0 aktiv] eqn:Ea;
    [discriminate Hsel |].
  assert (Hlen : (Z.to_nat (valasztas - 1) < length (a0 :: aktiv))%nat)
    by (eapply lookup_lt_Some; exact Hsel).
  assert (Hj : Float.is_finite (Jarat.jegyar jarat) = true).
  { eapply (Forall_lookup_1 _ _ _ _ Hfin). exact Hsel. }
  run_prim.
  run_by ltac:(apply print_jaratok_run; exact Hfin).
  erewrite try_except_val; [reflexivity |].
  run_prim.
  run_by ltac:(apply int_of_str_run; exact Hint).
  replace ((valasztas <? 1) || (valasztas >? Z.of_nat (length (a0 :: aktiv))))
    with false by (symmetry; apply orb_false_iff; split; lia).
  run_by ltac:(apply getitem_run; [lia | exact Hsel]).
  run_by ltac:(apply int_of_float_finite; exact Hj).
  do 2 run_prim.
  rewrite Hdatum. do 2 run_prim.
  replace (Str.len (py_strip nev) <? 2)%nat with false
    by (symmetry; apply Nat.ltb_ge; exact Hnev).
  run_prim.
  run_by ltac:(apply duplikacio_ellenorzes_run; [exact Hfuel | exact Hutkozik | exact Hszabad]).
  unfold r.
  run_by ltac:(apply existing_foglalas_ids_add_run).
  run_by ltac:(apply foglalasok_append_run).
  do 2 run_prim.
  run_by ltac:(apply int_of_float_finite; exact Hj).
  rewrite print_run.
  repeat rewrite <- app_assoc. reflexivity.
Qed.

End SikeresFoglalas.

(** The identifier AB234 is in use and the generator draws it first: the
    booking for "Kis Pál" on WIZ102 gets the next one, FG789, after one
    collision. *)
Lemma X8_sikeres_foglalas_witness :
  jegy_foglalas (builtins := Parse.builtins) 1
      (St (mkRendszer (Some pelda_legitarsasag) [] {[ "AB234" ]})
          ["1"; "  Kis Pál "] [] (fun _ => pelda_most) 0 (fun n => n) 0)
    = (Val tt,
       St (mkRendszer (Some pelda_legitarsasag)
             [JegyFoglalas.mk "FG789" "WIZ102" "Budapest" "Szeged"
                (datetime_ymd 2025 6 10) "Kis Pál" (Float.of_Z 16000) Aktiv]
             ({[ "FG789" ]} ∪ {[ "AB234" ]}))
          []
          [MElerhetoJaratok;
           MJaratSor 1 (pelda_jarat "WIZ102") 16000;
           MJaratKivalasztva (pelda_jarat "WIZ102") 16000;
           MDatumOK (datetime_ymd 2025 6 10);
           MFoglalasLetrehozva;
           MFoglalasiAzonosito "FG789";
           MFizetendo 16000]
          (fun _ => pelda_most) 1 (fun n => n) 10).
Proof.
  apply (X8_sikeres_foglalas (builtins := Parse.builtins) 1 1
           (Some pelda_legitarsasag) [] {[ "AB234" ]} [] []
           (fun _ => pelda_most) 0%nat (fun n => n) 0%nat
           "1" "  Kis Pál " 1 (pelda_jarat "WIZ102")).
  - repeat constructor.
  - reflexivity.
  - lia.
  - reflexivity.
  - reflexivity.
  - vm_compute. lia.
  - lia.
  - intros m Hm. assert (m = 0%nat) as -> by lia.
    apply elem_of_singleton. reflexivity.
  - intros H. apply elem_of_singleton in H. discriminate H.
Defined.

(** ** X9 and X10: bookings that stop early *)

Section KoraiKilepes.

Context {builtins : PyBuiltins}.

(** X9.  With no airline, or an airline without flights, [jegy_foglalas]
    prints that no flight is available; with flights none of which is
    active, it prints that no flight is active.  In both cases it returns at
    once: no line is read, the clock and the generator are not used, and the
    system is as before. *)
Theorem X9_nincs_foglalhato_jarat (fuel : nat) (r : Rendszer) i o c cp v vp :
  (jaratok_of r = [] ->
   jegy_foglalas fuel (St r i o c cp v vp)
     = (Val tt, St r i (o ++ [MNincsElerhetoJarat]) c cp v vp)) /\
  (jaratok_of r <> [] ->
   List.filter Jarat.is_aktiv (jaratok_of r) = [] ->
   jegy_foglalas fuel (St r i o c cp v vp)
     = (Val tt, St r i (o ++ [MNincsAktivJarat]) c cp v vp)).
Proof.
  split.
  - intros E. unfold jegy_foglalas. run_prim. rewrite E. apply print_run.
  - intros Hne E. unfold jegy_foglalas. run_prim.
    destruct (jaratok_of r) as [| j0 js] eqn:Ej; [congruence |].
    cbv zeta. rewrite E. apply print_run.
Qed.

(** X10.  The active flights are listed.  If the input has ended, the
    end-of-file error is caught and printed; if the line entered is not an
    integer, the invalid-input line is printed; if it is an integer below 1
    or above the number of active flights, the invalid-choice line is
    printed.  In each case the operation returns normally and the system,
    the clock and the generator are as before. *)
Theorem X10_ervenytelen_valasztas (fuel : nat) (r : Rendszer) i o c cp v vp
    (line : string)
    (Hvan : List.filter Jarat.is_aktiv (jaratok_of r) <> [])
    (Hfin : Forall (fun j => Float.is_finite (Jarat.jegyar j) = true)
                   (List.filter Jarat.is_aktiv (jaratok_of r))) :
  let lista := MElerhetoJaratok
                 :: jarat_sorok 1 (List.filter Jarat.is_aktiv (jaratok_of r)) in
  jegy_foglalas fuel (St r [] o c cp v vp)
    = (Val tt, St r [] (o ++ lista ++ [MHibaTortent EOFError]) c cp v vp) /\
  (py_int line = None ->
   jegy_foglalas fuel (St r (line :: i) o c cp v vp)
     = (Val tt, St r i (o ++ lista ++ [MErvenytelenBemenet]) c cp v vp)) /\
  (forall valasztas,
     py_int line = Some valasztas ->
     valasztas < 1 \/
     Z.of_nat (length (List.filter Jarat.is_aktiv (jaratok_of r))) < valasztas ->
     jegy_foglalas fuel (St r (line :: i) o c cp v vp)
       = (Val tt, St r i (o ++ lista ++ [MErvenytelenValasztas]) c cp v vp)).
Proof.
  cbv zeta.
  assert (Hstart : forall inp,
    jegy_foglalas fuel (St r inp o c cp v vp)
    = try_except
        (do line <- input;
         do valasztas <- int_of_str line;
         if (valasztas <? 1)
            || (valasztas >? Z.of_nat (length (List.filter Jarat.is_aktiv (jaratok_of r))))
         then print MErvenytelenValasztas
         else
           do kivalasztott_jarat <-
             getitem (List.filter Jarat.is_aktiv (jaratok_of r)) (valasztas - 1);
           do ar <- int_of_float (Jarat.jegyar kivalasztott_jarat);
           do _ <- print (MJaratKivalasztva kivalasztott_jarat ar);
           do now <- datetime_now;
           if datetime_ltb (Jarat.datum kivalasztott_jarat) now
           then print MDatumElmult
           else
             do _ <- print (MDatumOK (Jarat.datum kivalasztott_jarat));
             do line <- input;
             let utas_nev := py_strip line in
             if (Str.len utas_nev <? 2)%nat
             then print MNevTulRovid
             else
               do foglalas <- new_JegyFoglalas kivalasztott_jarat utas_nev;
               do foglalas <- duplikacio_ellenorzes fuel kivalasztott_jarat
                                                    utas_nev foglalas;
               do _ <- existing_foglalas_ids_add (JegyFoglalas.foglalas_id foglalas);
               do _ <- foglalasok_append foglalas;
               do _ <- print MFoglalasLetrehozva;
               do _ <- print (MFoglalasiAzonosito (JegyFoglalas.foglalas_id foglalas));
               do ar <- int_of_float (JegyFoglalas.ar foglalas);
               print (MFizetendo ar))
        (fun e =>
           match e with
           | ValueError _ => print MErvenytelenBemenet
           | _ => print (MHibaTortent e)
           end)
        (St r inp
            (o ++ MElerhetoJaratok
               :: jarat_sorok 1 (List.filter Jarat.is_aktiv (jaratok_of r)))
            c cp v vp)).
  { intros inp. unfold jegy_foglalas. run_prim.
    destruct (jaratok_of r) as [| j0 js] eqn:Ej; [exfalso; apply Hvan; reflexivity |].
    cbv zeta.
    destruct (List.filter Jarat.is_aktiv (j0 :: js)) as [| a0 aktiv] eqn:Ea;
      [congruence |].
    run_prim.
    run_by ltac:(apply print_jaratok_run; exact Hfin).
    rewrite <- app_assoc. reflexivity. }
  split; [| split].
  - rewrite Hstart. erewrite try_except_exc by (apply bind_exc; reflexivity).
    cbv beta iota. rewrite print_run, <- app_assoc. reflexivity.
  - intros Hint. rewrite Hstart.
    erewrite try_except_exc.
    2: { run_prim. apply bind_exc. unfold int_of_str. rewrite Hint. reflexivity. }
    cbv beta iota. rewrite print_run, <- app_assoc. reflexivity.
  - intros valasztas Hint Hout. rewrite Hstart.
    erewrite try_except_val; [reflexivity |].
    run_prim. run_by ltac:(apply int_of_str_run; exact Hint).
    replace ((valasztas <? 1)
             || (valasztas >? Z.of_nat (length (List.filter Jarat.is_aktiv (jaratok_of r)))))
      with true by (symmetry; apply orb_true_iff; lia).
    rewrite print_run, <- app_assoc. reflexivity.
Qed.

End KoraiKilepes.

(** A new system has no flight to book; in the example system, the entries
    "x" and "2" are refused (one active flight) and the end of the input is
    reported. *)
Lemma X9_nincs_foglalhato_jarat_witness :
  jegy_foglalas (builtins := Parse.builtins) 0
      (St Rendszer_init ["1"] [] ora_julius 0 (fun n => n) 0)
    = (Val tt, St Rendszer_init ["1"] [MNincsElerhetoJarat] ora_julius 0 (fun n => n) 0) /\
  jegy_foglalas (builtins := Parse.builtins) 0
      (St (mkRendszer (Some (Legitarsasag.mk "W" [teszt_jarat_1 pelda_most])) [] ∅)
          ["1"] [] ora_julius 0 (fun n => n) 0)
    = (Val tt,
       St (mkRendszer (Some (Legitarsasag.mk "W" [teszt_jarat_1 pelda_most])) [] ∅)
          ["1"] [MNincsAktivJarat] ora_julius 0 (fun n => n) 0).
Proof.
  split.
  - apply (proj1 (X9_nincs_foglalhato_jarat (builtins := Parse.builtins) 0
                    Rendszer_init ["1"] [] ora_julius 0%nat (fun n => n) 0%nat)).
    reflexivity.
  - apply (proj2 (X9_nincs_foglalhato_jarat (builtins := Parse.builtins) 0
                    (mkRendszer (Some (Legitarsasag.mk "W" [teszt_jarat_1 pelda_most]))
                                [] ∅)
                    ["1"] [] ora_julius 0%nat (fun n => n) 0%nat)).
    + discriminate.
    + reflexivity.
Defined.

Lemma X10_ervenytelen_valasztas_witness :
  let lista := [MElerhetoJaratok; MJaratSor 1 (pelda_jarat "WIZ102") 16000] in
  jegy_foglalas (builtins := Parse.builtins) 0
      (St pelda_rendszer [] [] ora_julius 0 (fun n => n) 0)
    = (Val tt, St pelda_rendszer [] (lista ++ [MHibaTortent EOFError])
                  ora_julius 0 (fun n => n) 0) /\
  jegy_foglalas (builtins := Parse.builtins) 0
      (St pelda_rendszer ["x"; "Nagy Anna"] [] ora_julius 0 (fun n => n) 0)
    = (Val tt, St pelda_rendszer ["Nagy Anna"] (lista ++ [MErvenytelenBemenet])
                  ora_julius 0 (fun n => n) 0) /\
  jegy_foglalas (builtins := Parse.builtins) 0
      (St pelda_rendszer ["2"; "Nagy Anna"] [] ora_julius 0 (fun n => n) 0)
    = (Val tt, St pelda_rendszer ["Nagy Anna"] (lista ++ [MErvenytelenValasztas])
                  ora_julius 0 (fun n => n) 0).
Proof.
  intros lista.
  assert (Hvan : List.filter Jarat.is_aktiv (jaratok_of pelda_rendszer) <> [])
    by discriminate.
  assert (Hfin : Forall (fun j => Float.is_finite (Jarat.jegyar j) = true)
                        (List.filter Jarat.is_aktiv (jaratok_of pelda_rendszer)))
    by (repeat constructor).
  split; [| split].
  - apply (proj1 (X10_ervenytelen_valasztas (builtins := Parse.builtins) 0
                    pelda_rendszer [] [] ora_julius 0%nat (fun n => n) 0%nat
                    "x" Hvan Hfin)).
  - apply (proj1 (proj2 (X10_ervenytelen_valasztas (builtins := Parse.builtins) 0
                    pelda_rendszer ["Nagy Anna"] [] ora_julius 0%nat (fun n => n) 0%nat
                    "x" Hvan Hfin))).
    reflexivity.
  - apply (proj2 (proj2 (X10_ervenytelen_valasztas (builtins := Parse.builtins) 0
                    pelda_rendszer ["Nagy Anna"] [] ora_julius 0%nat (fun n => n) 0%nat
                    "2" Hvan Hfin)) 2).
    + reflexivity.
    + right. vm_compute. reflexivity.
Defined.

(** ** X11 to X13: adding a flight *)

Section UjJaratFelvetele.

Context {builtins : PyBuiltins}.

Lemma uj_jarat_felvetel_run (r : Rendszer) (l : Legitarsasag.t)
    (n ind cel ars lts ds ts : string) (ar : spec_float) (datum : datetime)
    i o c cp v vp :
  legitarsasag r = Some l ->
  urlap_ervenyes ars ds ts ar datum ->
  py_upper (py_strip n) ∉ List.map Jarat.jaratszam (Legitarsasag.jaratok l) ->
  let uj := uj_jarat_peldany (py_strip ts) (py_upper (py_strip n)) (py_strip ind)
                             (py_strip cel) ar (py_strip lts) datum (c cp) in
  uj_jarat_hozzaadasa (St r (n :: ind :: cel :: ars :: lts :: ds :: ts :: i) o c cp v vp)
    = try_except
        (do ar_egesz <- int_of_float (Jarat.jegyar uj);
         print (MJaratHozzaadva uj ar_egesz))
        uj_jarat_kivetel
        (St (jarat_felveve r l uj) i (o ++ [MUjJaratHozzaadasa]) c (S cp) v vp).
Proof.
  intros Hl Hform Hfriss uj.
  erewrite uj_jarat_urlap_run by eassumption. cbv zeta. fold uj.
  destruct r as [lt fs X]. cbn in Hl. subst lt.
  try_run_by ltac:(apply self_jarat_hozzaadasa_run; unfold uj;
                   rewrite uj_jarat_peldany_jaratszam;
                   apply not_true_is_false; intros Ex;
                   apply Hfriss, existsb_jaratszam, Ex).
  reflexivity.
Qed.

(** X11.  A valid form (a price that parses and is not [<= 0], a date that
    parses, type "1" or "2") with a flight number that, trimmed and in upper
    case, is not in use, and a resulting price that is finite: the flight is
    appended after the existing flights, the success line is printed with
    its price, seven lines are read, the clock is read once (in the
    constructor), and the bookings and the used identifiers are as before. *)
Theorem X11_uj_jarat_felvetele (r : Rendszer) (l : Legitarsasag.t)
    (n ind cel ars lts ds ts : string) (ar : spec_float) (datum : datetime)
    i o c cp v vp
    (Hl : legitarsasag r = Some l)
    (Hform : urlap_ervenyes ars ds ts ar datum)
    (Hfriss : py_upper (py_strip n)
              ∉ List.map Jarat.jaratszam (Legitarsasag.jaratok l)) :
  let uj := uj_jarat_peldany (py_strip ts) (py_upper (py_strip n)) (py_strip ind)
                             (py_strip cel) ar (py_strip lts) datum (c cp) in
  Float.is_finite (Jarat.jegyar uj) = true ->
  uj_jarat_hozzaadasa (St r (n :: ind :: cel :: ars :: lts :: ds :: ts :: i) o c cp v vp)
    = (Val tt,
       St (jarat_felveve r l uj) i
          (o ++ [MUjJaratHozzaadasa; MJaratHozzaadva uj (Float.trunc (Jarat.jegyar uj))])
          c (S cp) v vp).
Proof.
  intros uj Hfin.
  pose proof (uj_jarat_felvetel_run r l n ind cel ars lts ds ts ar datum
                i o c cp v vp Hl Hform Hfriss) as E.
  cbv zeta in E. fold uj in E. rewrite E.
  erewrite try_except_val; [reflexivity |].
  run_by ltac:(apply int_of_float_finite; exact Hfin).
  rewrite print_run, <- app_assoc. reflexivity.
Qed.

(** X12.  The same form when the resulting price is not finite (a NaN or an
    infinity, which the test [ar <= 0] lets through, or a product with 1.3
    that overflows): the flight is stored all the same, because the
    insertion precedes the formatting of the success line; the operation
    then prints an error line instead of the success line, [Hiba] for a NaN
    and [Varatlan hiba] for an infinity. *)
Theorem X12_uj_jarat_nem_veges_ar (r : Rendszer) (l : Legitarsasag.t)
    (n ind cel ars lts ds ts : string) (ar : spec_float) (datum : datetime)
    i o c cp v vp
    (Hl : legitarsasag r = Some l)
    (Hform : urlap_ervenyes ars ds ts ar datum)
    (Hfriss : py_upper (py_strip n)
              ∉ List.map Jarat.jaratszam (Legitarsasag.jaratok l)) :
  let uj := uj_jarat_peldany (py_strip ts) (py_upper (py_strip n)) (py_strip ind)
                             (py_strip cel) ar (py_strip lts) datum (c cp) in
  Float.is_finite (Jarat.jegyar uj) = false ->
  uj_jarat_hozzaadasa (St r (n :: ind :: cel :: ars :: lts :: ds :: ts :: i) o c cp v vp)
    = (Val tt,
       St (jarat_felveve r l uj) i
          (o ++ [MUjJaratHozzaadasa;
                 match Jarat.jegyar uj with
                 | S754_nan => MHiba (ValueError CannotConvertNaN)
                 | _ => MVaratlanHiba OverflowError
                 end])
          c (S cp) v vp) /\
  uj ∈ jaratok_of (jarat_felveve r l uj).
Proof.
  intros uj Hfin.
  pose proof (uj_jarat_felvetel_run r l n ind cel ars lts ds ts ar datum
                i o c cp v vp Hl Hform Hfriss) as E.
  cbv zeta in E. fold uj in E. rewrite E. split.
  - destruct (Jarat.jegyar uj) as [sg | sg | | sg m e]; try discriminate Hfin.
    + erewrite try_except_exc by (apply bind_exc; reflexivity).
      cbn [uj_jarat_kivetel]. rewrite print_run, <- app_assoc. reflexivity.
    + erewrite try_except_exc by (apply bind_exc; reflexivity).
      cbn [uj_jarat_kivetel]. rewrite print_run, <- app_assoc. reflexivity.
  - unfold jarat_felveve, jaratok_of. cbn. apply elem_of_app. right.
    apply list_elem_of_here.
Qed.

End UjJaratFelvetele.

(** In the example system the form for WIZ300, an international flight to
    Wien at 30000, stores the flight at 39000; with the price of 309 digits
    the flight is stored with an infinite price and the unexpected-error
    line is printed. *)
Lemma X11_uj_jarat_felvetele_witness :
  let uj := Jarat.init_nemzetkozi "WIZ300" "Budapest" "Wien" (Float.of_Z 30000)
                                  "Wizz Air" (datetime_ymd 2025 9 1) (ora_julius 0) in
  uj_jarat_hozzaadasa (builtins := Parse.builtins)
      (St pelda_rendszer
          [" wiz300 "; "Budapest"; "Wien"; "30000"; "Wizz Air"; "2025-09-01"; "2"; "7"]
          [] ora_julius 0 (fun n => n) 0)
    = (Val tt,
       St (jarat_felveve pelda_rendszer pelda_legitarsasag uj) ["7"]
          [MUjJaratHozzaadasa; MJaratHozzaadva uj 39000]
          ora_julius 1 (fun n => n) 0).
Proof.
  intros uj.
  apply (X11_uj_jarat_felvetele (builtins := Parse.builtins)
           pelda_rendszer pelda_legitarsasag
           " wiz300 " "Budapest" "Wien" "30000" "Wizz Air" "2025-09-01" "2"
           (Float.of_Z 30000) (datetime_ymd 2025 9 1)
           ["7"] [] ora_julius 0%nat (fun n => n) 0%nat).
  - reflexivity.
  - repeat split; try (vm_compute; reflexivity). right. reflexivity.
  - apply (bool_decide_unpack _). vm_compute. exact I.
  - vm_compute. reflexivity.
Defined.

Lemma X12_uj_jarat_nem_veges_ar_witness :
  let uj := Jarat.mk "WIZ300" "Budapest" "Wien" (S754_infinity false) "Wizz Air"
                     (datetime_ymd 2025 9 1) AKTIV NemzetkoziJarat 8 in
  uj_jarat_hozzaadasa (builtins := Parse.builtins)
      (St pelda_rendszer
          [" wiz300 "; "Budapest"; "Wien"; pelda_nagy_ar; "Wizz Air"; "2025-09-01"; "2"; "7"]
          [] ora_julius 0 (fun n => n) 0)
    = (Val tt,
       St (jarat_felveve pelda_rendszer pelda_legitarsasag uj) ["7"]
          [MUjJaratHozzaadasa; MVaratlanHiba OverflowError]
          ora_julius 1 (fun n => n) 0) /\
  uj ∈ jaratok_of (jarat_felveve pelda_rendszer pelda_legitarsasag uj).
Proof.
  intros uj.
  assert (Ear : exists ar, Parse.float pelda_nagy_ar = Some ar /\
                           Float.leb ar (S754_zero false) = false /\
                           Float.mul ar Float.c1_3 = S754_infinity false).
  { eexists. split; [vm_compute; reflexivity |]. split; vm_compute; reflexivity. }
  destruct Ear as (ar & E1 & E2 & E3).
  assert (Euj : uj_jarat_peldany
                  (@py_strip Parse.builtins "2")
                  (@py_upper Parse.builtins (@py_strip Parse.builtins " wiz300 "))
                  (@py_strip Parse.builtins "Budapest")
                  (@py_strip Parse.builtins "Wien") ar
                  (@py_strip Parse.builtins "Wizz Air")
                  (datetime_ymd 2025 9 1) (ora_julius 0) = uj).
  { unfold uj_jarat_peldany, Jarat.init_nemzetkozi, Jarat.init.
    replace (@py_strip Parse.builtins "2") with "2" by reflexivity.
    cbn [String.eqb].
    rewrite E3. vm_compute. reflexivity. }
  pose proof (X12_uj_jarat_nem_veges_ar (builtins := Parse.builtins)
           pelda_rendszer pelda_legitarsasag
           " wiz300 " "Budapest" "Wien" pelda_nagy_ar "Wizz Air" "2025-09-01" "2"
           ar (datetime_ymd 2025 9 1)
           ["7"] [] ora_julius 0%nat (fun n => n) 0%nat) as H.
  cbv zeta in H. rewrite Euj in H. apply H.
  - reflexivity.
  - repeat split; try assumption; try (vm_compute; reflexivity). right. reflexivity.
  - apply (bool_decide_unpack _). vm_compute. exact I.
  - reflexivity.
Defined.

(** ** X13: a stored price that is not finite *)

Lemma int_of_float_kivetel (x : spec_float) (s : Allapot) :
  Float.is_finite x = false -> int_of_float x s = (Exc (int_kivetel x), s).
Proof. destruct x; cbn; intros H; (discriminate || reflexivity). Qed.

(** [print_jaratok] stops at the first flight whose price is not finite,
    with the lines of the flights before it printed. *)
Lemma print_jaratok_kivetel (elotte utana : list Jarat.t) (j : Jarat.t) :
  Forall (fun j => Float.is_finite (Jarat.jegyar j) = true) elotte ->
  Float.is_finite (Jarat.jegyar j) = false ->
  forall n r i o c cp v vp,
    print_jaratok n (elotte ++ j :: utana) (St r i o c cp v vp)
      = (Exc (int_kivetel (Jarat.jegyar j)),
         St r i (o ++ jarat_sorok n elotte) c cp v vp).
Proof.
  intros Hel Hj. induction Hel as [| a elotte Ha _ IH]; intros n r i o c cp v vp.
  - cbn [app print_jaratok jarat_sorok]. rewrite app_nil_r.
    apply bind_exc. apply int_of_float_kivetel. exact Hj.
  - cbn [app print_jaratok jarat_sorok].
    run_by ltac:(apply int_of_float_finite; exact Ha). run_prim.
    rewrite IH, <- app_assoc. reflexivity.
Qed.

Lemma menu_kiirasa_run r i o c cp v vp :
  menu_kiirasa (St r i o c cp v vp) = (Val tt, St r i (o ++ menu_sorok) c cp v vp).
Proof.
  unfold menu_kiirasa. do 9 run_prim. rewrite print_run.
  repeat rewrite <- app_assoc. reflexivity.
Qed.

Section NemVegesAr.

Context {builtins : PyBuiltins}.

(** X13.  Once the flight list holds a flight whose price is not finite,
    listing the flights raises ([ValueError] for a NaN, [OverflowError] for
    an infinity) after the lines of the flights before it; so does booking,
    when that flight is active, since the listing there stands before the
    [try]; and the menu loop has no handler, so choosing "5" ends the
    program with that exception.  The system is not changed. *)
Theorem X13_nem_veges_ar_listazasa (fuel : nat) (r : Rendszer) i o c cp v vp
    (elotte utana : list Jarat.t) (j : Jarat.t)
    (Hl : jaratok_of r = elotte ++ j :: utana)
    (Helotte : Forall (fun j => Float.is_finite (Jarat.jegyar j) = true) elotte)
    (Hj : Float.is_finite (Jarat.jegyar j) = false) :
  let fejlec := [MJaratokListaja (length (jaratok_of r)); MVonal] in
  jaratok_listazasa (St r i o c cp v vp)
    = (Exc (int_kivetel (Jarat.jegyar j)),
       St r i (o ++ fejlec ++ jarat_sorok 1 elotte) c cp v vp) /\
  (Jarat.is_aktiv j = true ->
   jegy_foglalas fuel (St r i o c cp v vp)
     = (Exc (int_kivetel (Jarat.jegyar j)),
        St r i (o ++ MElerhetoJaratok
                  :: jarat_sorok 1 (List.filter Jarat.is_aktiv elotte))
           c cp v vp)) /\
  (forall line,
     py_strip line = "5" ->
     menu_ciklus (S fuel) (St r (line :: i) o c cp v vp)
       = (Exc (int_kivetel (Jarat.jegyar j)),
          St r i (o ++ menu_sorok ++ fejlec ++ jarat_sorok 1 elotte) c cp v vp)).
Proof.
  cbv zeta.
  assert (Hlist : forall o,
    jaratok_listazasa (St r i o c cp v vp)
    = (Exc (int_kivetel (Jarat.jegyar j)),
       St r i (o ++ [MJaratokListaja (length (jaratok_of r)); MVonal]
                 ++ jarat_sorok 1 elotte) c cp v vp)).
  { intros o0. unfold jaratok_listazasa. run_prim.
    destruct (jaratok_of r) as [| j0 js] eqn:Ej.
    { destruct elotte; discriminate Hl. }
    do 2 run_prim. rewrite Hl.
    rewrite print_jaratok_kivetel by assumption.
    repeat rewrite <- app_assoc. reflexivity. }
  split; [apply Hlist | split].
  - intros Hakt. unfold jegy_foglalas. run_prim.
    destruct (jaratok_of r) as [| j0 js] eqn:Ej.
    { destruct elotte; discriminate Hl. }
    cbv zeta. rewrite Hl, List.filter_app. cbn [List.filter]. rewrite Hakt.
    destruct (List.filter Jarat.is_aktiv elotte ++ j :: List.filter Jarat.is_aktiv utana)
      as [| a0 aktiv] eqn:Ea.
    { destruct (List.filter Jarat.is_aktiv elotte); discriminate Ea. }
    run_prim. rewrite <- Ea.
    apply bind_exc. rewrite print_jaratok_kivetel; [| | exact Hj].
    + rewrite <- app_assoc. reflexivity.
    + rewrite Forall_forall in Helotte. apply Forall_forall. intros x Hx.
      apply Helotte. apply list_elem_of_In. apply list_elem_of_In in Hx.
      apply List.filter_In in Hx. tauto.
  - intros line Hline. cbn [menu_ciklus].
    run_by ltac:(apply menu_kiirasa_run). run_prim. cbv zeta. rewrite Hline.
    cbn [muvelet String.eqb Ascii.eqb Bool.eqb].
    apply bind_exc. rewrite Hlist, <- app_assoc. reflexivity.
Qed.

End NemVegesAr.

(** The example system after the flight WIZ300 was stored with an infinite
    price: listing the flights prints the line of WIZ102 and raises
    [OverflowError], in the menu loop as well, and so does booking. *)
Lemma X13_nem_veges_ar_listazasa_witness :
  let uj := Jarat.mk "WIZ300" "Budapest" "Wien" (S754_infinity false) "Wizz Air"
                     (datetime_ymd 2025 9 1) AKTIV NemzetkoziJarat 8 in
  let r := jarat_felveve pelda_rendszer pelda_legitarsasag uj in
  let sor := MJaratSor 1 (pelda_jarat "WIZ102") 16000 in
  jaratok_listazasa (St r ["7"] [] ora_julius 1 (fun n => n) 0)
    = (Exc OverflowError,
       St r ["7"] [MJaratokListaja 2; MVonal; sor] ora_julius 1 (fun n => n) 0) /\
  jegy_foglalas (builtins := Parse.builtins) 3 (St r ["7"] [] ora_julius 1 (fun n => n) 0)
    = (Exc OverflowError,
       St r ["7"] [MElerhetoJaratok; sor] ora_julius 1 (fun n => n) 0) /\
  menu_ciklus (builtins := Parse.builtins) 4
      (St r ["5"; "7"] [] ora_julius 1 (fun n => n) 0)
    = (Exc OverflowError,
       St r ["7"] (menu_sorok ++ [MJaratokListaja 2; MVonal; sor])
          ora_julius 1 (fun n => n) 0).
Proof.
  intros uj r sor.
  assert (Hl : jaratok_of r = [pelda_jarat "WIZ102"] ++ uj :: []) by reflexivity.
  assert (Hel : Forall (fun j => Float.is_finite (Jarat.jegyar j) = true)
                       [pelda_jarat "WIZ102"]) by (repeat constructor).
  assert (Hj : Float.is_finite (Jarat.jegyar uj) = false) by reflexivity.
  pose proof (X13_nem_veges_ar_listazasa (builtins := Parse.builtins) 3 r
                ["7"] [] ora_julius 1%nat (fun n => n) 0%nat
                [pelda_jarat "WIZ102"] [] uj Hl Hel Hj) as (H1 & H2 & H3).
  split; [exact H1 | split].
  - apply H2. reflexivity.
  - apply (H3 "5"). reflexivity.
Defined.

(** ** X14: forms that are refused *)

Section ElutasitottUrlap.

Context {builtins : PyBuiltins}.

(** X14.  [uj_jarat_hozzaadasa] stores nothing and returns normally, with
    the system and the clock as before, in each of these cases: there is no
    airline (no line is read); the input ends before the price prompt (the
    end-of-file error is caught by the outer handler); the price does not
    parse; the price parses and is [<= 0]; the date does not parse; the type
    is neither "1" nor "2".  Each case prints its own line, and reads the
    lines up to the field that is refused. *)
Theorem X14_urlap_elutasitasa (r : Rendszer) (n ind cel ars lts ds ts : string)
    (i : list string) o c cp v vp :
  (legitarsasag r = None ->
   uj_jarat_hozzaadasa (St r i o c cp v vp)
     = (Val tt, St r i (o ++ [MNincsLegitarsasag]) c cp v vp)) /\
  (legitarsasag r <> None ->
   (forall rovid,
      (length rovid < 4)%nat ->
      uj_jarat_hozzaadasa (St r rovid o c cp v vp)
        = (Val tt, St r [] (o ++ [MUjJaratHozzaadasa; MVaratlanHiba EOFError])
                      c cp v vp)) /\
   (py_float ars = None ->
    uj_jarat_hozzaadasa (St r (n :: ind :: cel :: ars :: i) o c cp v vp)
      = (Val tt, St r i (o ++ [MUjJaratHozzaadasa; MErvenytelenAr]) c cp v vp)) /\
   (forall ar,
      py_float ars = Some ar ->
      (Float.leb ar (S754_zero false) = true ->
       uj_jarat_hozzaadasa (St r (n :: ind :: cel :: ars :: i) o c cp v vp)
         = (Val tt, St r i (o ++ [MUjJaratHozzaadasa; MArPozitiv]) c cp v vp)) /\
      (Float.leb ar (S754_zero false) = false ->
       (strptime_ymd (py_strip ds) = None ->
        uj_jarat_hozzaadasa
            (St r (n :: ind :: cel :: ars :: lts :: ds :: i) o c cp v vp)
          = (Val tt, St r i (o ++ [MUjJaratHozzaadasa; MErvenytelenDatum])
                        c cp v vp)) /\
       (strptime_ymd (py_strip ds) <> None ->
        py_strip ts <> "1" -> py_strip ts <> "2" ->
        uj_jarat_hozzaadasa
            (St r (n :: ind :: cel :: ars :: lts :: ds :: ts :: i) o c cp v vp)
          = (Val tt, St r i (o ++ [MUjJaratHozzaadasa; MErvenytelenTipus])
                        c cp v vp))))).
Proof.
  split.
  { intros Hl. unfold uj_jarat_hozzaadasa. run_prim. rewrite Hl. apply print_run. }
  intros Hl. destruct (legitarsasag r) as [l |] eqn:El; [clear Hl | congruence].
  assert (Hstart : forall inp,
    uj_jarat_hozzaadasa (St r inp o c cp v vp)
    = try_except
      (do line <- input;
       let jaratszam := py_upper (py_strip line) in
       do line <- input;
       let indulo := py_strip line in
       do line <- input;
       let cel := py_strip line in
       do ar_opt <- alapjegyar_bekerese;
       match ar_opt with
       | None => ret tt
       | Some ar =>
         do line <- input;
         let legitarsasag := py_strip line in
         do line <- input;
         let datum_str := py_strip line in
         do datum_opt <- datum_ertelmezese datum_str;
         match datum_opt with
         | None => ret tt
         | Some datum =>
           do line <- input;
           let tipus := py_strip line in
           do uj_opt <- jarat_letrehozasa tipus jaratszam indulo cel ar legitarsasag datum;
           match uj_opt with
           | None => print MErvenytelenTipus
           | Some uj_jarat =>
               do _ <- self_jarat_hozzaadasa uj_jarat;
               do ar_egesz <- int_of_float (Jarat.jegyar uj_jarat);
               print (MJaratHozzaadva uj_jarat ar_egesz)
           end
         end
       end)
      (fun e =>
         match e with
         | ValueError _ => print (MHiba e)
         | _ => print (MVaratlanHiba e)
         end)
      (St r inp (o ++ [MUjJaratHozzaadasa]) c cp v vp)).
  { intros inp. unfold uj_jarat_hozzaadasa. run_prim. rewrite El. run_prim.
    reflexivity. }
  split; [| split].
  - intros rovid Hrovid. rewrite Hstart.
    assert (Hbe : forall s, stdin (vilag s) = [] ->
                  alapjegyar_bekerese s = (Exc EOFError, s)).
    { intros s Hs. unfold alapjegyar_bekerese, try_except, bind, input.
      rewrite Hs. reflexivity. }
    destruct rovid as [| l1 [| l2 [| l3 [| l4 rest]]]]; cbn in Hrovid; try lia.
    + erewrite try_except_exc by (apply bind_exc; reflexivity).
      cbv beta iota. rewrite print_run, <- app_assoc. reflexivity.
    + try_run_by ltac:(apply input_run).
      erewrite try_except_exc by (apply bind_exc; reflexivity).
      cbv beta iota. rewrite print_run, <- app_assoc. reflexivity.
    + do 2 try_run_by ltac:(apply input_run).
      erewrite try_except_exc by (apply bind_exc; reflexivity).
      cbv beta iota. rewrite print_run, <- app_assoc. reflexivity.
    + do 3 try_run_by ltac:(apply input_run).
      erewrite try_except_exc by (apply bind_exc; apply Hbe; reflexivity).
      cbv beta iota. rewrite print_run, <- app_assoc. reflexivity.
  - intros Ear. rewrite Hstart.
    do 3 try_run_by ltac:(apply input_run).
    assert (Hbe : alapjegyar_bekerese
                    (St r (ars :: i) (o ++ [MUjJaratHozzaadasa]) c cp v vp)
                  = (Val None,
                     St r i ((o ++ [MUjJaratHozzaadasa]) ++ [MErvenytelenAr]) c cp v vp)).
    { unfold alapjegyar_bekerese. erewrite try_except_exc.
      2: { run_prim. apply bind_exc. unfold float_of_str. rewrite Ear. reflexivity. }
      cbv beta iota. run_prim. reflexivity. }
    try_run_by ltac:(exact Hbe).
    erewrite try_except_val by reflexivity. rewrite <- app_assoc. reflexivity.
  - intros ar Ear. split.
    + intros Hle. rewrite Hstart.
      do 3 try_run_by ltac:(apply input_run).
      assert (Hbe : alapjegyar_bekerese
                      (St r (ars :: i) (o ++ [MUjJaratHozzaadasa]) c cp v vp)
                    = (Val None,
                       St r i ((o ++ [MUjJaratHozzaadasa]) ++ [MArPozitiv]) c cp v vp)).
      { unfold alapjegyar_bekerese. erewrite try_except_val; [reflexivity |].
        run_prim. unfold float_of_str. rewrite Ear. cbn [of_option].
        run_by ltac:(reflexivity). rewrite Hle. run_prim. reflexivity. }
      try_run_by ltac:(exact Hbe).
      erewrite try_except_val by reflexivity. rewrite <- app_assoc. reflexivity.
    + intros Hpos. split.
      * intros Ed. rewrite Hstart.
        do 3 try_run_by ltac:(apply input_run).
        try_run_by ltac:(apply alapjegyar_bekerese_run; eassumption).
        do 2 try_run_by ltac:(apply input_run).
        assert (Hd : datum_ertelmezese (py_strip ds)
                       (St r i (o ++ [MUjJaratHozzaadasa]) c cp v vp)
                     = (Val None,
                        St r i ((o ++ [MUjJaratHozzaadasa]) ++ [MErvenytelenDatum])
                           c cp v vp)).
        { unfold datum_ertelmezese. erewrite try_except_exc.
          2: { apply bind_exc. unfold strptime. rewrite Ed. reflexivity. }
          cbv beta iota. run_prim. reflexivity. }
        try_run_by ltac:(exact Hd).
        erewrite try_except_val by reflexivity. rewrite <- app_assoc. reflexivity.
      * intros Ed H1 H2. rewrite Hstart.
        destruct (strptime_ymd (py_strip ds)) as [datum |] eqn:Edatum; [| congruence].
        do 3 try_run_by ltac:(apply input_run).
        try_run_by ltac:(apply alapjegyar_bekerese_run; eassumption).
        do 2 try_run_by ltac:(apply input_run).
        try_run_by ltac:(apply datum_ertelmezese_run; eassumption).
        try_run_by ltac:(apply input_run).
        assert (Hj : forall a b c' d e f s,
                     jarat_letrehozasa (py_strip ts) a b c' d e f s = (Val None, s)).
        { intros. unfold jarat_letrehozasa.
          destruct (String.eqb_spec (py_strip ts) "1"); [congruence |].
          destruct (String.eqb_spec (py_strip ts) "2"); [congruence |].
          reflexivity. }
        try_run_by ltac:(apply Hj).
        erewrite try_except_val by (apply print_run).
        rewrite <- app_assoc. reflexivity.
Qed.

End ElutasitottUrlap.

(** In the example system: the price "abc", the price "0", the date
    "2025-13-01" and the type "3" are refused, each with its own line. *)
Lemma X14_urlap_elutasitasa_witness :
  let fut := fun inp =>
    uj_jarat_hozzaadasa (builtins := Parse.builtins)
      (St pelda_rendszer inp [] ora_julius 0 (fun n => n) 0) in
  let veg := fun m =>
    (Val tt, St pelda_rendszer ["7"] [MUjJaratHozzaadasa; m] ora_julius 0 (fun n => n) 0) in
  fut ["WIZ300"; "Budapest"; "Wien"; "abc"; "7"] = veg MErvenytelenAr /\
  fut ["WIZ300"; "Budapest"; "Wien"; "0"; "7"] = veg MArPozitiv /\
  fut ["WIZ300"; "Budapest"; "Wien"; "30000"; "Wizz Air"; "2025-13-01"; "7"]
    = veg MErvenytelenDatum /\
  fut ["WIZ300"; "Budapest"; "Wien"; "30000"; "Wizz Air"; "2025-09-01"; "3"; "7"]
    = veg MErvenytelenTipus.
Proof.
  intros fut veg.
  assert (Hl : legitarsasag pelda_rendszer <> None) by discriminate.
  split; [| split; [| split]].
  - apply (proj1 (proj2 (proj2 (X14_urlap_elutasitasa (builtins := Parse.builtins)
             pelda_rendszer "WIZ300" "Budapest" "Wien" "abc" "" "" ""
             ["7"] [] ora_julius 0%nat (fun n => n) 0%nat) Hl))).
    reflexivity.
  - apply (proj1 (proj2 (proj2 (proj2 (X14_urlap_elutasitasa (builtins := Parse.builtins)
             pelda_rendszer "WIZ300" "Budapest" "Wien" "0" "" "" ""
             ["7"] [] ora_julius 0%nat (fun n => n) 0%nat) Hl))
             (Float.of_Z 0) eq_refl)).
    reflexivity.
  - apply (proj1 (proj2 (proj2 (proj2 (proj2 (X14_urlap_elutasitasa
             (builtins := Parse.builtins)
             pelda_rendszer "WIZ300" "Budapest" "Wien" "30000" "Wizz Air" "2025-13-01" ""
             ["7"] [] ora_julius 0%nat (fun n => n) 0%nat) Hl))
             (Float.of_Z 30000) eq_refl) eq_refl)).
    reflexivity.
  - apply (proj2 (proj2 (proj2 (proj2 (proj2 (X14_urlap_elutasitasa
             (builtins := Parse.builtins)
             pelda_rendszer "WIZ300" "Budapest" "Wien" "30000" "Wizz Air" "2025-09-01" "3"
             ["7"] [] ora_julius 0%nat (fun n => n) 0%nat) Hl))
             (Float.of_Z 30000) eq_refl) eq_refl)); discriminate.
Defined.

(** ** X15: cancellations that change nothing *)

Section LemondasTalalatNelkul.

Context {builtins : PyBuiltins}.

(** X15.  [foglalas_lemondasa] has no handler of its own.  With no booking
    in the list it prints one line and reads nothing.  Otherwise it reads
    the identifier; if the input has ended, [EOFError] leaves the operation;
    if no booking is active under the identifier entered (trimmed, in upper
    case), it prints the not-found line.  In each of these cases the system
    is as before, and the clock and the generator are not used. *)
Theorem X15_lemondas_talalat_nelkul (r : Rendszer) (sor : string) i o c cp v vp :
  (foglalasok r = [] ->
   foglalas_lemondasa (St r i o c cp v vp)
     = (Val tt, St r i (o ++ [MNincsAktivFoglalas]) c cp v vp)) /\
  (foglalasok r <> [] ->
   foglalas_lemondasa (St r [] o c cp v vp) = (Exc EOFError, St r [] o c cp v vp) /\
   (Forall (fun f => illik (py_upper (py_strip sor)) f = false) (foglalasok r) ->
    foglalas_lemondasa (St r (sor :: i) o c cp v vp)
      = (Val tt, St r i (o ++ [MNemTalalhato]) c cp v vp))).
Proof.
  split.
  - intros E. unfold foglalas_lemondasa. run_prim. rewrite E. apply print_run.
  - intros Hne. destruct (foglalasok r) as [| f fs] eqn:E; [congruence |]. split.
    + unfold foglalas_lemondasa. run_prim. rewrite E. apply bind_exc. reflexivity.
    + intros Hnincs. unfold foglalas_lemondasa. run_prim. rewrite E. run_prim.
      cbv zeta. rewrite lemondas_kereses_nincs by exact Hnincs. apply print_run.
Qed.

End LemondasTalalatNelkul.

(** With the one booking AB123: the identifier "zz999" is not found; nor is
    "ab123" once the booking is cancelled. *)
Lemma X15_lemondas_talalat_nelkul_witness :
  foglalas_lemondasa (builtins := Parse.builtins)
      (St pelda_rendszer_foglalassal [" zz999 "; "7"] [] ora_julius 0 (fun n => n) 0)
    = (Val tt, St pelda_rendszer_foglalassal ["7"] [MNemTalalhato]
                  ora_julius 0 (fun n => n) 0) /\
  let lemondva :=
    mkRendszer (Some pelda_legitarsasag)
               [JegyFoglalas.set_statusz Lemondva pelda_foglalas] {[ "AB123" ]} in
  foglalas_lemondasa (builtins := Parse.builtins)
      (St lemondva ["ab123"; "7"] [] ora_julius 0 (fun n => n) 0)
    = (Val tt, St lemondva ["7"] [MNemTalalhato] ora_julius 0 (fun n => n) 0).
Proof.
  split; [| intros lemondva].
  - apply (proj2 (proj2 (X15_lemondas_talalat_nelkul (builtins := Parse.builtins)
                           pelda_rendszer_foglalassal
                           " zz999 " ["7"] [] ora_julius 0%nat (fun n => n) 0%nat)
                        ltac:(discriminate))).
    repeat constructor.
  - apply (proj2 (proj2 (X15_lemondas_talalat_nelkul (builtins := Parse.builtins)
                           lemondva
                           "ab123" ["7"] [] ora_julius 0%nat (fun n => n) 0%nat)
                        ltac:(discriminate))).
    repeat constructor.
Defined.

(** ** X16 to X18: the listings and the status report *)

Lemma print_foglalasok_run (l : list JegyFoglalas.t) :
  Forall (fun f => Float.is_finite (JegyFoglalas.ar f) = true) l ->
  forall r i o c cp v vp,
    print_foglalasok l (St r i o c cp v vp)
      = (Val tt, St r i (o ++ foglalas_sorok l) c cp v vp).
Proof.
  induction 1 as [| f l Hf _ IH]; intros r i o c cp v vp.
  - cbn. rewrite app_nil_r. reflexivity.
  - cbn [print_foglalasok foglalas_sorok].
    run_by ltac:(apply int_of_float_finite; exact Hf). run_prim.
    rewrite IH, <- app_assoc. reflexivity.
Qed.

Lemma Forall_filter_veges {A} (P : A -> bool) (Q : A -> Prop) (l : list A) :
  Forall Q l -> Forall Q (List.filter P l).
Proof.
  induction 1 as [| a l Ha _ IH]; cbn; [constructor |].
  destruct (P a); [constructor; assumption | assumption].
Qed.

(** Every booking is active or cancelled, and not both. *)
Lemma aktiv_vagy_lemondva (l : list JegyFoglalas.t) :
  (length (List.filter JegyFoglalas.is_aktiv l)
   + length (List.filter JegyFoglalas.is_lemondva l) = length l)%nat.
Proof.
  induction l as [| f l IH]; [reflexivity |].
  assert (H : JegyFoglalas.is_aktiv f = negb (JegyFoglalas.is_lemondva f)).
  { unfold JegyFoglalas.is_aktiv, JegyFoglalas.is_lemondva.
    destruct (JegyFoglalas.statusz f); reflexivity. }
  cbn [List.filter]. rewrite H.
  destruct (JegyFoglalas.is_lemondva f); cbn [negb length]; lia.
Qed.

(** Every flight is domestic or international, and not both. *)
Lemma belfoldi_vagy_nemzetkozi (l : list Jarat.t) :
  (length (List.filter (Jarat.isinstance BelfoldiJarat) l)
   + length (List.filter (Jarat.isinstance NemzetkoziJarat) l) = length l)%nat.
Proof.
  induction l as [| j l IH]; [reflexivity |].
  assert (H : Jarat.isinstance BelfoldiJarat j
              = negb (Jarat.isinstance NemzetkoziJarat j)).
  { unfold Jarat.isinstance. destruct (Jarat.osztaly j); reflexivity. }
  cbn [List.filter]. rewrite H.
  destruct (Jarat.isinstance NemzetkoziJarat j); cbn [negb length]; lia.
Qed.

(** The line of the [k]-th flight of a listing carries the number [k + 1]
    when the listing starts at 1. *)
Lemma jarat_sorok_lookup (l : list Jarat.t) :
  forall n k,
    jarat_sorok n l !! k
      = (fun j => MJaratSor (n + k) j (Float.trunc (Jarat.jegyar j))) <$> l !! k.
Proof.
  induction l as [| j l IH]; intros n k; [reflexivity |].
  destruct k as [| k]; cbn [jarat_sorok].
  - cbn. rewrite Nat.add_0_r. reflexivity.
  - cbn [lookup list_lookup]. rewrite IH. replace (S n + k)%nat with (n + S k)%nat by lia.
    reflexivity.
Qed.

(** X16.  [foglalasok_listazasa] on a system with bookings whose prices
    are finite: it prints the total, the number of active bookings and
    their lines in the order of the list, and then, only if there is a
    cancelled booking, the number of cancelled bookings and their lines.
    The two numbers add up to the total.  It reads nothing and changes
    nothing; with no booking it prints a single line. *)
Theorem X16_foglalasok_listaja (r : Rendszer) i o c cp v vp :
  let aktiv := List.filter JegyFoglalas.is_aktiv (foglalasok r) in
  let lemondott := List.filter JegyFoglalas.is_lemondva (foglalasok r) in
  (foglalasok r = [] ->
   foglalasok_listazasa (St r i o c cp v vp)
     = (Val tt, St r i (o ++ [MNincsFoglalas]) c cp v vp)) /\
  (foglalasok r <> [] ->
   Forall (fun f => Float.is_finite (JegyFoglalas.ar f) = true) (foglalasok r) ->
   foglalasok_listazasa (St r i o c cp v vp)
     = (Val tt,
        St r i
           (o ++ [MFoglalasokListaja (length (foglalasok r)); MVonal;
                  MAktivFoglalasok (length aktiv)]
              ++ foglalas_sorok aktiv
              ++ match lemondott with
                 | [] => []
                 | _ :: _ => MLemondottFoglalasok (length lemondott)
                             :: foglalas_sorok lemondott
                 end)
           c cp v vp)) /\
  (length aktiv + length lemondott = length (foglalasok r))%nat.
Proof.
  cbv zeta. split; [| split].
  - intros E. unfold foglalasok_listazasa. run_prim. rewrite E. apply print_run.
  - intros Hne Hfin. unfold foglalasok_listazasa. run_prim.
    destruct (foglalasok r) as [| f fs] eqn:E; [congruence |].
    cbv zeta. do 3 run_prim.
    run_by ltac:(apply print_foglalasok_run, Forall_filter_veges, Hfin).
    pose proof (Forall_filter_veges JegyFoglalas.is_lemondva _ _ Hfin) as Hlem.
    destruct (List.filter JegyFoglalas.is_lemondva (f :: fs)) as [| g gs].
    + unfold ret. rewrite app_nil_r. repeat rewrite <- app_assoc. reflexivity.
    + run_prim. rewrite print_foglalasok_run by exact Hlem.
      repeat rewrite <- app_assoc. reflexivity.
  - apply aktiv_vagy_lemondva.
Qed.

(** X17.  [jaratok_listazasa] on a system whose flights have finite prices:
    it prints the number of flights and one line per flight, inactive ones
    included, in insertion order; the line of the flight at position [k] of
    the list carries the number [k + 1].  It reads nothing and changes
    nothing; with no airline or no flight it prints a single line. *)
Theorem X17_jaratok_listaja (r : Rendszer) i o c cp v vp :
  (jaratok_of r = [] ->
   jaratok_listazasa (St r i o c cp v vp)
     = (Val tt, St r i (o ++ [MNincsJarat]) c cp v vp)) /\
  (jaratok_of r <> [] ->
   Forall (fun j => Float.is_finite (Jarat.jegyar j) = true) (jaratok_of r) ->
   jaratok_listazasa (St r i o c cp v vp)
     = (Val tt,
        St r i
           (o ++ [MJaratokListaja (length (jaratok_of r)); MVonal]
              ++ jarat_sorok 1 (jaratok_of r))
           c cp v vp)) /\
  (forall k j,
     jaratok_of r !! k = Some j ->
     jarat_sorok 1 (jaratok_of r) !! k
       = Some (MJaratSor (S k) j (Float.trunc (Jarat.jegyar j)))) /\
  length (jarat_sorok 1 (jaratok_of r)) = length (jaratok_of r).
Proof.
  split; [| split; [| split]].
  - intros E. unfold jaratok_listazasa. run_prim. rewrite E. apply print_run.
  - intros Hne Hfin. unfold jaratok_listazasa. run_prim.
    destruct (jaratok_of r) as [| j js] eqn:E; [congruence |].
    do 2 run_prim. rewrite print_jaratok_run by exact Hfin.
    repeat rewrite <- app_assoc. reflexivity.
  - intros k j Hk. rewrite jarat_sorok_lookup, Hk. reflexivity.
  - generalize 1%nat. induction (jaratok_of r) as [| j l IH]; intros n; cbn;
      [reflexivity | rewrite IH; reflexivity].
Qed.

(** X18.  [rendszer_allapota] always returns normally, whatever the prices
    and the statuses, reads nothing and changes nothing.  With an airline it
    prints ten lines; the domestic and the international count add up to the
    number of flights, the active and the cancelled count to the number of
    bookings, and no more flights are active than there are flights.
    Without an airline it prints six lines. *)
Theorem X18_allapot_jelentes (r : Rendszer) i o c cp v vp :
  (forall l,
     legitarsasag r = Some l ->
     rendszer_allapota (St r i o c cp v vp)
       = (Val tt, St r i (o ++ allapot_sorok l (foglalasok r)) c cp v vp) /\
     (length (List.filter (Jarat.isinstance BelfoldiJarat) (Legitarsasag.jaratok l))
      + length (List.filter (Jarat.isinstance NemzetkoziJarat) (Legitarsasag.jaratok l))
      = length (Legitarsasag.jaratok l))%nat /\
     (length (List.filter Jarat.is_aktiv (Legitarsasag.jaratok l))
      <= length (Legitarsasag.jaratok l))%nat) /\
  (legitarsasag r = None ->
   rendszer_allapota (St r i o c cp v vp)
     = (Val tt,
        St r i
           (o ++ [MRendszerAllapota; MVonal; MNincsLegitarsasag;
                  MFoglalasokSzama (length (foglalasok r));
                  MAktivFoglalasokSzama
                    (length (List.filter JegyFoglalas.is_aktiv (foglalasok r)));
                  MLemondottFoglalasokSzama
                    (length (List.filter JegyFoglalas.is_lemondva (foglalasok r)))])
           c cp v vp)) /\
  (length (List.filter JegyFoglalas.is_aktiv (foglalasok r))
   + length (List.filter JegyFoglalas.is_lemondva (foglalasok r))
   = length (foglalasok r))%nat.
Proof.
  split; [| split].
  - intros l Hl. destruct r as [lt fs X]. cbn in Hl. subst lt. split; [| split].
    + apply rendszer_allapota_run.
    + apply belfoldi_vagy_nemzetkozi.
    + apply List.filter_length_le.
  - intros Hl. destruct r as [lt fs X]. cbn in Hl. subst lt.
    unfold rendszer_allapota, bind, print. cbn.
    repeat rewrite <- app_assoc. reflexivity.
  - apply aktiv_vagy_lemondva.
Qed.

(** ** X19: the menu loop *)

Section MenuCiklus.

Context {builtins : PyBuiltins}.

Lemma muvelet_ervenytelen (fuel : nat) (line : string) :
  ervenytelen_valasztas line = true ->
  muvelet fuel (py_strip line) = None /\ String.eqb (py_strip line) "7" = false.
Proof.
  unfold ervenytelen_valasztas, muvelet. cbn [existsb].
  intros H. apply negb_true_iff in H.
  repeat (let E := fresh "E" in
          apply orb_false_iff in H; destruct H as [E H]; rewrite E).
  split; reflexivity.
Qed.

Lemma menu_ciklus_ervenytelen (fuel : nat) (line : string) r i o c cp v vp :
  ervenytelen_valasztas line = true ->
  menu_ciklus (S fuel) (St r (line :: i) o c cp v vp)
    = menu_ciklus fuel (St r i (o ++ menu_sorok ++ [MErvenytelenMenu]) c cp v vp).
Proof.
  intros H. destruct (muvelet_ervenytelen fuel line H) as [E1 E2].
  cbn [menu_ciklus]. run_by ltac:(apply menu_kiirasa_run). run_prim. cbv zeta.
  rewrite E1, E2. run_prim. rewrite <- app_assoc. reflexivity.
Qed.

Lemma menu_ciklus_ervenytelen_korok (rossz : list string) :
  Forall (fun l => ervenytelen_valasztas l = true) rossz ->
  forall fuel i r o c cp v vp,
    menu_ciklus (length rossz + fuel) (St r (rossz ++ i) o c cp v vp)
      = menu_ciklus fuel
          (St r i (o ++ ervenytelen_korok (length rossz)) c cp v vp).
Proof.
  induction 1 as [| l rossz Hl _ IH]; intros fuel i r o c cp v vp.
  - cbn. rewrite app_nil_r. reflexivity.
  - cbn [length Nat.add app ervenytelen_korok].
    rewrite menu_ciklus_ervenytelen by exact Hl. rewrite IH.
    repeat rewrite <- app_assoc. reflexivity.
Qed.

(** X19.  The menu loop reads one line per round.  A line that, trimmed, is
    none of "1" .. "7" costs a round: the menu and the invalid-choice line
    are printed and nothing else happens.  After any number of such lines,
    a line that trims to "7" ends the loop normally with the farewell line,
    and the end of the input ends it with [EOFError]: the loop has no
    handler.  The system, the clock and the generator are as before. *)
Theorem X19_menu_kilepes (fuel : nat) (rossz : list string) (kilep : string)
    (r : Rendszer) (i : list string) o c cp v vp
    (Hrossz : Forall (fun l => ervenytelen_valasztas l = true) rossz)
    (Hkilep : py_strip kilep = "7")
    (Hfuel : (length rossz < fuel)%nat) :
  menu_ciklus fuel (St r (rossz ++ kilep :: i) o c cp v vp)
    = (Val tt,
       St r i (o ++ ervenytelen_korok (length rossz) ++ menu_sorok ++ [MKoszonjuk])
          c cp v vp) /\
  menu_ciklus fuel (St r rossz o c cp v vp)
    = (Exc EOFError,
       St r [] (o ++ ervenytelen_korok (length rossz) ++ menu_sorok) c cp v vp).
Proof.
  replace fuel with (length rossz + S (fuel - length rossz - 1))%nat by lia.
  split.
  - rewrite menu_ciklus_ervenytelen_korok by exact Hrossz.
    cbn [menu_ciklus]. run_by ltac:(apply menu_kiirasa_run). run_prim. cbv zeta.
    rewrite Hkilep. cbn [muvelet String.eqb Ascii.eqb Bool.eqb].
    rewrite print_run. repeat rewrite <- app_assoc. reflexivity.
  - replace (St r rossz o c cp v vp) with (St r (rossz ++ []) o c cp v vp)
      by (rewrite app_nil_r; reflexivity).
    rewrite menu_ciklus_ervenytelen_korok by exact Hrossz.
    cbn [menu_ciklus]. run_by ltac:(apply menu_kiirasa_run).
    erewrite bind_exc by reflexivity. rewrite <- app_assoc. reflexivity.
Qed.

End MenuCiklus.

(** Two invalid choices, "8" and "x", then " 7 ". *)
Lemma X19_menu_kilepes_witness :
  menu_ciklus (builtins := Parse.builtins) 3
      (St pelda_rendszer (["8"; "x"] ++ [" 7 "; "1"]) [] ora_julius 0 (fun n => n) 0)
    = (Val tt,
       St pelda_rendszer ["1"]
          (menu_sorok ++ [MErvenytelenMenu] ++ menu_sorok ++ [MErvenytelenMenu]
             ++ menu_sorok ++ [MKoszonjuk])
          ora_julius 0 (fun n => n) 0) /\
  menu_ciklus (builtins := Parse.builtins) 3
      (St pelda_rendszer ["8"; "x"] [] ora_julius 0 (fun n => n) 0)
    = (Exc EOFError,
       St pelda_rendszer []
          (menu_sorok ++ [MErvenytelenMenu] ++ menu_sorok ++ [MErvenytelenMenu]
             ++ menu_sorok)
          ora_julius 0 (fun n => n) 0).
Proof.
  apply (X19_menu_kilepes (builtins := Parse.builtins) 3 ["8"; "x"] " 7 "
           pelda_rendszer ["1"] [] ora_julius 0%nat (fun n => n) 0%nat).
  - repeat constructor.
  - reflexivity.
  - cbn. lia.
Defined.

(** ** X20: the operations that only print *)

Lemma csak_kiir_ret {A} (a : A) : csak_kiir (ret a).
Proof.
  intros r i o c cp v vp. exists (Val a), []. rewrite app_nil_r.
  split; [reflexivity | discriminate].
Qed.

Lemma csak_kiir_print (m : Msg) : csak_kiir (print m).
Proof.
  intros r i o c cp v vp. exists (Val tt), [m]. split; [apply print_run | discriminate].
Qed.

Lemma csak_kiir_get_self : csak_kiir get_self.
Proof.
  intros r i o c cp v vp. exists (Val r), []. rewrite app_nil_r.
  split; [reflexivity | discriminate].
Qed.

Lemma csak_kiir_int_of_float (x : spec_float) : csak_kiir (int_of_float x).
Proof.
  intros r i o c cp v vp.
  destruct x; cbn; eexists _, []; rewrite app_nil_r;
    (split; [reflexivity | discriminate]).
Qed.

Lemma csak_kiir_bind {A B} (m : M A) (k : A -> M B) :
  csak_kiir m -> (forall a, csak_kiir (k a)) -> csak_kiir (bind m k).
Proof.
  intros Hm Hk r i o c cp v vp.
  destruct (Hm r i o c cp v vp) as (res & t1 & E & Hres).
  destruct res as [a | e |]; [| | congruence].
  - destruct (Hk a r i (o ++ t1) c cp v vp) as (res2 & t2 & E2 & Hres2).
    exists res2, (t1 ++ t2). rewrite (bind_val _ _ _ _ _ E), E2, app_assoc.
    split; [reflexivity | exact Hres2].
  - exists (Exc e), t1. rewrite (bind_exc _ _ _ _ _ E).
    split; [reflexivity | discriminate].
Qed.

Lemma csak_kiir_print_jaratok (l : list Jarat.t) :
  forall n, csak_kiir (print_jaratok n l).
Proof.
  induction l as [| j l IH]; intros n; cbn [print_jaratok].
  - apply csak_kiir_ret.
  - apply csak_kiir_bind; [apply csak_kiir_int_of_float | intros ar].
    apply csak_kiir_bind; [apply csak_kiir_print | intros _]. apply IH.
Qed.

Lemma csak_kiir_print_foglalasok (l : list JegyFoglalas.t) :
  csak_kiir (print_foglalasok l).
Proof.
  induction l as [| f l IH]; cbn [print_foglalasok].
  - apply csak_kiir_ret.
  - apply csak_kiir_bind; [apply csak_kiir_int_of_float | intros ar].
    apply csak_kiir_bind; [apply csak_kiir_print | intros _]. apply IH.
Qed.

(** X20.  The two listings and the status report only print: from every
    state, whatever the flights, the bookings and their prices, each of them
    ends (the status report always normally) with the system, the remaining
    input, the clock and the random generator exactly as before, and with
    the lines printed earlier still in place. *)
Theorem X20_csak_kiiro_muveletek :
  csak_kiir foglalasok_listazasa /\
  csak_kiir jaratok_listazasa /\
  csak_kiir rendszer_allapota /\
  (forall s, fst (rendszer_allapota s) = Val tt).
Proof.
  split; [| split; [| split]].
  - unfold foglalasok_listazasa.
    apply csak_kiir_bind; [apply csak_kiir_get_self | intros r].
    destruct (foglalasok r) as [| f fs]; [apply csak_kiir_print |].
    cbv zeta.
    do 3 (apply csak_kiir_bind; [apply csak_kiir_print | intros _]).
    apply csak_kiir_bind; [apply csak_kiir_print_foglalasok | intros _].
    destruct (List.filter JegyFoglalas.is_lemondva (f :: fs));
      [apply csak_kiir_ret |].
    apply csak_kiir_bind; [apply csak_kiir_print | intros _].
    apply csak_kiir_print_foglalasok.
  - unfold jaratok_listazasa.
    apply csak_kiir_bind; [apply csak_kiir_get_self | intros r].
    destruct (jaratok_of r) as [| j js]; [apply csak_kiir_print |].
    do 2 (apply csak_kiir_bind; [apply csak_kiir_print | intros _]).
    apply csak_kiir_print_jaratok.
  - unfold rendszer_allapota.
    apply csak_kiir_bind; [apply csak_kiir_get_self | intros r].
    do 2 (apply csak_kiir_bind; [apply csak_kiir_print | intros _]).
    apply csak_kiir_bind.
    + destruct (legitarsasag r) as [l |]; [| apply csak_kiir_print].
      do 4 (apply csak_kiir_bind; [apply csak_kiir_print | intros _]).
      apply csak_kiir_print.
    + intros _. do 2 (apply csak_kiir_bind; [apply csak_kiir_print | intros _]).
      apply csak_kiir_print.
  - intros [[lt fs X] w]. unfold rendszer_allapota, bind, print, get_self.
    destruct lt; reflexivity.
Qed.

(** ** X21: a whole run without a valid choice *)

Section TeljesFutas.

Context {builtins : PyBuiltins}.

(** X21.  [futtatas] on a new system, when the lines entered are invalid
    choices followed by a line that trims to "7": the program returns
    normally and leaves the seeded system (three flights, six bookings),
    having read the clock three times, once per seed flight, and drawn
    thirty random numbers, five per seed booking; it prints the two
    start-up lines, one menu and one invalid-choice line per invalid
    choice, a last menu and the farewell; the lines after the "7" are not
    read. *)
Theorem X21_futtatas_kilepes (fuel : nat) (rossz : list string) (kilep : string)
    (i : list string) (c : nat -> datetime) (v : nat -> nat)
    (Hrossz : Forall (fun l => ervenytelen_valasztas l = true) rossz)
    (Hkilep : py_strip kilep = "7")
    (Hfuel : (length rossz < fuel)%nat) :
  futtatas fuel (mkAllapot Rendszer_init (Vilag_init (rossz ++ kilep :: i) c v))
    = (Val tt,
       St (mkRendszer
             (Some (Legitarsasag.mk "Wizz Air Hungary" (teszt_jaratok c 0)))
             (teszt_foglalasok c 0 v 0)
             (ids_hozzaadva (teszt_foglalasok c 0 v 0) ∅))
          i
          ([MInicializalas; MTesztadatokBetoltve]
             ++ ervenytelen_korok (length rossz) ++ menu_sorok ++ [MKoszonjuk])
          c 3 v 30) /\
  length (teszt_jaratok c 0) = 3%nat /\
  length (teszt_foglalasok c 0 v 0) = 6%nat.
Proof.
  split; [| split; reflexivity].
  unfold futtatas, Vilag_init. run_prim.
  run_by ltac:(apply init_test_adatok_run). run_prim.
  replace fuel with (length rossz + S (fuel - length rossz - 1))%nat by lia.
  rewrite menu_ciklus_ervenytelen_korok by exact Hrossz.
  cbn [menu_ciklus]. run_by ltac:(apply menu_kiirasa_run). run_prim. cbv zeta.
  rewrite Hkilep. cbn [muvelet String.eqb Ascii.eqb Bool.eqb].
  rewrite print_run. repeat rewrite <- app_assoc. reflexivity.
Qed.

End TeljesFutas.

Lemma X21_futtatas_kilepes_witness :
  fst (futtatas (builtins := Parse.builtins) 2
         (mkAllapot Rendszer_init
            (Vilag_init (["9"] ++ ["7"; "1"]) ora_2024 (fun n => n)))) = Val tt /\
  stdin (vilag (snd (futtatas (builtins := Parse.builtins) 2
         (mkAllapot Rendszer_init
            (Vilag_init (["9"] ++ ["7"; "1"]) ora_2024 (fun n => n)))))) = ["1"].
Proof.
  pose proof (proj1 (X21_futtatas_kilepes (builtins := Parse.builtins) 2 ["9"] "7" ["1"]
                ora_2024 (fun n => n)
                ltac:(repeat constructor) eq_refl ltac:(cbn; lia))) as E.
  rewrite E. split; reflexivity.
Defined.

(** ** X22: a new booking can be cancelled under its identifier *)

Section UjFoglalasLemondasa.

Context {builtins : PyBuiltins}.

(** X22.  In a system where the identifier of every booking is recorded as
    used, a booking appended under an unused identifier is the one that a
    cancellation under that identifier finds, however the identifier is
    typed (spaces around it, lower case): after the confirmation "i" the
    new booking, and no other, is [Lemondva], and the refund printed is the
    integer part of the flight's price times 0.7. *)
Theorem X22_uj_foglalas_lemondhato (r : Rendszer) (jarat : Jarat.t)
    (utas_nev foglalas_id sor megerosites : string) i o c cp v vp
    (Hids : Forall (fun g => JegyFoglalas.foglalas_id g ∈ existing_foglalas_ids r)
                   (foglalasok r))
    (Hfriss : foglalas_id ∉ existing_foglalas_ids r)
    (Hsor : py_upper (py_strip sor) = foglalas_id)
    (Hi : py_lower (py_strip megerosites) = "i")
    (Har : Float.is_finite (Jarat.jegyar jarat) = true)
    (Hv : Float.is_finite (Float.mul (Jarat.jegyar jarat) Float.c0_7) = true) :
  let f := JegyFoglalas.init foglalas_id jarat utas_nev in
  foglalas_lemondasa
      (St (mkRendszer (legitarsasag r) (foglalasok r ++ [f])
                      ({[ foglalas_id ]} ∪ existing_foglalas_ids r))
          (sor :: megerosites :: i) o c cp v vp)
    = (Val tt,
       St (mkRendszer (legitarsasag r)
                      (foglalasok r ++ [JegyFoglalas.set_statusz Lemondva f])
                      ({[ foglalas_id ]} ∪ existing_foglalas_ids r))
          i
          (o ++ [MFoglalasReszletei;
                 MFoglalas f (Float.trunc (Jarat.jegyar jarat));
                 MSikeresenLemondva;
                 MVisszaterites
                   (Float.trunc (Float.mul (Jarat.jegyar jarat) Float.c0_7))])
          c cp v vp).
Proof.
  intros f. destruct r as [lt fs X].
  cbn [foglalasok legitarsasag existing_foglalas_ids] in *.
  assert (Helotte : Forall (fun g => illik (py_upper (py_strip sor)) g = false) fs).
  { eapply Forall_impl; [exact Hids |]. intros g Hg. cbn beta in Hg.
    unfold illik. apply andb_false_iff. left. apply String.eqb_neq.
    intros E. apply Hfriss. rewrite <- Hsor, <- E. exact Hg. }
  unfold foglalas_lemondasa. run_prim. cbn [foglalasok].
  destruct (fs ++ [f]) as [| x xs] eqn:E; [destruct fs; discriminate |].
  rewrite <- E. run_prim. cbv zeta.
  rewrite lemondas_kereses_skip by exact Helotte.
  cbn [lemondas_kereses]. rewrite Hsor.
  replace (JegyFoglalas.foglalas_id f) with foglalas_id by reflexivity.
  rewrite String.eqb_refl.
  replace (JegyFoglalas.is_aktiv f) with true by reflexivity.
  cbn [andb].
  replace (JegyFoglalas.ar f) with (Jarat.jegyar jarat) by reflexivity.
  run_prim.
  run_by ltac:(apply int_of_float_finite; exact Har).
  do 2 run_prim.
  rewrite Hi. cbn [String.eqb Ascii.eqb Bool.eqb andb].
  run_by ltac:(apply foglalas_set_statusz_run).
  run_prim.
  run_by ltac:(apply int_of_float_finite; exact Hv).
  rewrite print_run. rewrite alter_app_r. cbn [alter list_alter].
  repeat rewrite <- app_assoc. reflexivity.
Qed.

End UjFoglalasLemondasa.

(** The booking FG789 for "Kis Pál", appended to the one booking AB123, is
    cancelled under " fg789 " with a refund of 11200; AB123 stays active. *)
Lemma X22_uj_foglalas_lemondhato_witness :
  let f := JegyFoglalas.init "FG789" (pelda_jarat "WIZ102") "Kis Pál" in
  foglalas_lemondasa (builtins := Parse.builtins)
      (St (mkRendszer (Some pelda_legitarsasag) [pelda_foglalas; f]
                      ({[ "FG789" ]} ∪ {[ "AB123" ]}))
          [" fg789 "; "I"; "7"] [] ora_julius 0 (fun n => n) 0)
    = (Val tt,
       St (mkRendszer (Some pelda_legitarsasag)
                      [pelda_foglalas; JegyFoglalas.set_statusz Lemondva f]
                      ({[ "FG789" ]} ∪ {[ "AB123" ]}))
          ["7"]
          [MFoglalasReszletei; MFoglalas f 16000; MSikeresenLemondva;
           MVisszaterites 11200]
          ora_julius 0 (fun n => n) 0).
Proof.
  intros f.
  apply (X22_uj_foglalas_lemondhato (builtins := Parse.builtins)
           pelda_rendszer_foglalassal (pelda_jarat "WIZ102")
           "Kis Pál" "FG789" " fg789 " "I" ["7"] [] ora_julius 0%nat (fun n => n) 0%nat).
  - apply (bool_decide_unpack _). vm_compute. exact I.
  - apply (bool_decide_unpack _). vm_compute. exact I.
  - reflexivity.
  - reflexivity.
  - reflexivity.
  - vm_compute. reflexivity.
Defined.

(** ** X23: a form with a flight number that is taken *)

Section FoglaltJaratszam.

Context {builtins : PyBuiltins}.

(** X23.  A form that is valid in every field, with a flight number that,
    trimmed and in upper case, is the number of a flight of the airline: the
    flight object is constructed (the clock is read once) but not stored;
    the error raised by the airline is caught and printed with the number,
    and the system is as before. *)
Theorem X23_foglalt_jaratszam (r : Rendszer) (l : Legitarsasag.t)
    (n ind cel ars lts ds ts : string) (ar : spec_float) (datum : datetime)
    i o c cp v vp
    (Hl : legitarsasag r = Some l)
    (Hform : urlap_ervenyes ars ds ts ar datum)
    (Hfoglalt : py_upper (py_strip n)
                ∈ List.map Jarat.jaratszam (Legitarsasag.jaratok l)) :
  uj_jarat_hozzaadasa (St r (n :: ind :: cel :: ars :: lts :: ds :: ts :: i) o c cp v vp)
    = (Val tt,
       St r i
          (o ++ [MUjJaratHozzaadasa;
                 MHiba (ValueError (JaratszamMarLetezik (py_upper (py_strip n))))])
          c (S cp) v vp).
Proof. apply uj_jarat_duplikalt_run with l ar datum; assumption. Qed.

End FoglaltJaratszam.

(** In the example system, "wiz102" is refused: WIZ102 exists. *)
Lemma X23_foglalt_jaratszam_witness :
  uj_jarat_hozzaadasa (builtins := Parse.builtins)
      (St pelda_rendszer
          ["wiz102"; "Budapest"; "Wien"; "30000"; "Wizz Air"; "2025-09-01"; "2"; "7"]
          [] ora_julius 0 (fun n => n) 0)
    = (Val tt,
       St pelda_rendszer ["7"]
          [MUjJaratHozzaadasa; MHiba (ValueError (JaratszamMarLetezik "WIZ102"))]
          ora_julius 1 (fun n => n) 0).
Proof.
  apply (X23_foglalt_jaratszam (builtins := Parse.builtins)
           pelda_rendszer pelda_legitarsasag
           "wiz102" "Budapest" "Wien" "30000" "Wizz Air" "2025-09-01" "2"
           (Float.of_Z 30000) (datetime_ymd 2025 9 1)
           ["7"] [] ora_julius 0%nat (fun n => n) 0%nat).
  - reflexivity.
  - repeat split; try (vm_compute; reflexivity). right. reflexivity.
  - apply (bool_decide_unpack _). vm_compute. exact I.
Defined.

(** ** X24: how far the refund printed is from 0.7 times the price *)


